(** * Route resolution of the website router (frappe/website/router.py)

    A shallow embedding of the router module: Python text as [string],
    [frappe._dict] objects as finite maps from attribute names to values,
    Python exceptions as an error result, and the cache store together
    with the scanned file system as explicit state that every operation
    threads through.  The collaborators the module only calls (the
    template loader, the markdown renderer, [os.walk], [os.path.exists],
    the database tables, the record controllers) are the fields of a
    [site] record. *)

From Stdlib Require Import ZArith Ascii String List Bool Lia.
From stdpp Require Import base option list gmap strings pretty fin_maps.

Local Open Scope stdpp_scope.

(** ** Python text operations used by the router *)

Module PyStr.

(** [s.startswith(p)] *)
Fixpoint startswith (p s : string) : bool :=
  match p, s with
  | EmptyString, _ => true
  | String _ _, EmptyString => false
  | String a p', String b s' => Ascii.eqb a b && startswith p' s'
  end.

(** [sub in s] *)
Fixpoint contains (sub s : string) : bool :=
  startswith sub s ||
  match s with
  | EmptyString => false
  | String _ s' => contains sub s'
  end.

(** [s.endswith(suf)] *)
Fixpoint endswith (suf s : string) : bool :=
  String.eqb suf s ||
  match s with
  | EmptyString => false
  | String _ s' => endswith suf s'
  end.

(** [s.rsplit(sep, 1)] for a one-character separator: the text before
    and after the last [sep]; [None] when [s] has no [sep] (Python then
    returns a one-element list, and unpacking it into two names raises
    [ValueError]). *)
Fixpoint rsplit1 (sep : ascii) (s : string) : option (string * string) :=
  match s with
  | EmptyString => None
  | String c s' =>
      match rsplit1 sep s' with
      | Some (a, b) => Some (String c a, b)
      | None => if Ascii.eqb c sep then Some (EmptyString, s') else None
      end
  end.

(** [s.split(sep)] for a one-character separator. *)
Fixpoint split (sep : ascii) (s : string) : list string :=
  match s with
  | EmptyString => [EmptyString]
  | String c s' =>
      if Ascii.eqb c sep then EmptyString :: split sep s'
      else match split sep s' with
           | x :: xs => String c x :: xs
           | [] => [String c EmptyString]
           end
  end.

(** [sep.join(l)] *)
Fixpoint join (sep : string) (l : list string) : string :=
  match l with
  | [] => EmptyString
  | [x] => x
  | x :: xs => x +:+ sep +:+ join sep xs
  end.

Fixpoint lstrip_by (drop : ascii -> bool) (s : string) : string :=
  match s with
  | EmptyString => EmptyString
  | String c s' => if drop c then lstrip_by drop s' else s
  end.

Fixpoint rstrip_by (drop : ascii -> bool) (s : string) : string :=
  match s with
  | EmptyString => EmptyString
  | String c s' =>
      match rstrip_by drop s' with
      | EmptyString => if drop c then EmptyString else String c EmptyString
      | r => String c r
      end
  end.

Definition strip_by (drop : ascii -> bool) (s : string) : string :=
  rstrip_by drop (lstrip_by drop s).

(** [s.strip(c)] for a one-character argument. *)
Definition strip (c : ascii) (s : string) : string := strip_by (Ascii.eqb c) s.

(** A text of ASCII characters only. *)
Definition is_ascii (s : string) : bool :=
  forallb (fun c => nat_of_ascii c <? 128) (list_ascii_of_string s).

(** The ASCII characters [unicode.strip()] removes: tab to carriage
    return, the four separators 28..31, and the space.  The white space
    beyond ASCII that [unicode.strip()] removes as well (the no-break
    space and the like) is not covered: [strip_ws] is [unicode.strip()]
    on ASCII text. *)
Definition is_space (c : ascii) : bool :=
  let n := nat_of_ascii c in
  ((9 <=? n) && (n <=? 13)) || ((28 <=? n) && (n <=? 31)) || (n =? 32).

(** [s.strip()] *)
Definition strip_ws (s : string) : string := strip_by is_space s.

(** [s.replace(a, b)] where both arguments are one character long. *)
Fixpoint replace (a b : ascii) (s : string) : string :=
  match s with
  | EmptyString => EmptyString
  | String c s' => String (if Ascii.eqb c a then b else c) (replace a b s')
  end.

Definition is_lower (c : ascii) : bool :=
  let n := nat_of_ascii c in (97 <=? n) && (n <=? 122).
Definition is_upper (c : ascii) : bool :=
  let n := nat_of_ascii c in (65 <=? n) && (n <=? 90).
Definition upper (c : ascii) : ascii :=
  if is_lower c then ascii_of_nat (nat_of_ascii c - 32) else c.
Definition lower (c : ascii) : ascii :=
  if is_upper c then ascii_of_nat (nat_of_ascii c + 32) else c.

(** [s.title()]: a cased character is upper-cased when the character
    before it is not cased and lower-cased otherwise.  Only the ASCII
    letters count as cased: [title] is [unicode.title()] on ASCII
    text. *)
Fixpoint title_from (previous_is_cased : bool) (s : string) : string :=
  match s with
  | EmptyString => EmptyString
  | String c s' =>
      if is_lower c then
        String (if previous_is_cased then c else upper c) (title_from true s')
      else if is_upper c then
        String (if previous_is_cased then lower c else c) (title_from true s')
      else String c (title_from false s')
  end.

Definition title (s : string) : string := title_from false s.

(** [s[:-n]] *)
Definition drop_last (n : nat) (s : string) : string :=
  String.substring 0 (String.length s - n) s.

(** The double quote character, as a one-character text. *)
Definition dquote : string := String (ascii_of_nat 34) EmptyString.

End PyStr.

(** ** [os.path] on POSIX *)

Module OsPath.
Import PyStr.

(** [os.path.join(a, b)] *)
Definition join (a b : string) : string :=
  if startswith "/" b then b
  else if String.eqb a EmptyString || endswith "/" a then a +:+ b
  else a +:+ "/" +:+ b.

(** [os.path.basename(p)] *)
Definition basename (p : string) : string :=
  List.last (split "/" p) EmptyString.

(** The loop of [normpath] over the components, [new_comps] kept in
    reverse. *)
Fixpoint normpath_comps (initial_slashes : bool) (rev_new : list string)
    (comps : list string) : list string :=
  match comps with
  | [] => rev rev_new
  | comp :: rest =>
      if String.eqb comp EmptyString || String.eqb comp "." then
        normpath_comps initial_slashes rev_new rest
      else if negb (String.eqb comp "..")
              || (negb initial_slashes && match rev_new with [] => true | _ => false end)
              || match rev_new with top :: _ => String.eqb top ".." | [] => false end
      then normpath_comps initial_slashes (comp :: rev_new) rest
      else normpath_comps initial_slashes (List.tail rev_new) rest
  end.

(** [os.path.normpath(path)] *)
Definition normpath (path : string) : string :=
  if String.eqb path EmptyString then "." else
  let initial_slashes := startswith "/" path in
  let two := startswith "//" path && negb (startswith "///" path) in
  let body := PyStr.join "/" (normpath_comps initial_slashes [] (split "/" path)) in
  let out := if two then "//" +:+ body
             else if initial_slashes then "/" +:+ body else body in
  if String.eqb out EmptyString then "." else out.

(** [os.path.abspath(path)], the working directory given. *)
Definition abspath (cwd path : string) : string :=
  normpath (if startswith "/" path then path else join cwd path).

Fixpoint commonprefix (a b : list string) : list string :=
  match a, b with
  | x :: a', y :: b' => if String.eqb x y then x :: commonprefix a' b' else []
  | _, _ => []
  end.

Definition nonempty (s : string) : bool := negb (String.eqb s EmptyString).

(** [os.path.relpath(path, start)] for a non-empty [path]. *)
Definition relpath (cwd path start : string) : string :=
  let start_list := filter (fun x => nonempty x = true) (split "/" (abspath cwd start)) in
  let path_list := filter (fun x => nonempty x = true) (split "/" (abspath cwd path)) in
  let i := length (commonprefix start_list path_list) in
  let rel_list := repeat ".." (length start_list - i) ++ drop i path_list in
  match rel_list with
  | [] => "."
  | c :: cs => fold_left join cs c
  end.

End OsPath.

(** ** Python values, [frappe._dict] objects and exceptions *)

Inductive value :=
| VNone
| VBool (b : bool)
| VInt (n : Z)
| VStr (s : string).

Global Instance value_eq_dec : EqDecision value.
Proof. solve_decision. Defined.

Definition value_code (v : value) : unit + bool + Z + string :=
  match v with
  | VNone => inl (inl (inl tt))
  | VBool b => inl (inl (inr b))
  | VInt n => inl (inr n)
  | VStr s => inr s
  end.

Definition value_decode (c : unit + bool + Z + string) : value :=
  match c with
  | inl (inl (inl _)) => VNone
  | inl (inl (inr b)) => VBool b
  | inl (inr n) => VInt n
  | inr s => VStr s
  end.

Global Instance value_countable : Countable value.
Proof. apply (inj_countable' value_code value_decode). by intros []. Defined.

(** Python truth value of a scalar. *)
Definition truthy (v : value) : bool :=
  match v with
  | VNone => false
  | VBool b => b
  | VInt n => negb (n =? 0)%Z
  | VStr s => negb (String.eqb s EmptyString)
  end.

(** A [frappe._dict] (and a plain [dict] with text keys). *)
Abbreviation frappe_dict := (gmap string value).

(** Attribute access [d.k], which on a [frappe._dict] is [d.get(k)]:
    an attribute never set reads as [None]. *)
Definition attr (k : string) (d : frappe_dict) : value := default VNone (d !! k).

(** The text held by a value that is a text. *)
Definition str_of (v : value) : string :=
  match v with VStr s => s | _ => EmptyString end.

(** Python truth value of a dict: it has a key. *)
Definition dict_truthy (d : frappe_dict) : bool := negb (bool_decide (d = ∅)).

(** Truth value of [None] or a dict. *)
Definition context_truthy (c : option frappe_dict) : bool :=
  match c with Some d => dict_truthy d | None => false end.

Inductive exn :=
| DoesNotExistError
| ValueError
| IndexError
| TemplateNotFound
| UnboundLocalError.

Inductive result (A : Type) :=
| Ok (a : A)
| Raise (e : exn).
Arguments Ok {A} a.
Arguments Raise {A} e.

Definition rbind {A B} (r : result A) (k : A -> result B) : result B :=
  match r with Ok a => k a | Raise e => Raise e end.

Notation "'let!' x := r 'in' k" := (rbind r (fun x => k))
  (at level 10, x name, r at level 100, k at level 200, only parsing).

Definition nl : string := String (ascii_of_nat 10) EmptyString.

Definition str_in (s : string) (l : list string) : bool := existsb (String.eqb s) l.

(** ** The regular expression of [load_properties]

    [re.findall] of the pattern that reads: the text [<!-- title:], a
    group of any number of characters other than [>], then a space and
    [-->].  The group cannot cross a [>] and the tail ends in one, so at
    a given start the only possible match ends at the first [>] after
    it. *)

Module Re.
Import PyStr.

Fixpoint strip_prefix (p s : string) : option string :=
  match p, s with
  | EmptyString, _ => Some s
  | String _ _, EmptyString => None
  | String a p', String b s' => if Ascii.eqb a b then strip_prefix p' s' else None
  end.

(** The group, when the group and the tail match at the start of [s]. *)
Fixpoint title_group (s : string) : option string :=
  if startswith " -->" s then Some EmptyString
  else match s with
       | EmptyString => None
       | String c s' =>
           if Ascii.eqb c ">" then None else String c <$> title_group s'
       end.

(** The group of a match of the whole expression at the start of [s]. *)
Definition title_match (s : string) : option string :=
  rest ← strip_prefix "<!-- title:" s; title_group rest.

(** The groups of the non-overlapping matches, left to right; [skip]
    counts the characters still covered by the previous match. *)
Fixpoint findall_from (skip : nat) (s : string) : list string :=
  match s with
  | EmptyString => []
  | String _ s' =>
      match skip with
      | S k => findall_from k s'
      | O =>
          match title_match s with
          | Some g => g :: findall_from (14 + String.length g) s'
          | None => findall_from 0 s'
          end
      end
  end.

Definition findall_title (s : string) : list string := findall_from 0 s.

End Re.

(** ** The query the generator index sends to the database

    The router formats one SELECT per record type; here the query is the
    expression of its [route] column, the table and the optional WHERE
    condition, evaluated over the rows of the table.  A row is the dict
    the driver returns for it ([as_dict=True]); SQL NULL is [None]. *)

Inductive sql_expr :=
| Col (c : string)
| Lit (v : value)
| IfNull (e d : sql_expr)
| Concat (a b c : sql_expr)
| SqlIf (l r : sql_expr) (t e : sql_expr).

Module Sql.

Definition text (v : value) : string :=
  match v with
  | VStr s => s
  | VInt n => pretty n
  | VBool b => if b then "1" else "0"
  | VNone => EmptyString
  end.

(** [a = b]: unknown ([None]) when a side is NULL.  Values of one type
    compare by equality; a comparison of a number with a text, which
    MySQL settles by numeric conversion, is read as unknown. *)
Definition eq (a b : value) : option bool :=
  match a, b with
  | VInt x, VInt y => Some (x =? y)%Z
  | VStr x, VStr y => Some (String.eqb x y)
  | _, _ => None
  end.

Fixpoint eval (r : frappe_dict) (e : sql_expr) : value :=
  match e with
  | Col c => attr c r
  | Lit v => v
  | IfNull e d => match eval r e with VNone => eval r d | v => v end
  | Concat a b c =>
      match eval r a, eval r b, eval r c with
      | VNone, _, _ | _, VNone, _ | _, _, VNone => VNone
      | x, y, z => VStr (text x +:+ text y +:+ text z)
      end
  | SqlIf l rhs t e =>
      match eq (eval r l) (eval r rhs) with
      | Some true => eval r t
      | _ => eval r e
      end
  end.

(** [WHERE col = 1] *)
Definition holds (r : frappe_dict) (condition : option string) : bool :=
  match condition with
  | None => true
  | Some col =>
      match eq (attr col r) (VInt 1) with Some true => true | _ => false end
  end.

(** [select <route> as route, name, modified from <table> <where>] *)
Definition select (route : sql_expr) (table : list frappe_dict)
    (condition : option string) : list frappe_dict :=
  map (fun r => {[ "route" := eval r route;
                   "name" := attr "name" r;
                   "modified" := attr "modified" r ]})
      (List.filter (fun r => holds r condition) table).

End Sql.

(** ** The site: everything the router only calls *)

Record site := {
  (** [frappe.get_installed_apps()] *)
  installed_apps : list string;
  (** [frappe.get_app_path(app)] *)
  get_app_path : string -> string;
  (** [frappe.get_hooks("website_generators", app_name=app)] *)
  website_generators : string -> list string;
  (** [frappe.get_meta(doctype).get_field("parent_website_route")] is set *)
  has_parent_website_route : string -> bool;
  (** [get_controller(doctype).website.condition_field] *)
  condition_field : string -> value;
  (** the rows of [tab<doctype>].  [get_controller], [get_meta] and
      [frappe.db.sql] are taken to answer: their failures, which the
      router lets through, are outside this model, and a column a row
      does not have reads as NULL *)
  db_table : string -> list frappe_dict;
  (** [frappe.get_doc(doctype, name).get_route_context()] *)
  get_route_context : value -> value -> result frappe_dict;
  (** [os.walk(top)] as the list of its triples *)
  os_walk : string -> list (string * list string * list string);
  os_path_exists : string -> bool;
  (** [unicode(open(p, 'r').read(), 'utf-8')] for a file that can be
      read and holds UTF-8 text; the [IOError] and [UnicodeDecodeError]
      of the two calls are outside this model *)
  read_file : string -> string;
  (** [jenv.loader.get_source(jenv, template)[0]]; [None] when the loader
      raises *)
  loader_get_source : string -> option string;
  (** [markdown2.markdown] *)
  markdown : string -> string;
  os_getcwd : string;
  (** the site-wide cache switch behind [can_cache] *)
  caching_enabled : bool;
  (** [frappe.local.lang] and [frappe.local.path] *)
  local_lang : string;
  local_path : string
}.

(** ** State: the cache store, the files created, and a call probe *)

(** The probe records, in order, each entry into the resolver and into
    its two lookups; it is not part of the program. *)
Inductive call :=
| MakePageContext (path : string)
| FromTemplate (path : string)
| FromDoctype (path : string).

Global Instance call_eq_dec : EqDecision call.
Proof. solve_decision. Defined.

Record state := {
  (** cache key [_website_pages] *)
  cache_website_pages : option (list frappe_dict);
  (** cache key [website_generator_routes] *)
  cache_generator_routes : option (gmap value frappe_dict);
  (** cache hash [page_context]: path, then language *)
  cache_page_context : gmap string (gmap string frappe_dict);
  (** package markers opened in append mode by the scan *)
  touched : list string;
  calls : list call
}.

Definition M (A : Type) : Type := state -> result A * state.

Definition ret {A} (a : A) : M A := fun st => (Ok a, st).
Definition raise {A} (e : exn) : M A := fun st => (Raise e, st).
Definition bind {A B} (m : M A) (k : A -> M B) : M B :=
  fun st => match m st with
            | (Ok a, st') => k a st'
            | (Raise e, st') => (Raise e, st')
            end.
Definition lift {A} (r : result A) : M A := fun st => (r, st).
Definition gets {A} (f : state -> A) : M A := fun st => (Ok (f st), st).
Definition modify (f : state -> state) : M unit := fun st => (Ok tt, f st).

Notation "'let*' x := m 'in' k" := (bind m (fun x => k))
  (at level 10, x name, m at level 100, k at level 200, only parsing).

Fixpoint foldM {A B} (f : B -> A -> M B) (acc : B) (l : list A) : M B :=
  match l with
  | [] => ret acc
  | x :: xs => let* acc' := f acc x in foldM f acc' xs
  end.

Definition set_website_pages (pages : list frappe_dict) (st : state) : state :=
  {| cache_website_pages := Some pages;
     cache_generator_routes := cache_generator_routes st;
     cache_page_context := cache_page_context st;
     touched := touched st; calls := calls st |}.

Definition set_generator_routes (routes : gmap value frappe_dict) (st : state) : state :=
  {| cache_website_pages := cache_website_pages st;
     cache_generator_routes := Some routes;
     cache_page_context := cache_page_context st;
     touched := touched st; calls := calls st |}.

(** [frappe.cache().hset("page_context", path, m)] *)
Definition hset_page_context (path : string) (m : gmap string frappe_dict)
    (st : state) : state :=
  {| cache_website_pages := cache_website_pages st;
     cache_generator_routes := cache_generator_routes st;
     cache_page_context := <[path := m]> (cache_page_context st);
     touched := touched st; calls := calls st |}.

Definition touch (p : string) (st : state) : state :=
  {| cache_website_pages := cache_website_pages st;
     cache_generator_routes := cache_generator_routes st;
     cache_page_context := cache_page_context st;
     touched := touched st ++ [p]; calls := calls st |}.

Definition probe (c : call) (st : state) : state :=
  {| cache_website_pages := cache_website_pages st;
     cache_generator_routes := cache_generator_routes st;
     cache_page_context := cache_page_context st;
     touched := touched st; calls := calls st ++ [c] |}.

(** The store after [delete_page_cache] and a cleared cache, no call
    made yet. *)
Definition empty_state : state :=
  {| cache_website_pages := None; cache_generator_routes := None;
     cache_page_context := ∅; touched := []; calls := [] |}.

(** ** The router *)

Section Router.
Context (S : site).

(** Modelled from the spec: [frappe.website.utils.can_cache], which is
    not part of the module.  Caching applies when it is enabled site
    wide and the context at hand does not declare itself
    non-cacheable. *)
Definition can_cache (no_cache : value) : bool :=
  caching_enabled S && negb (truthy no_cache).

Definition relpath (path start : string) : string :=
  OsPath.relpath (os_getcwd S) path start.

(** [get_source(page_info, basepath)]: the text returned and
    [page_info] after the call (it gains [only_content]). *)
Definition get_source (page_info : frappe_dict) (basepath : string)
    : result (string * frappe_dict) :=
  let template := str_of (attr "template" page_info) in
  match loader_get_source S template with
  | None => Raise TemplateNotFound
  | Some source =>
      let html := EmptyString in
      let source :=
        if PyStr.endswith ".md" template then markdown S source else source in
      if PyStr.endswith ".html" template || PyStr.endswith ".md" template then
        if negb (PyStr.contains "</body>" source)
           && negb (PyStr.contains "{% block" source) then
          let page_info := <["only_content" := VBool true]> page_info in
          let js := EmptyString in
          let css := EmptyString in
          let js_path :=
            OsPath.join basepath (str_of (attr "basename" page_info) +:+ ".js") in
          let js := if os_path_exists S js_path then read_file S js_path else js in
          let css_path :=
            OsPath.join basepath (str_of (attr "basename" page_info) +:+ ".css") in
          let js := if os_path_exists S css_path then read_file S css_path else js in
          let html :=
            "{% extends " +:+ PyStr.dquote +:+ "templates/web.html"
              +:+ PyStr.dquote +:+ " %}" in
          let html :=
            if negb (String.eqb css EmptyString) then
              html +:+ nl +:+ "{% block style %}" +:+ nl +:+ "<style>" +:+ nl
                +:+ css +:+ nl +:+ "</style>" +:+ nl +:+ "{% endblock %}"
            else html in
          let html :=
            html +:+ nl +:+ "{% block page_content %}" +:+ nl +:+ source
              +:+ nl +:+ "{% endblock %}" in
          let html :=
            if negb (String.eqb js EmptyString) then
              html +:+ nl +:+ "{% block script %}<script>" +:+ js +:+ nl
                +:+ "</script>" +:+ nl +:+ "{% endblock %}"
            else html in
          Ok (html, page_info)
        else Ok (source, page_info)
      else Ok (html, page_info)
  end.

(** [load_properties(page_info)]: [page_info] after the call. *)
Definition load_properties (page_info : frappe_dict) : result frappe_dict :=
  let source := str_of (attr "source" page_info) in
  let! title :=
    (if PyStr.contains "<!-- title:" source then
       match Re.findall_title source with
       | g :: _ => Ok (PyStr.strip_ws g)
       | [] => Raise IndexError
       end
     else
       Ok (PyStr.title
             (PyStr.replace "-" " "
                (PyStr.replace "_" " "
                   (OsPath.basename (str_of (attr "name" page_info))))))) in
  let page_info := <["title" := VStr title]> page_info in
  let page_info :=
    if negb (PyStr.contains "{% block title %}" (str_of (attr "source" page_info)))
    then <["source" := VStr (str_of (attr "source" page_info) +:+ nl
                               +:+ "{% block title %}" +:+ title
                               +:+ "{% endblock %}")]> page_info
    else page_info in
  let page_info :=
    if PyStr.contains "<!-- no-breadcrumbs -->" (str_of (attr "source" page_info))
    then <["no_breadcrumbs" := VInt 1]> page_info
    else page_info in
  let page_info :=
    if PyStr.contains "<!-- no-header -->" (str_of (attr "source" page_info))
    then <["no_header" := VInt 1]> page_info
    else if negb (PyStr.contains "{% block header %}" (str_of (attr "source" page_info)))
            && negb (PyStr.contains "<h1" (str_of (attr "source" page_info)))
    then <["source" := VStr (str_of (attr "source" page_info) +:+ nl
                               +:+ "{% block header %}<h1>" +:+ title
                               +:+ "</h1>{% endblock %}")]> page_info
    else page_info in
  let page_info :=
    if PyStr.contains "<!-- no-cache -->" (str_of (attr "source" page_info))
    then <["no_cache" := VInt 1]> page_info
    else page_info in
  Ok page_info.

(** [get_page_info(path, basepath, app, app_path, fname)] *)
Definition get_page_info (path basepath app app_path fname : string)
    : result frappe_dict :=
  match PyStr.rsplit1 "." fname with
  | None => Raise ValueError
  | Some (page_name, extn) =>
      let page_info : frappe_dict := ∅ in
      let page_info :=
        <["basename" := VStr (if str_in extn ["html"; "md"] then page_name else fname)]>
          page_info in
      let page_info := <["page_or_generator" := VStr "Page"]> page_info in
      let page_info :=
        <["template" := VStr (relpath (OsPath.join basepath fname) app_path)]>
          page_info in
      let page_info :=
        if String.eqb (str_of (attr "basename" page_info)) "index"
           && negb (String.eqb basepath path)
        then <["basename" := VStr EmptyString]> page_info
        else page_info in
      let route :=
        PyStr.strip "/"
          (PyStr.strip "."
             (PyStr.strip "/"
                (OsPath.join (relpath basepath path)
                   (str_of (attr "basename" page_info))))) in
      let page_info := <["page_name" := VStr route]> page_info in
      let page_info := <["name" := VStr route]> page_info in
      let page_info :=
        <["controller_path" :=
            VStr (OsPath.join basepath (PyStr.replace "-" "_" page_name +:+ ".py"))]>
          page_info in
      let! sp := get_source page_info basepath in
      let page_info := <["source" := VStr (fst sp)]> (snd sp) in
      let! page_info :=
        (if truthy (attr "only_content" page_info)
         then load_properties page_info else Ok page_info) in
      let controller :=
        app +:+ "."
          +:+ PyStr.drop_last 3
                (PyStr.replace "/" "."
                   (relpath (str_of (attr "controller_path" page_info)) app_path)) in
      Ok (<["controller" := VStr controller]> page_info)
  end.

(** The body of the loop over the files of one directory. *)
Definition scan_file (path basepath app app_path : string)
    (pages : list frappe_dict) (fname : string) : M (list frappe_dict) :=
  match PyStr.rsplit1 "." fname with
  | None => raise ValueError
  | Some (page_name, extn) =>
      if str_in extn ["js"; "css"]
         && os_path_exists S (OsPath.join basepath (fname +:+ ".html"))
      then ret pages
      else if str_in extn ["html"; "xml"; "js"; "css"; "md"] then
        let* page_info := lift (get_page_info path basepath app app_path fname) in
        ret (pages ++ [page_info])
      else ret pages
  end.

(** The body of the loop over the triples of [os.walk]. *)
Definition scan_dir (path app app_path : string) (pages : list frappe_dict)
    (entry : string * list string * list string) : M (list frappe_dict) :=
  let '(basepath, folders, files) := entry in
  let* _ :=
    (if negb (str_in "__init__.py" files)
     then modify (touch (OsPath.join basepath "__init__.py"))
     else ret tt) in
  foldM (scan_file path basepath app app_path) pages files.

(** [get_pages_from_path(path, app, app_path)] *)
Definition get_pages_from_path (path app app_path : string) : M (list frappe_dict) :=
  let pages := [] in
  if os_path_exists S path
  then foldM (scan_dir path app app_path) pages (os_walk S path)
  else ret pages.

(** The body of the loop of [get_pages] over the installed apps. *)
Definition scan_app (pages : list frappe_dict) (app : string) : M (list frappe_dict) :=
  let app_path := get_app_path S app in
  let path := OsPath.join (OsPath.join app_path "templates") "pages" in
  let* found := get_pages_from_path path app app_path in
  let pages := pages ++ found in
  let path := OsPath.join app_path "www" in
  let* found := get_pages_from_path path app app_path in
  ret (pages ++ found).

(** [get_pages()] *)
Definition get_pages : M (list frappe_dict) :=
  let* pages :=
    (if can_cache (VBool false) then gets cache_website_pages else ret (Some [])) in
  match pages with
  | Some (p :: ps) => ret (p :: ps)
  | _ =>
      let* pages := foldM scan_app [] (installed_apps S) in
      let* _ := modify (set_website_pages pages) in
      ret pages
  end.

(** The [route] column of the query for one record type. *)
Definition route_column_name (doctype : string) : sql_expr :=
  if has_parent_website_route S doctype then
    Concat (IfNull (Col "parent_website_route") (Lit (VStr EmptyString)))
           (SqlIf (IfNull (Col "parent_website_route") (Lit (VStr EmptyString)))
                  (Lit (VStr EmptyString))
                  (Lit (VStr EmptyString)) (Lit (VStr "/")))
           (Col "page_name")
  else Col "page_name".

(** The WHERE clause of the query for one record type: the column that
    must equal 1, if any. *)
Definition condition (doctype : string) : option string :=
  if truthy (condition_field S doctype)
  then Some (str_of (condition_field S doctype))
  else None.

(** The loop over the rows the query returns for one record type. *)
Definition add_doctype_routes (routes : gmap value frappe_dict) (doctype : string)
    : gmap value frappe_dict :=
  fold_left
    (fun routes r =>
       <[attr "route" r := {[ "doctype" := VStr doctype;
                              "name" := attr "name" r;
                              "modified" := attr "modified" r ]}]> routes)
    (Sql.select (route_column_name doctype) (db_table S doctype) (condition doctype))
    routes.

Definition add_app_routes (routes : gmap value frappe_dict) (app : string)
    : gmap value frappe_dict :=
  fold_left add_doctype_routes (website_generators S app) routes.

(** [get_page_context_from_doctypes()] *)
Definition get_page_context_from_doctypes : M (gmap value frappe_dict) :=
  let* routes := gets cache_generator_routes in
  if match routes with Some r => negb (bool_decide (r = ∅)) | None => false end
  then ret (default ∅ routes)
  else
    let routes := fold_left add_app_routes (installed_apps S) ∅ in
    let* _ := modify (set_generator_routes routes) in
    ret routes.

(** [get_page_context_from_template(path)]; [None] is Python's. *)
Definition get_page_context_from_template (path : string) : M (option frappe_dict) :=
  let* _ := modify (probe (FromTemplate path)) in
  let* pages := get_pages in
  let found :=
    List.filter (fun p => bool_decide (attr "page_name" p = VStr path)) pages in
  ret (match found with p :: _ => Some p | [] => None end).

(** [get_page_context_from_doctype(path)] *)
Definition get_page_context_from_doctype (path : string) : M (option frappe_dict) :=
  let* _ := modify (probe (FromDoctype path)) in
  let* generator_routes := get_page_context_from_doctypes in
  match generator_routes !! VStr path with
  | Some route =>
      let* context := lift (get_route_context S (attr "doctype" route) (attr "name" route)) in
      ret (Some context)
  | None => ret None
  end.

(** [resolve_route(path)] *)
Definition resolve_route (path : string) : M (option frappe_dict) :=
  if negb (str_in path ["about"; "contact"]) then
    let* context := get_page_context_from_template path in
    if context_truthy context then ret context
    else get_page_context_from_doctype path
  else
    let* context := get_page_context_from_doctype path in
    if context_truthy context then ret context
    else get_page_context_from_template path.

(** [make_page_context(path)] *)
Definition make_page_context (path : string) : M frappe_dict :=
  let* _ := modify (probe (MakePageContext path)) in
  let* context := resolve_route path in
  match context with
  | Some context =>
      if dict_truthy context then
        let context := <["doctype" := attr "ref_doctype" context]> context in
        let context := <["title" := attr "page_title" context]> context in
        let context := <["pathname" := VStr (local_path S)]> context in
        ret context
      else raise DoesNotExistError
  | None => raise DoesNotExistError
  end.

(** [get_page_context(path)].  The local [page_context_cache] is bound
    only inside the first [if]; reading it unbound raises. *)
Definition get_page_context (path : string) : M frappe_dict :=
  let page_context : option frappe_dict := None in
  let* bound :=
    (if can_cache (VBool false) then
       let* hash := gets cache_page_context in
       let page_context_cache := default ∅ (hash !! path) in
       ret (Some page_context_cache, page_context_cache !! local_lang S)
     else ret (None, page_context)) in
  let page_context_cache : option (gmap string frappe_dict) := fst bound in
  let page_context : option frappe_dict := snd bound in
  if context_truthy page_context then ret (default ∅ page_context)
  else
    let* page_context := make_page_context path in
    let* _ :=
      (if can_cache (attr "no_cache" page_context) then
         match page_context_cache with
         | Some page_context_cache =>
             modify (hset_page_context path
                       (<[local_lang S := page_context]> page_context_cache))
         | None => raise UnboundLocalError
         end
       else ret tt) in
    ret page_context.

End Router.

(** Several package markers created at once. *)
Definition add_touched (l : list string) (st : state) : state :=
  {| cache_website_pages := cache_website_pages st;
     cache_generator_routes := cache_generator_routes st;
     cache_page_context := cache_page_context st;
     touched := touched st ++ l; calls := calls st |}.

(** A computation that reads nothing of the state and only creates
    package markers. *)
Definition oblivious {A} (m : M A) : Prop :=
  exists r l, forall st, m st = (r, add_touched l st).

(** The first page of a list with a given route, as
    [get_page_context_from_template] selects it. *)
Definition first_page (path : string) (pages : list frappe_dict) : option frappe_dict :=
  head (List.filter (fun p => bool_decide (attr "page_name" p = VStr path)) pages).

(** The last page of a list with a given route. *)
Definition last_page (path : string) (pages : list frappe_dict) : option frappe_dict :=
  last (List.filter (fun p => bool_decide (attr "page_name" p = VStr path)) pages).

(** The first line of the page shell. *)
Definition extends_web : string :=
  "{% extends " +:+ PyStr.dquote +:+ "templates/web.html" +:+ PyStr.dquote +:+ " %}".

(** The page shell around a content-only source, before any script
    block. *)
Definition page_shell (source : string) : string :=
  extends_web +:+ nl +:+ "{% block page_content %}" +:+ nl +:+ source
    +:+ nl +:+ "{% endblock %}".

(** The script block [get_source] appends for a non-empty text. *)
Definition script_block (js : string) : string :=
  if negb (String.eqb js EmptyString) then
    nl +:+ "{% block script %}<script>" +:+ js +:+ nl +:+ "</script>" +:+ nl
      +:+ "{% endblock %}"
  else EmptyString.

(** The text [get_source] holds in its variable [js] after it looked for
    the two sibling files of a page. *)
Definition sibling_text (S : site) (page_info : frappe_dict) (basepath : string)
    : string :=
  let js_path :=
    OsPath.join basepath (str_of (attr "basename" page_info) +:+ ".js") in
  let css_path :=
    OsPath.join basepath (str_of (attr "basename" page_info) +:+ ".css") in
  if os_path_exists S css_path then read_file S css_path
  else if os_path_exists S js_path then read_file S js_path
  else EmptyString.

(** The source [get_source] works on: the loaded text, rendered when the
    template is markdown. *)
Definition rendered (S : site) (template src : string) : string :=
  if PyStr.endswith ".md" template then markdown S src else src.

(** The generator route index as [get_page_context_from_doctypes] builds
    it when the cache holds none. *)
Definition generator_index (S : site) : gmap value frappe_dict :=
  fold_left (add_app_routes S) (installed_apps S) ∅.

(** The base name [get_page_info] keeps for a file: the name without its
    extension for [.html] and [.md], emptied for an [index] below the
    scan root. *)
Definition page_basename (path basepath fname page_name extn : string) : string :=
  let basename := if str_in extn ["html"; "md"] then page_name else fname in
  if String.eqb basename "index" && negb (String.eqb basepath path)
  then EmptyString else basename.

(** The route [get_page_info] derives for a base name in a directory. *)
Definition page_route (S : site) (path basepath basename : string) : string :=
  PyStr.strip "/"
    (PyStr.strip "."
       (PyStr.strip "/" (OsPath.join (relpath S basepath path) basename))).

(** A text that is not empty and neither starts nor ends with a slash. *)
Definition relative (s : string) : Prop :=
  s ≠ EmptyString /\ PyStr.startswith "/" s = false /\ PyStr.endswith "/" s = false.

(** A path component: not empty, no slash in it. *)
Definition component (s : string) : Prop :=
  s ≠ EmptyString /\ PyStr.contains "/" s = false.

(** The title block and the header block [load_properties] appends. *)
Definition title_block (title : string) : string :=
  nl +:+ "{% block title %}" +:+ title +:+ "{% endblock %}".

Definition header_block (title : string) : string :=
  nl +:+ "{% block header %}<h1>" +:+ title +:+ "</h1>{% endblock %}".

(** The title derived from a route: its base name, underscores and
    hyphens turned into spaces, title-cased. *)
Definition derived_title (name : string) : string :=
  PyStr.title (PyStr.replace "-" " " (PyStr.replace "_" " " (OsPath.basename name))).

(** A source with a title block appended unless it has one. *)
Definition with_title (source title : string) : string :=
  if PyStr.contains "{% block title %}" source then source
  else source +:+ title_block title.

(** Whether the scan turns a file of a directory into a page: its name
    has an extension, the extension is one of the five scanned ones, and
    the file is not a [.js] or [.css] file skipped by the sidecar test. *)
Definition is_page_file (S : site) (basepath fname : string) : bool :=
  match PyStr.rsplit1 "." fname with
  | Some (_, extn) =>
      negb (str_in extn ["js"; "css"]
            && os_path_exists S (OsPath.join basepath (fname +:+ ".html")))
      && str_in extn ["html"; "xml"; "js"; "css"; "md"]
  | None => false
  end.

(** The files of a walk that become pages, each with its directory, in
    the order of the walk. *)
Definition page_files (S : site) (entries : list (string * list string * list string))
    : list (string * string) :=
  flat_map
    (fun e => map (pair (fst (fst e))) (List.filter (is_page_file S (fst (fst e))) (snd e)))
    entries.

(** The package markers a walk creates: one in each directory that lists
    no [__init__.py]. *)
Definition missing_markers (entries : list (string * list string * list string))
    : list string :=
  map (fun e => OsPath.join (fst (fst e)) "__init__.py")
      (List.filter (fun e => negb (str_in "__init__.py" (snd e))) entries).

(** A file name with no dot in it. *)
Definition dotless (fname : string) : Prop := PyStr.rsplit1 "." fname = None.

(** The page cache cannot answer [get_pages]: caching is disabled, or
    the key is not set, or it holds an empty list. *)
Definition page_cache_miss (S : site) (st : state) : Prop :=
  caching_enabled S = false
  \/ cache_website_pages st = None
  \/ cache_website_pages st = Some [].

(** The rows the generator index is built from, each with its record
    type, in the order the loops of [get_page_context_from_doctypes]
    visit them: app by app, record type by record type, row by row. *)
Definition route_rows (S : site) : list (string * frappe_dict) :=
  flat_map
    (fun app =>
       flat_map
         (fun doctype =>
            map (pair doctype)
                (Sql.select (route_column_name S doctype) (db_table S doctype)
                            (condition S doctype)))
         (website_generators S app))
    (installed_apps S).

(** The entry the index keeps for a row of a record type. *)
Definition route_entry (dr : string * frappe_dict) : frappe_dict :=
  {[ "doctype" := VStr (fst dr);
     "name" := attr "name" (snd dr);
     "modified" := attr "modified" (snd dr) ]}.

(** One pass of the innermost loop of the index. *)
Definition add_route_row (routes : gmap value frappe_dict) (dr : string * frappe_dict)
    : gmap value frappe_dict :=
  <[attr "route" (snd dr) := route_entry dr]> routes.

(** The page [get_page_info] has built when it calls [get_source]: base
    name, kind, template, route and controller path. *)
Definition page_stub (S : site) (path basepath app_path fname page_name extn : string)
    : frappe_dict :=
  let page_info : frappe_dict := ∅ in
  let page_info :=
    <["basename" := VStr (if str_in extn ["html"; "md"] then page_name else fname)]>
      page_info in
  let page_info := <["page_or_generator" := VStr "Page"]> page_info in
  let page_info :=
    <["template" := VStr (relpath S (OsPath.join basepath fname) app_path)]>
      page_info in
  let page_info :=
    if String.eqb (str_of (attr "basename" page_info)) "index"
       && negb (String.eqb basepath path)
    then <["basename" := VStr EmptyString]> page_info
    else page_info in
  let route :=
    PyStr.strip "/"
      (PyStr.strip "."
         (PyStr.strip "/"
            (OsPath.join (relpath S basepath path)
               (str_of (attr "basename" page_info))))) in
  let page_info := <["page_name" := VStr route]> page_info in
  let page_info := <["name" := VStr route]> page_info in
  <["controller_path" :=
      VStr (OsPath.join basepath (PyStr.replace "-" "_" page_name +:+ ".py"))]>
    page_info.

(** The attributes a page built by [get_page_info] can have. *)
Definition page_keys : list string :=
  [ "basename"; "page_or_generator"; "template"; "page_name"; "name";
    "controller_path"; "only_content"; "source"; "title"; "no_breadcrumbs";
    "no_header"; "no_cache"; "controller" ].

(** A page that [get_page_info] built for some file. *)
Definition scanned (S : site) (p : frappe_dict) : Prop :=
  exists path basepath app app_path fname,
    get_page_info S path basepath app app_path fname = Ok p.

(** ** [process_generators]

    The callback [func] is any Python callable; here it is a computation
    over the store that may fail.  [controller_attr doctype name] is the
    attribute [name] of the controller class of [doctype], [None] when
    the class has none ([hasattr] is false). *)

Section Generators.
Context (S : site).
Context (controller_attr : string -> string -> option value).
Context (func : string -> value -> value -> M value).

(** The body of the inner loop up to the call of [func]. *)
Definition generator_call (doctype : string) : M value :=
  let order_by := VStr "name asc" in
  let condition_field := VNone in
  let condition_field :=
    match controller_attr doctype "condition_field" with
    | Some v => v
    | None => condition_field
    end in
  let order_by :=
    match controller_attr doctype "order_by" with
    | Some v => v
    | None => order_by
    end in
  func doctype condition_field order_by.

(** The inner loop; [otherwise] is what follows it when it ends without
    a [return]. *)
Fixpoint process_doctypes (doctypes : list string) (otherwise : M value) : M value :=
  match doctypes with
  | [] => otherwise
  | doctype :: rest =>
      let* val := generator_call doctype in
      if truthy val then ret val else process_doctypes rest otherwise
  end.

(** The outer loop; a function that ends without a [return] gives
    [None]. *)
Fixpoint process_apps (apps : list string) : M value :=
  match apps with
  | [] => ret VNone
  | app :: rest => process_doctypes (website_generators S app) (process_apps rest)
  end.

(** [process_generators(func)] *)
Definition process_generators : M value := process_apps (installed_apps S).

(** The store after [func] has been called for each record type of a
    list in turn and has returned a false value each time; [None] when a
    call returns a true value or raises. *)
Fixpoint skipped (doctypes : list string) (st : state) : option state :=
  match doctypes with
  | [] => Some st
  | doctype :: rest =>
      match generator_call doctype st with
      | (Ok val, st1) => if truthy val then None else skipped rest st1
      | (Raise _, _) => None
      end
  end.

End Generators.

(** The record types of all installed apps, in hook order. *)
Definition all_generators (S : site) : list string :=
  flat_map (website_generators S) (installed_apps S).

(** The title [load_properties] settles on: the group of the first match
    of the title comment when the source has the opening of one, and the
    title derived from the route otherwise. *)
Definition found_title (source name : string) : result string :=
  if PyStr.contains "<!-- title:" source then
    match Re.findall_title source with
    | g :: _ => Ok (PyStr.strip_ws g)
    | [] => Raise IndexError
    end
  else Ok (derived_title name).

(** A source with a header block appended unless it asks for no header
    or has a header block or a first-level heading. *)
Definition with_header (source title : string) : string :=
  if PyStr.contains "<!-- no-header -->" source then source
  else if negb (PyStr.contains "{% block header %}" source)
          && negb (PyStr.contains "<h1" source)
  then source +:+ header_block title
  else source.

(** A file the scan turns into a page, with the arguments
    [get_pages_from_path] passes to [get_page_info] for it. *)
Record found_file := {
  found_path : string;
  found_basepath : string;
  found_app : string;
  found_app_path : string;
  found_fname : string
}.

(** The page files below one scan root, in the order of the walk; none
    when the root does not exist. *)
Definition discovered_in (S : site) (app app_path path : string) : list found_file :=
  if os_path_exists S path then
    map (fun bf => {| found_path := path; found_basepath := fst bf;
                      found_app := app; found_app_path := app_path;
                      found_fname := snd bf |})
        (page_files S (os_walk S path))
  else [].

(** The discovery order of the file pages: the installed apps in their
    order, for each app first [templates/pages] and then [www], each in
    the order of its walk and, within a directory, of its file list. *)
Definition discovered (S : site) : list found_file :=
  flat_map
    (fun app =>
       let app_path := get_app_path S app in
       discovered_in S app app_path
         (OsPath.join (OsPath.join app_path "templates") "pages")
       ++ discovered_in S app app_path (OsPath.join app_path "www"))
    (installed_apps S).

(** The page [get_page_info] builds for a discovered file. *)
Definition page_of (S : site) (f : found_file) : result frappe_dict :=
  get_page_info S (found_path f) (found_basepath f) (found_app f)
    (found_app_path f) (found_fname f).

(** What the file-page lookup answers for [path] from state [st]: the
    first page of [get_pages] with that route, or the error of the scan. *)
Definition file_answer (S : site) (st : state) (path : string)
    : result (option frappe_dict) :=
  match fst (get_pages S st) with
  | Ok pages => Ok (first_page path pages)
  | Raise e => Raise e
  end.

(** What the generator lookup answers for [path] from state [st]: the
    context the record builds when the route index has the path. *)
Definition generator_answer (S : site) (st : state) (path : string)
    : result (option frappe_dict) :=
  match fst (get_page_context_from_doctypes S st) with
  | Ok routes =>
      match routes !! VStr path with
      | Some route =>
          match get_route_context S (attr "doctype" route) (attr "name" route) with
          | Ok context => Ok (Some context)
          | Raise e => Raise e
          end
      | None => Ok None
      end
  | Raise e => Raise e
  end.

(** The language map the cache holds for [path]. *)
Definition language_map (st : state) (path : string) : gmap string frappe_dict :=
  default ∅ (cache_page_context st !! path).

(** The context [get_page_context] reads from the cache for [path] under
    the active language, if it may read the cache at all. *)
Definition cached_context (S : site) (st : state) (path : string)
    : option frappe_dict :=
  if can_cache S (VBool false) then language_map st path !! local_lang S else None.

(** ** A small site used by the examples *)

Abbreviation Spec2Rocq_site := site.

Module Demo.

(** The triples of [os.walk], in the order it yields them. *)
Definition tree : list (string * list string * list string) :=
  [ ("/apps/frappe/www", ["blog"; ".well-known"],
     ["index.html"; "about.html"; "page.html"; "page.js"; "page.css"; "foo.html"]);
    ("/apps/frappe/www/blog", [], ["index.html"; "__init__.py"]);
    ("/apps/frappe/www/.well-known", [], ["index.md"]);
    ("/apps/erpnext/www", [], ["foo.html"; "__init__.py"]) ].

Definition walk (top : string) : list (string * list string * list string) :=
  List.filter
    (fun e => String.eqb (fst (fst e)) top
              || PyStr.startswith (top +:+ "/") (fst (fst e)))
    tree.

Definition exists_ (p : string) : bool :=
  existsb
    (fun e => String.eqb (fst (fst e)) p
              || existsb (fun f => String.eqb (OsPath.join (fst (fst e)) f) p) (snd e))
    tree.

Definition assoc (k : string) (l : list (string * string)) : option string :=
  snd <$> List.find (fun kv => String.eqb (fst kv) k) l.

(** What the template loader finds, by template name. *)
Definition templates : list (string * string) :=
  [ ("www/index.html", "<html><body>Home</body></html>");
    ("www/about.html", "About us");
    ("www/page.html", "<p>Page</p>");
    ("www/page.js", "alert(1);");
    ("www/page.css", "p { color: red }");
    ("www/foo.html", "{% block page_content %}Foo{% endblock %}");
    ("www/blog/index.html", "<!-- title: My Blog -->Posts");
    ("www/.well-known/index.md", "security") ].

(** The text of the files read directly, by path. *)
Definition contents : list (string * string) :=
  [ ("/apps/frappe/www/page.js", "alert(1);");
    ("/apps/frappe/www/page.css", "p { color: red }") ].

Definition blog_post (name parent : string) (published : Z) : frappe_dict :=
  {[ "name" := VStr name; "modified" := VStr "2015-03-01";
     "parent_website_route" := VStr parent; "page_name" := VStr name;
     "published" := VInt published ]}.

Definition web_page (name : string) : frappe_dict :=
  {[ "name" := VStr name; "modified" := VStr "2015-02-01";
     "page_name" := VStr name ]}.

Definition site : site :=
  {| installed_apps := ["frappe"; "erpnext"];
     get_app_path := fun app => "/apps/" +:+ app;
     website_generators := fun app =>
       if String.eqb app "frappe" then ["Web Page"; "Blog Post"] else [];
     has_parent_website_route := fun doctype => String.eqb doctype "Blog Post";
     condition_field := fun doctype =>
       if String.eqb doctype "Blog Post" then VStr "published" else VNone;
     db_table := fun doctype =>
       if String.eqb doctype "Blog Post"
       then [ blog_post "hello-world" "blog" 1; blog_post "draft" "blog" 0;
              blog_post "solo" EmptyString 1 ]
       else if String.eqb doctype "Web Page"
       then [ web_page "about"; web_page "foo" ]
       else [];
     get_route_context := fun doctype name =>
       Ok {[ "page_or_generator" := VStr "Generator"; "ref_doctype" := doctype;
             "docname" := name; "page_title" := name ]};
     os_walk := walk;
     os_path_exists := exists_;
     read_file := fun p => default EmptyString (assoc p contents);
     loader_get_source := fun t => assoc t templates;
     markdown := fun s => "<p>" +:+ s +:+ "</p>";
     os_getcwd := "/";
     caching_enabled := true;
     local_lang := "en";
     local_path := "about" |}.

(** The page [www/page.html] before its source is loaded. *)
Definition page_html : frappe_dict :=
  {[ "basename" := VStr "page"; "template" := VStr "www/page.html";
     "name" := VStr "page"; "page_name" := VStr "page" ]}.

(** The source built for [www/page.html]. *)
Definition page_source : string :=
  Eval vm_compute in
    match get_source site page_html "/apps/frappe/www" with
    | Ok r => fst r
    | Raise _ => EmptyString
    end.

Definition the_context (r : result frappe_dict) : frappe_dict :=
  match r with Ok c => c | Raise _ => ∅ end.

(** The pages built for [blog/index.html], for [.well-known/index.md]
    and for [index.html] at the scan root. *)
Definition blog_index : frappe_dict :=
  Eval vm_compute in
    the_context (get_page_info site "/apps/frappe/www" "/apps/frappe/www/blog"
                   "frappe" "/apps/frappe" "index.html").
Definition well_known_index : frappe_dict :=
  Eval vm_compute in
    the_context (get_page_info site "/apps/frappe/www"
                   "/apps/frappe/www/.well-known" "frappe" "/apps/frappe" "index.md").
Definition root_index : frappe_dict :=
  Eval vm_compute in
    the_context (get_page_info site "/apps/frappe/www" "/apps/frappe/www"
                   "frappe" "/apps/frappe" "index.html").

(** The pages one scan of the demo site discovers, in order. *)
Definition pages : list frappe_dict :=
  Eval vm_compute in
    match fst (get_pages site empty_state) with Ok l => l | Raise _ => [] end.

Definition the_page (r : result (option frappe_dict)) : frappe_dict :=
  match r with Ok (Some p) => p | _ => ∅ end.

(** The file page and the record-built context of [about] and [foo]. *)
Definition about_page : frappe_dict :=
  Eval vm_compute in the_page (file_answer site empty_state "about").
Definition about_context : frappe_dict :=
  Eval vm_compute in the_page (generator_answer site empty_state "about").
Definition foo_page : frappe_dict :=
  Eval vm_compute in the_page (file_answer site empty_state "foo").
Definition foo_context : frappe_dict :=
  Eval vm_compute in the_page (generator_answer site empty_state "foo").

(** The later of the two pages [foo]. *)
Definition foo_later : frappe_dict :=
  Eval vm_compute in default ∅ (last_page "foo" pages).

(** The pages found under [/apps/frappe/www], and the one of [page.js]. *)
Definition www_pages : list frappe_dict :=
  Eval vm_compute in
    match fst (get_pages_from_path site "/apps/frappe/www" "frappe" "/apps/frappe"
                 empty_state) with
    | Ok l => l
    | Raise _ => []
    end.
Definition page_js : frappe_dict :=
  Eval vm_compute in default ∅ (first_page "page.js" www_pages).

(** The generator route index of the demo site. *)
Definition routes : gmap value frappe_dict :=
  Eval vm_compute in
    match fst (get_page_context_from_doctypes site empty_state) with
    | Ok r => r
    | Raise _ => ∅
    end.

(** The state after the scan of [/apps/frappe/www]. *)
Definition www_state : state :=
  Eval vm_compute in
    snd (get_pages_from_path site "/apps/frappe/www" "frappe" "/apps/frappe"
           empty_state).

(** A second site: one app whose [www] directory holds a file named
    [README] beside [index.html]; its loader knows a few more
    templates. *)
Definition docs_templates : list (string * string) :=
  [ ("www/index.html", "<p>Docs</p>");
    ("www/guide/intro.html",
     "<!-- title: Getting Started --><!-- no-cache --><p>Intro</p>");
    ("www/guide/broken.html", "<!-- title: Oops<p>Broken</p>");
    ("www/full.html", "<!-- no-cache -->{% block content %}Full{% endblock %}");
    ("www/feed.xml", "<rss/>") ].

Definition readme_tree : list (string * list string * list string) :=
  [ ("/apps/docs/www", [], ["index.html"; "README"]) ].

Definition readme_site : Spec2Rocq_site :=
  {| installed_apps := ["docs"];
     get_app_path := fun app => "/apps/" +:+ app;
     website_generators := fun _ => [];
     has_parent_website_route := fun _ => false;
     condition_field := fun _ => VNone;
     db_table := fun _ => [];
     get_route_context := fun _ _ => Raise DoesNotExistError;
     os_walk := fun top =>
       if String.eqb top "/apps/docs/www" then readme_tree else [];
     os_path_exists := fun p => String.eqb p "/apps/docs/www";
     read_file := fun _ => EmptyString;
     loader_get_source := fun t => assoc t docs_templates;
     markdown := fun s => s;
     os_getcwd := "/";
     caching_enabled := true;
     local_lang := "en";
     local_path := "index" |}.

Definition readme_index : frappe_dict :=
  Eval vm_compute in
    the_context (get_page_info readme_site "/apps/docs/www" "/apps/docs/www"
                   "docs" "/apps/docs" "index.html").

(** A third site: a [Web Page] and a [Blog Post] that share the route
    [news]. *)
Definition twice_site : Spec2Rocq_site :=
  {| installed_apps := ["frappe"; "erpnext"];
     get_app_path := fun app => "/apps/" +:+ app;
     website_generators := fun app =>
       if String.eqb app "frappe" then ["Web Page"] else ["Blog Post"];
     has_parent_website_route := fun doctype => String.eqb doctype "Blog Post";
     condition_field := fun doctype =>
       if String.eqb doctype "Blog Post" then VStr "published" else VNone;
     db_table := fun doctype =>
       if String.eqb doctype "Blog Post" then [ blog_post "news" EmptyString 1 ]
       else if String.eqb doctype "Web Page" then [ web_page "news" ]
       else [];
     get_route_context := fun _ _ => Raise DoesNotExistError;
     os_walk := fun _ => [];
     os_path_exists := fun _ => false;
     read_file := fun _ => EmptyString;
     loader_get_source := fun _ => None;
     markdown := fun s => s;
     os_getcwd := "/";
     caching_enabled := true;
     local_lang := "en";
     local_path := "news" |}.

Definition news_page : string * frappe_dict :=
  Eval vm_compute in nth 0 (route_rows twice_site) (EmptyString, ∅).
Definition news_post : string * frappe_dict :=
  Eval vm_compute in nth 1 (route_rows twice_site) (EmptyString, ∅).

(** The page of [guide/intro.html] on the second site. *)
Definition guide_intro : frappe_dict :=
  Eval vm_compute in
    the_context (get_page_info readme_site "/apps/docs/www" "/apps/docs/www/guide"
                   "docs" "/apps/docs" "intro.html").

(** A controller class with both attributes for [Blog Post], none for
    the other record types. *)
Definition controller_attr (doctype name : string) : option value :=
  if String.eqb doctype "Blog Post" then
    if String.eqb name "condition_field" then Some (VStr "published")
    else if String.eqb name "order_by" then Some (VStr "published_on desc")
    else None
  else None.

(** A callback that leaves a line in [touched] for each call, and
    answers with the record type when that is [wanted]. *)
Definition find_generator (wanted : string) (doctype : string)
    (condition_field order_by : value) : M value :=
  let* _ := modify (touch (doctype +:+ " by " +:+ str_of order_by)) in
  ret (if String.eqb doctype wanted then VStr doctype else VNone).

(** Three pages as [get_page_info] hands them to [load_properties]: one
    with a title comment, one without, one with a comment that is never
    closed. *)
Definition titled : frappe_dict :=
  {[ "name" := VStr "blog";
     "source" := VStr (page_shell "<!-- title: My Blog -->Posts") ]}.

Definition untitled : frappe_dict :=
  {[ "name" := VStr "docs/getting-started_now";
     "source" := VStr (page_shell "<p>Hello</p>") ]}.

Definition unclosed : frappe_dict :=
  {[ "name" := VStr "guide/broken";
     "source" := VStr (page_shell "<!-- title: Oops<p>Broken</p>") ]}.

(** A page with all three directives in its content, and what
    [load_properties] makes of it and of [titled]. *)
Definition directed : frappe_dict :=
  {[ "name" := VStr "guide/intro";
     "source" :=
       VStr (page_shell
               "<!-- no-cache --><!-- no-header --><!-- no-breadcrumbs -->Intro") ]}.

Definition directed_loaded : frappe_dict :=
  Eval vm_compute in the_context (load_properties directed).

Definition titled_loaded : frappe_dict :=
  Eval vm_compute in the_context (load_properties titled).

(** The second site without the [README]: its scan succeeds. *)
Definition docs_tree : list (string * list string * list string) :=
  [ ("/apps/docs/www", ["guide"],
     ["index.html"; "full.html"; "feed.xml"; "__init__.py"]);
    ("/apps/docs/www/guide", [], ["intro.html"; "__init__.py"]) ].

Definition docs_site : Spec2Rocq_site :=
  {| installed_apps := ["docs"];
     get_app_path := fun app => "/apps/" +:+ app;
     website_generators := fun _ => [];
     has_parent_website_route := fun _ => false;
     condition_field := fun _ => VNone;
     db_table := fun _ => [];
     get_route_context := fun _ _ => Raise DoesNotExistError;
     os_walk := fun top =>
       if String.eqb top "/apps/docs/www" then docs_tree else [];
     os_path_exists := fun p => String.eqb p "/apps/docs/www";
     read_file := fun _ => EmptyString;
     loader_get_source := fun t => assoc t docs_templates;
     markdown := fun s => s;
     os_getcwd := "/";
     caching_enabled := true;
     local_lang := "en";
     local_path := "guide/intro" |}.

Definition docs_pages : list frappe_dict :=
  Eval vm_compute in
    match fst (get_pages docs_site empty_state) with
    | Ok pages => pages
    | Raise _ => []
    end.

(** The page of [full.html], a template with a block of its own. *)
Definition full_page : frappe_dict :=
  Eval vm_compute in
    the_context (get_page_info docs_site "/apps/docs/www" "/apps/docs/www"
                   "docs" "/apps/docs" "full.html").

(** The file [foo.html] of app [frappe] as the scan finds it. *)
Definition foo_file : found_file :=
  {| found_path := "/apps/frappe/www"; found_basepath := "/apps/frappe/www";
     found_app := "frappe"; found_app_path := "/apps/frappe";
     found_fname := "foo.html" |}.

(** A store that holds a context for [about] under another language. *)
Definition other_language : state :=
  hset_page_context "about" {[ "de" := {[ "title" := VStr "Ueber uns" ]} ]}
    empty_state.

(** The context [make_page_context] builds for [about], and the state
    it leaves, from the empty store and from [other_language]. *)
Definition made_context : frappe_dict :=
  Eval vm_compute in the_context (fst (make_page_context site "about" empty_state)).
Definition made_state : state :=
  Eval vm_compute in snd (make_page_context site "about" empty_state).
Definition other_made_state : state :=
  Eval vm_compute in snd (make_page_context site "about" other_language).

(** The store after the first request for [about]. *)
Definition cached_state : state :=
  Eval vm_compute in snd (get_page_context site "about" empty_state).

End Demo.

(** * Properties *)

(** ** The state monad *)

Lemma add_touched_nil st : add_touched [] st = st.
Proof. destruct st; unfold add_touched; simpl. by rewrite app_nil_r. Qed.

Lemma add_touched_app l1 l2 st :
  add_touched l2 (add_touched l1 st) = add_touched (l1 ++ l2) st.
Proof. unfold add_touched; simpl. by rewrite app_assoc. Qed.

Lemma oblivious_ret {A} (a : A) : oblivious (ret a).
Proof. exists (Ok a), []. intros st. by rewrite add_touched_nil. Qed.

Lemma oblivious_raise {A} e : oblivious (@raise A e).
Proof. exists (Raise e), []. intros st. by rewrite add_touched_nil. Qed.

Lemma oblivious_lift {A} (r : result A) : oblivious (lift r).
Proof. exists r, []. intros st. by rewrite add_touched_nil. Qed.

Lemma oblivious_touch p : oblivious (modify (touch p)).
Proof. by exists (Ok tt), [p]. Qed.

Lemma oblivious_bind {A B} (m : M A) (k : A -> M B) :
  oblivious m -> (forall a, oblivious (k a)) -> oblivious (bind m k).
Proof.
  intros (r & l & Hm) Hk. destruct r as [a|e].
  - destruct (Hk a) as (r' & l' & Hk').
    exists r', (l ++ l'). intros st. unfold bind.
    by rewrite Hm, Hk', add_touched_app.
  - exists (Raise e), l. intros st. unfold bind. by rewrite Hm.
Qed.

Lemma oblivious_foldM {A B} (f : B -> A -> M B) (l : list A) :
  (forall acc x, oblivious (f acc x)) -> forall acc, oblivious (foldM f acc l).
Proof.
  intros Hf. induction l as [|x xs IH]; intros acc; simpl.
  - apply oblivious_ret.
  - apply oblivious_bind; [apply Hf | apply IH].
Qed.

(** ** The scan reads nothing of the cache store *)

Section Scan_facts.
Context (S : site).

Lemma scan_file_oblivious path basepath app app_path pages fname :
  oblivious (scan_file S path basepath app app_path pages fname).
Proof.
  unfold scan_file. destruct (PyStr.rsplit1 _ fname) as [[page_name extn]|].
  - destruct (_ && _); [apply oblivious_ret|].
    destruct (str_in extn _); [|apply oblivious_ret].
    apply oblivious_bind; [apply oblivious_lift|]. intros ?. apply oblivious_ret.
  - apply oblivious_raise.
Qed.

Lemma scan_dir_oblivious path app app_path pages entry :
  oblivious (scan_dir S path app app_path pages entry).
Proof.
  destruct entry as [[basepath folders] files]. unfold scan_dir.
  apply oblivious_bind.
  - destruct (negb _); [apply oblivious_touch | apply oblivious_ret].
  - intros _. apply oblivious_foldM. intros. apply scan_file_oblivious.
Qed.

Lemma get_pages_from_path_oblivious path app app_path :
  oblivious (get_pages_from_path S path app app_path).
Proof.
  unfold get_pages_from_path. destruct (os_path_exists S path).
  - apply oblivious_foldM. intros. apply scan_dir_oblivious.
  - apply oblivious_ret.
Qed.

Lemma scan_app_oblivious pages app : oblivious (scan_app S pages app).
Proof.
  unfold scan_app.
  apply oblivious_bind; [apply get_pages_from_path_oblivious|]. intros ?.
  apply oblivious_bind; [apply get_pages_from_path_oblivious|]. intros ?.
  apply oblivious_ret.
Qed.

(** [get_pages] answers from the cache when it may and the cached list
    is not empty, and otherwise with the outcome of one scan, which is
    the same whatever the store holds. *)
Lemma get_pages_unfold :
  exists (r : result (list frappe_dict)) (l : list string), forall st,
    get_pages S st =
    match (if can_cache S (VBool false) then cache_website_pages st else Some []) with
    | Some (p :: ps) => (Ok (p :: ps), st)
    | _ =>
        match r with
        | Ok pages => (Ok pages, set_website_pages pages (add_touched l st))
        | Raise e => (Raise e, add_touched l st)
        end
    end.
Proof.
  destruct (oblivious_foldM (scan_app S) (installed_apps S) scan_app_oblivious [])
    as (r & l & Hscan).
  exists r, l. intros st. unfold get_pages, bind.
  destruct (can_cache S (VBool false)); simpl.
  - destruct (cache_website_pages st) as [[|p ps]|]; simpl; try reflexivity;
      rewrite Hscan; by destruct r.
  - rewrite Hscan; by destruct r.
Qed.

Lemma get_pages_frame st st' :
  cache_website_pages st = cache_website_pages st' ->
  fst (get_pages S st) = fst (get_pages S st').
Proof.
  intros Heq. destruct get_pages_unfold as (r & l & H).
  rewrite !H, Heq.
  destruct (if can_cache S (VBool false) then _ else _) as [[|p ps]|];
    by destruct r.
Qed.

Lemma get_pages_keeps st :
  cache_generator_routes (snd (get_pages S st)) = cache_generator_routes st
  /\ cache_page_context (snd (get_pages S st)) = cache_page_context st
  /\ calls (snd (get_pages S st)) = calls st.
Proof.
  destruct get_pages_unfold as (r & l & H). rewrite H.
  destruct (if can_cache S (VBool false) then _ else _) as [[|p ps]|];
    by destruct r.
Qed.

Lemma doctypes_frame st st' :
  cache_generator_routes st = cache_generator_routes st' ->
  fst (get_page_context_from_doctypes S st)
  = fst (get_page_context_from_doctypes S st').
Proof.
  intros Heq. unfold get_page_context_from_doctypes, bind, gets. simpl.
  rewrite Heq.
  destruct (cache_generator_routes st') as [r|]; simpl;
    [destruct (bool_decide (r = ∅))|]; done.
Qed.

Lemma doctypes_keeps st :
  cache_website_pages (snd (get_page_context_from_doctypes S st))
  = cache_website_pages st
  /\ cache_page_context (snd (get_page_context_from_doctypes S st))
     = cache_page_context st
  /\ calls (snd (get_page_context_from_doctypes S st)) = calls st.
Proof.
  unfold get_page_context_from_doctypes, bind, gets. simpl.
  destruct (cache_generator_routes st) as [r|]; simpl;
    [destruct (bool_decide (r = ∅))|]; done.
Qed.

(** The generator index never raises. *)
Lemma doctypes_ok st :
  exists routes, fst (get_page_context_from_doctypes S st) = Ok routes.
Proof.
  unfold get_page_context_from_doctypes, bind, gets. simpl.
  destruct (cache_generator_routes st) as [r|]; simpl;
    [destruct (bool_decide (r = ∅))|]; simpl; eauto.
Qed.

End Scan_facts.

(** ** The two lookups and the resolver *)

Section Resolver_facts.
Context (S : site).

Lemma dict_truthy_nonempty (d : frappe_dict) : dict_truthy d = true <-> d ≠ ∅.
Proof.
  unfold dict_truthy. rewrite negb_true_iff, bool_decide_eq_false. tauto.
Qed.

Lemma attr_nonempty k (d : frappe_dict) v : attr k d = v -> v ≠ VNone -> d ≠ ∅.
Proof.
  intros Hk Hv ->. unfold attr in Hk. rewrite lookup_empty in Hk. simpl in Hk.
  congruence.
Qed.

(** A page selected for a route is never an empty dict. *)
Lemma first_page_truthy path pages p :
  first_page path pages = Some p ->
  attr "page_name" p = VStr path /\ In p pages /\ dict_truthy p = true.
Proof.
  unfold first_page. intros H.
  assert (In p (List.filter
                  (fun p => bool_decide (attr "page_name" p = VStr path)) pages))
    as Hin.
  { destruct (List.filter _ pages); simplify_eq/=; auto. }
  apply filter_In in Hin as [Hin Hp]. apply bool_decide_eq_true in Hp.
  repeat split; auto. apply dict_truthy_nonempty.
  eapply attr_nonempty; [exact Hp | discriminate].
Qed.

Lemma first_page_none path pages :
  first_page path pages = None <->
  Forall (fun p => attr "page_name" p ≠ VStr path) pages.
Proof.
  unfold first_page. induction pages as [|q qs IH]; simpl.
  - split; auto.
  - destruct (bool_decide_reflect (attr "page_name" q = VStr path)) as [Hq|Hq]; simpl.
    + split; [discriminate|]. intros H. inversion H; subst. contradiction.
    + rewrite IH. split; intros H; [by constructor | by inversion H].
Qed.

Lemma from_template_eq path st :
  get_page_context_from_template S path st
  = (file_answer S st path, snd (get_pages S (probe (FromTemplate path) st))).
Proof.
  unfold get_page_context_from_template, file_answer, bind, modify, ret.
  rewrite (get_pages_frame S st (probe (FromTemplate path) st)) by reflexivity.
  destruct (get_pages S (probe (FromTemplate path) st)) as [[pages|e] st1]; simpl;
    [|reflexivity].
  unfold first_page. by destruct (List.filter _ pages).
Qed.

Lemma from_doctype_eq path st :
  get_page_context_from_doctype S path st
  = (generator_answer S st path,
     snd (get_page_context_from_doctypes S (probe (FromDoctype path) st))).
Proof.
  unfold get_page_context_from_doctype, generator_answer, bind, modify, ret, lift.
  rewrite (doctypes_frame S st (probe (FromDoctype path) st)) by reflexivity.
  destruct (get_page_context_from_doctypes S (probe (FromDoctype path) st))
    as [[routes|e] st1]; simpl; [|reflexivity].
  destruct (routes !! VStr path) as [route|]; [|reflexivity].
  by destruct (get_route_context S _ _).
Qed.

Lemma file_answer_frame st st' path :
  cache_website_pages st = cache_website_pages st' ->
  file_answer S st path = file_answer S st' path.
Proof. intros H. unfold file_answer. by rewrite (get_pages_frame S st st' H). Qed.

Lemma generator_answer_frame st st' path :
  cache_generator_routes st = cache_generator_routes st' ->
  generator_answer S st path = generator_answer S st' path.
Proof.
  intros H. unfold generator_answer. by rewrite (doctypes_frame S st st' H).
Qed.

(** The state after the file-page lookup: one probe entry more, the
    generator index and the context cache as before. *)
Lemma after_template path st :
  let st1 := snd (get_page_context_from_template S path st) in
  cache_generator_routes st1 = cache_generator_routes st
  /\ cache_page_context st1 = cache_page_context st
  /\ calls st1 = calls st ++ [FromTemplate path].
Proof.
  rewrite from_template_eq. simpl.
  destruct (get_pages_keeps S (probe (FromTemplate path) st)) as (-> & -> & ->).
  done.
Qed.

Lemma after_doctype path st :
  let st1 := snd (get_page_context_from_doctype S path st) in
  cache_website_pages st1 = cache_website_pages st
  /\ cache_page_context st1 = cache_page_context st
  /\ calls st1 = calls st ++ [FromDoctype path].
Proof.
  rewrite from_doctype_eq. simpl.
  destruct (doctypes_keeps S (probe (FromDoctype path) st)) as (-> & -> & ->).
  done.
Qed.

(** [resolve_route] in terms of the two answers. *)
Lemma resolve_route_eq path st :
  fst (resolve_route S path st) =
  (if negb (str_in path ["about"; "contact"]) then
     match file_answer S st path with
     | Ok c => if context_truthy c then Ok c else generator_answer S st path
     | Raise e => Raise e
     end
   else
     match generator_answer S st path with
     | Ok c => if context_truthy c then Ok c else file_answer S st path
     | Raise e => Raise e
     end).
Proof.
  unfold resolve_route. destruct (negb _); unfold bind.
  - pose proof (after_template path st) as (Hr & _ & _).
    destruct (get_page_context_from_template S path st) as [r st1] eqn:E.
    rewrite from_template_eq in E. injection E as <- E. simpl in Hr.
    destruct (file_answer S st path) as [c|e]; [|reflexivity].
    destruct (context_truthy c); [reflexivity|].
    rewrite from_doctype_eq. simpl. by apply generator_answer_frame.
  - pose proof (after_doctype path st) as (Hr & _ & _).
    destruct (get_page_context_from_doctype S path st) as [r st1] eqn:E.
    rewrite from_doctype_eq in E. injection E as <- E. simpl in Hr.
    destruct (generator_answer S st path) as [c|e]; [|reflexivity].
    destruct (context_truthy c); [reflexivity|].
    rewrite from_template_eq. simpl. by apply file_answer_frame.
Qed.

(** The probe after [resolve_route]: which lookups ran, in order. *)
Lemma resolve_route_calls path st :
  calls (snd (resolve_route S path st)) =
  calls st ++
  (if negb (str_in path ["about"; "contact"]) then
     match file_answer S st path with
     | Ok c => if context_truthy c then [FromTemplate path]
               else [FromTemplate path; FromDoctype path]
     | Raise e => [FromTemplate path]
     end
   else
     match generator_answer S st path with
     | Ok c => if context_truthy c then [FromDoctype path]
               else [FromDoctype path; FromTemplate path]
     | Raise e => [FromDoctype path]
     end).
Proof.
  unfold resolve_route. destruct (negb _); unfold bind.
  - pose proof (after_template path st) as (_ & _ & Hc).
    destruct (get_page_context_from_template S path st) as [r st1] eqn:E.
    pose proof E as E'. rewrite from_template_eq in E'. injection E' as <- _.
    simpl in Hc.
    destruct (file_answer S st path) as [c|e]; [|done].
    destruct (context_truthy c); [done|].
    pose proof (after_doctype path st1) as (_ & _ & ->). rewrite Hc.
    by rewrite <- app_assoc.
  - pose proof (after_doctype path st) as (_ & _ & Hc).
    destruct (get_page_context_from_doctype S path st) as [r st1] eqn:E.
    pose proof E as E'. rewrite from_doctype_eq in E'. injection E' as <- _.
    simpl in Hc.
    destruct (generator_answer S st path) as [c|e]; [|done].
    destruct (context_truthy c); [done|].
    pose proof (after_template path st1) as (_ & _ & ->). rewrite Hc.
    by rewrite <- app_assoc.
Qed.

Lemma resolve_route_keeps_cache path st :
  cache_page_context (snd (resolve_route S path st)) = cache_page_context st.
Proof.
  unfold resolve_route. destruct (negb _); unfold bind.
  - pose proof (after_template path st) as (_ & Hc & _).
    destruct (get_page_context_from_template S path st) as [[c|e] st1]; [|done].
    simpl in Hc. destruct (context_truthy c); [done|].
    pose proof (after_doctype path st1) as (_ & -> & _). done.
  - pose proof (after_doctype path st) as (_ & Hc & _).
    destruct (get_page_context_from_doctype S path st) as [[c|e] st1]; [|done].
    simpl in Hc. destruct (context_truthy c); [done|].
    pose proof (after_template path st1) as (_ & -> & _). done.
Qed.

End Resolver_facts.

(** Closed equations between computed values are checked by the
    virtual machine. *)
Ltac vm_refl :=
  lazymatch goal with |- _ = ?b => vm_cast_no_check (@eq_refl _ b) end.

(** ** C1: the search order of [resolve_route] *)

(** C1.  For a path other than [about] and [contact], [resolve_route]
    first runs the file-page lookup and returns its answer when that is a
    page, and otherwise runs the generator lookup and returns its answer;
    for [about] and [contact] the two lookups swap roles.  The probe
    shows the order and that the second lookup is not entered when the
    first one answers.  Hence, when a file page and a generator-backed
    context both exist for the path, the result is the generator-backed
    context for [about] and [contact] and the file page for every other
    path. *)
Theorem C1_resolve_route_search_order (S : site) (path : string) (st : state) :
  let special := str_in path ["about"; "contact"] in
  let answer := fst (resolve_route S path st) in
  let trace := calls (snd (resolve_route S path st)) in
  (special = false ->
     (forall c, file_answer S st path = Ok c -> context_truthy c = true ->
        answer = Ok c /\ trace = calls st ++ [FromTemplate path])
     /\ (forall c, file_answer S st path = Ok c -> context_truthy c = false ->
        answer = generator_answer S st path
        /\ trace = calls st ++ [FromTemplate path; FromDoctype path]))
  /\ (special = true ->
     (forall c, generator_answer S st path = Ok c -> context_truthy c = true ->
        answer = Ok c /\ trace = calls st ++ [FromDoctype path])
     /\ (forall c, generator_answer S st path = Ok c -> context_truthy c = false ->
        answer = file_answer S st path
        /\ trace = calls st ++ [FromDoctype path; FromTemplate path]))
  /\ (forall p c,
        file_answer S st path = Ok (Some p) ->
        generator_answer S st path = Ok (Some c) -> c ≠ ∅ ->
        answer = Ok (Some (if special then c else p))).
Proof.
  intros special answer trace. subst answer trace.
  rewrite resolve_route_eq, resolve_route_calls. fold special.
  split; [|split].
  - intros ->. simpl. split; intros c -> ->; done.
  - intros ->. simpl. split; intros c -> ->; done.
  - intros p c Hp Hc Hne. rewrite Hp, Hc.
    assert (context_truthy (Some p) = true) as ->.
    { unfold file_answer in Hp. destruct (fst (get_pages S st)); [|done].
      injection Hp as Hp. by apply first_page_truthy in Hp as (_ & _ & ?). }
    assert (context_truthy (Some c) = true) as ->
      by (by apply dict_truthy_nonempty).
    by destruct special.
Qed.

(** On the demo site both a file page and a [Web Page] record exist for
    [about] and for [foo]: [about] resolves to the record's context,
    [foo] to the file page. *)
Lemma C1_witness :
  (file_answer Demo.site empty_state "about" = Ok (Some Demo.about_page)
   /\ generator_answer Demo.site empty_state "about" = Ok (Some Demo.about_context)
   /\ attr "page_or_generator" Demo.about_context = VStr "Generator"
   /\ fst (resolve_route Demo.site "about" empty_state) = Ok (Some Demo.about_context))
  /\ (file_answer Demo.site empty_state "foo" = Ok (Some Demo.foo_page)
      /\ generator_answer Demo.site empty_state "foo" = Ok (Some Demo.foo_context)
      /\ attr "page_or_generator" Demo.foo_page = VStr "Page"
      /\ fst (resolve_route Demo.site "foo" empty_state) = Ok (Some Demo.foo_page)).
Proof.
  assert (file_answer Demo.site empty_state "about" = Ok (Some Demo.about_page))
    as Hp1 by vm_refl.
  assert (generator_answer Demo.site empty_state "about" = Ok (Some Demo.about_context))
    as Hc1 by vm_refl.
  assert (attr "page_or_generator" Demo.about_context = VStr "Generator")
    as Ha1 by vm_refl.
  assert (file_answer Demo.site empty_state "foo" = Ok (Some Demo.foo_page))
    as Hp2 by vm_refl.
  assert (generator_answer Demo.site empty_state "foo" = Ok (Some Demo.foo_context))
    as Hc2 by vm_refl.
  assert (attr "page_or_generator" Demo.foo_context = VStr "Generator")
    as Ha2 by vm_refl.
  assert (attr "page_or_generator" Demo.foo_page = VStr "Page")
    as Ha3 by vm_refl.
  assert (forall (d : frappe_dict) s, attr "page_or_generator" d = VStr s -> d ≠ ∅)
    as Hne by (intros d s Hd; eapply attr_nonempty; [exact Hd | discriminate]).
  split.
  - split; [exact Hp1|]. split; [exact Hc1|]. split; [exact Ha1|].
    exact (proj2 (proj2 (C1_resolve_route_search_order Demo.site "about" empty_state))
             Demo.about_page Demo.about_context Hp1 Hc1 (Hne _ _ Ha1)).
  - split; [exact Hp2|]. split; [exact Hc2|]. split; [exact Ha3|].
    exact (proj2 (proj2 (C1_resolve_route_search_order Demo.site "foo" empty_state))
             Demo.foo_page Demo.foo_context Hp2 Hc2 (Hne _ _ Ha2)).
Defined.

(** ** C2: an unknown path is not found *)

(** C2.  When the path is the route of no file page and no key of the
    generator route index, [make_page_context] raises
    [DoesNotExistError]: it returns no context, and stores none. *)
Theorem C2_unknown_path_raises (S : site) (path : string) (st : state)
    (pages : list frappe_dict) (routes : gmap value frappe_dict) :
  fst (get_pages S st) = Ok pages ->
  Forall (fun p => attr "page_name" p ≠ VStr path) pages ->
  fst (get_page_context_from_doctypes S st) = Ok routes ->
  routes !! VStr path = None ->
  fst (make_page_context S path st) = Raise DoesNotExistError
  /\ cache_page_context (snd (make_page_context S path st)) = cache_page_context st.
Proof.
  intros Hpages Hnone Hroutes Hkey.
  set (st0 := probe (MakePageContext path) st).
  assert (file_answer S st0 path = Ok None) as Hf.
  { rewrite <- (file_answer_frame S st st0 path) by reflexivity.
    unfold file_answer. rewrite Hpages. f_equal. by apply first_page_none. }
  assert (generator_answer S st0 path = Ok None) as Hg.
  { rewrite <- (generator_answer_frame S st st0 path) by reflexivity.
    unfold generator_answer. by rewrite Hroutes, Hkey. }
  pose proof (resolve_route_eq S path st0) as Hr.
  pose proof (resolve_route_keeps_cache S path st0) as Hc.
  rewrite Hf, Hg in Hr. simpl in Hr.
  unfold make_page_context, bind, modify. fold st0.
  destruct (resolve_route S path st0) as [[[c|]|e] st1]; simpl in *.
  - destruct (negb _); congruence.
  - split; [reflexivity | exact Hc].
  - destruct (negb _); congruence.
Qed.

(** The demo site has neither a page nor a record for [nothing]. *)
Lemma C2_witness :
  fst (make_page_context Demo.site "nothing" empty_state) = Raise DoesNotExistError
  /\ cache_page_context (snd (make_page_context Demo.site "nothing" empty_state))
     = cache_page_context empty_state.
Proof.
  assert (fst (get_pages Demo.site empty_state) = Ok Demo.pages)
    as Hpages by vm_refl.
  assert (Forall (fun p => attr "page_name" p ≠ VStr "nothing") Demo.pages)
    as Hnone by (apply first_page_none; vm_refl).
  assert (fst (get_page_context_from_doctypes Demo.site empty_state) = Ok Demo.routes)
    as Hroutes by vm_refl.
  assert (Demo.routes !! VStr "nothing" = None)
    as Hkey by vm_refl.
  exact (C2_unknown_path_raises Demo.site "nothing" empty_state Demo.pages Demo.routes
           Hpages Hnone Hroutes Hkey).
Defined.

(** ** C3 and C10: the page-context cache *)

Section Cache_facts.
Context (S : site).

Lemma make_page_context_keeps_cache path st :
  cache_page_context (snd (make_page_context S path st)) = cache_page_context st.
Proof.
  unfold make_page_context, bind, modify.
  pose proof (resolve_route_keeps_cache S path (probe (MakePageContext path) st))
    as Hc.
  destruct (resolve_route S path _) as [[[c|]|e] st1]; simpl in *; try done.
  by destruct (dict_truthy c).
Qed.

(** A context that [make_page_context] returns has a [pathname], so it
    is not an empty dict. *)
Lemma make_page_context_nonempty path st ctx :
  fst (make_page_context S path st) = Ok ctx -> ctx ≠ ∅.
Proof.
  unfold make_page_context, bind, modify.
  destruct (resolve_route S path _) as [[[c|]|e] st1]; simpl; try done.
  destruct (dict_truthy c); simpl; [|done].
  intros [= <-]. apply (attr_nonempty "pathname" _ (VStr (local_path S))).
  - unfold attr. by rewrite lookup_insert_eq.
  - discriminate.
Qed.

Lemma can_cache_enabled v : can_cache S v = true -> caching_enabled S = true.
Proof. unfold can_cache. by intros [? _]%andb_true_iff. Qed.

(** [get_page_context] in terms of what the cache holds and of
    [make_page_context]: the unbound local is never read. *)
Lemma get_page_context_eq path st :
  get_page_context S path st =
  if context_truthy (cached_context S st path)
  then (Ok (default ∅ (cached_context S st path)), st)
  else
    match make_page_context S path st with
    | (Ok ctx, st1) =>
        (Ok ctx,
         if can_cache S (attr "no_cache" ctx)
         then hset_page_context path
                (<[local_lang S := ctx]> (language_map st path)) st1
         else st1)
    | (Raise e, st1) => (Raise e, st1)
    end.
Proof.
  unfold get_page_context, cached_context, language_map, bind, gets, ret.
  destruct (can_cache S (VBool false)) eqn:Hcan; simpl.
  - destruct (context_truthy _); [reflexivity|].
    destruct (make_page_context S path st) as [[ctx|e] st1]; [|reflexivity].
    by destruct (can_cache S (attr "no_cache" ctx)).
  - destruct (make_page_context S path st) as [[ctx|e] st1]; [|reflexivity].
    destruct (can_cache S (attr "no_cache" ctx)) eqn:Hc; [|reflexivity].
    apply can_cache_enabled in Hc. unfold can_cache in Hcan.
    rewrite Hc in Hcan. discriminate.
Qed.

End Cache_facts.

(** C3.  With caching enabled, a context present in the cache for the
    path under the active language is returned as it is and the state,
    probe included, is unchanged: the resolver is not entered.  On a miss
    the path is resolved, and the state afterwards is the resolver's with
    the context stored exactly when caching is enabled and the context
    does not set [no_cache].  A second call right after a call that could
    cache returns the same context and changes nothing. *)
Theorem C3_page_context_cache (S : site) (path : string) (st : state) :
  (forall m ctx,
      caching_enabled S = true ->
      cache_page_context st !! path = Some m -> m !! local_lang S = Some ctx ->
      ctx ≠ ∅ ->
      get_page_context S path st = (Ok ctx, st))
  /\ (forall ctx st1,
      context_truthy (cached_context S st path) = false ->
      make_page_context S path st = (Ok ctx, st1) ->
      get_page_context S path st =
      (Ok ctx,
       if caching_enabled S && negb (truthy (attr "no_cache" ctx))
       then hset_page_context path
              (<[local_lang S := ctx]> (language_map st path)) st1
       else st1))
  /\ (forall ctx st',
      get_page_context S path st = (Ok ctx, st') ->
      caching_enabled S = true -> truthy (attr "no_cache" ctx) = false ->
      get_page_context S path st' = (Ok ctx, st')).
Proof.
  assert (forall st m ctx,
      caching_enabled S = true ->
      cache_page_context st !! path = Some m -> m !! local_lang S = Some ctx ->
      ctx ≠ ∅ ->
      get_page_context S path st = (Ok ctx, st)) as Hhit.
  { intros st0 m ctx Hen Hm Hctx Hne. rewrite get_page_context_eq.
    unfold cached_context, language_map, can_cache.
    rewrite Hen, Hm. simpl. rewrite Hctx. simpl.
    apply dict_truthy_nonempty in Hne. by rewrite Hne. }
  split; [apply Hhit|]. split.
  - intros ctx st1 Hmiss Hmake. rewrite get_page_context_eq, Hmiss, Hmake.
    reflexivity.
  - intros ctx st' Hget Hen Hnc. rewrite get_page_context_eq in Hget.
    destruct (context_truthy (cached_context S st path)) eqn:Hc.
    + injection Hget as <- <-. rewrite get_page_context_eq, Hc. reflexivity.
    + destruct (make_page_context S path st) as [[c|e] st1] eqn:Hmake;
        simplify_eq/=.
      unfold can_cache. rewrite Hen, Hnc. simpl.
      eapply Hhit; eauto.
      * simpl. apply lookup_insert_eq.
      * apply lookup_insert_eq.
      * eapply make_page_context_nonempty. by rewrite Hmake.
Qed.

(** On the demo site the first request for [about] stores its context
    under [en]; the second is answered from the cache. *)
Lemma C3_witness :
  get_page_context Demo.site "about" empty_state
  = (Ok Demo.made_context, Demo.cached_state)
  /\ language_map Demo.cached_state "about" !! "en" = Some Demo.made_context
  /\ get_page_context Demo.site "about" Demo.cached_state
     = (Ok Demo.made_context, Demo.cached_state).
Proof.
  assert (context_truthy (cached_context Demo.site empty_state "about") = false)
    as Hmiss by vm_refl.
  assert (make_page_context Demo.site "about" empty_state
          = (Ok Demo.made_context, Demo.made_state))
    as Hmake by vm_refl.
  assert (truthy (attr "no_cache" Demo.made_context) = false)
    as Hnc by vm_refl.
  pose proof (proj1 (proj2 (C3_page_context_cache Demo.site "about" empty_state))
                Demo.made_context Demo.made_state Hmiss Hmake) as Hfirst.
  assert (get_page_context Demo.site "about" empty_state
          = (Ok Demo.made_context, Demo.cached_state)) as Hget.
  { rewrite Hfirst. vm_refl. }
  split; [exact Hget|]. split; [vm_refl|].
  exact (proj2 (proj2 (C3_page_context_cache Demo.site "about" empty_state))
           Demo.made_context Demo.cached_state Hget eq_refl Hnc).
Defined.

(** C10.  When [get_page_context] stores a freshly resolved context, the
    map written back for the path is the map read for it with the active
    language set to the new context: the entry of every other language
    is as before, and so is the entry of every other path. *)
Theorem C10_other_languages_preserved (S : site) (path : string) (st st1 : state)
    (ctx : frappe_dict) :
  context_truthy (cached_context S st path) = false ->
  make_page_context S path st = (Ok ctx, st1) ->
  can_cache S (attr "no_cache" ctx) = true ->
  let st' := snd (get_page_context S path st) in
  cache_page_context st' !! path
  = Some (<[local_lang S := ctx]> (language_map st path))
  /\ language_map st' path !! local_lang S = Some ctx
  /\ (forall lang, lang ≠ local_lang S ->
        language_map st' path !! lang = language_map st path !! lang)
  /\ (forall other, other ≠ path ->
        cache_page_context st' !! other = cache_page_context st !! other).
Proof.
  intros Hmiss Hmake Hcan st'. subst st'.
  rewrite get_page_context_eq, Hmiss, Hmake, Hcan. simpl.
  pose proof (make_page_context_keeps_cache S path st) as Hkeep.
  rewrite Hmake in Hkeep. simpl in Hkeep.
  assert (forall m, language_map (hset_page_context path m st1) path = m) as Hmap.
  { intros m. unfold language_map. simpl. by rewrite lookup_insert_eq. }
  split; [apply lookup_insert_eq|]. rewrite Hmap.
  split; [apply lookup_insert_eq|]. split.
  - intros lang Hne. by rewrite lookup_insert_ne.
  - intros other Hne. rewrite lookup_insert_ne by done. by rewrite Hkeep.
Qed.

(** The demo store holds a German context for [about]; a request under
    [en] adds the English one beside it. *)
Lemma C10_witness :
  language_map (snd (get_page_context Demo.site "about" Demo.other_language))
    "about" !! "de"
  = Some {[ "title" := VStr "Ueber uns" ]}
  /\ language_map (snd (get_page_context Demo.site "about" Demo.other_language))
       "about" !! "en"
     = Some Demo.made_context.
Proof.
  assert (context_truthy (cached_context Demo.site Demo.other_language "about") = false)
    as Hmiss by vm_refl.
  assert (make_page_context Demo.site "about" Demo.other_language
          = (Ok Demo.made_context, Demo.other_made_state))
    as Hmake by vm_refl.
  assert (can_cache Demo.site (attr "no_cache" Demo.made_context) = true)
    as Hcan by vm_refl.
  pose proof (C10_other_languages_preserved Demo.site "about" Demo.other_language
                Demo.other_made_state Demo.made_context Hmiss Hmake Hcan) as H.
  cbv zeta in H. destruct H as (_ & Hen & Hother & _).
  split; [|exact Hen].
  rewrite (Hother "de") by (simpl; discriminate).
  vm_refl.
Defined.

(** ** C4: sidecar files during the scan *)

(** What the loop body does with a [.js] or [.css] file: it is skipped
    exactly when a file named after the whole file name plus [.html]
    exists, and becomes a page otherwise. *)
Lemma scan_file_js_css (S : site) path basepath app app_path pages fname page_name extn :
  PyStr.rsplit1 "." fname = Some (page_name, extn) ->
  str_in extn ["js"; "css"] = true ->
  scan_file S path basepath app app_path pages fname =
  if os_path_exists S (OsPath.join basepath (fname +:+ ".html"))
  then ret pages
  else bind (lift (get_page_info S path basepath app app_path fname))
            (fun page_info => ret (pages ++ [page_info])).
Proof.
  intros Hsplit Hext. unfold scan_file. rewrite Hsplit, Hext, andb_true_l.
  destruct (os_path_exists S _); [reflexivity|].
  assert (str_in extn ["html"; "xml"; "js"; "css"; "md"] = true) as ->; [|done].
  unfold str_in in *. simpl in *.
  repeat (destruct (String.eqb extn _); simpl in *; try done).
Qed.

(** C4 (the code at the failing input).  In the directory
    [/apps/frappe/www] of the demo site [page.js] stands beside
    [page.html], and the scan still turns [page.js] into a page of its
    own, with route [page.js]: the test that should skip it looks for
    [page.js.html]. *)
Theorem C4_js_beside_html_becomes_a_page :
  os_path_exists Demo.site "/apps/frappe/www/page.html" = true
  /\ os_path_exists Demo.site "/apps/frappe/www/page.js.html" = false
  /\ fst (get_pages_from_path Demo.site "/apps/frappe/www" "frappe" "/apps/frappe"
            empty_state) = Ok Demo.www_pages
  /\ first_page "page.js" Demo.www_pages = Some Demo.page_js
  /\ attr "template" Demo.page_js = VStr "www/page.js"
  /\ attr "page_name" Demo.page_js = VStr "page.js".
Proof. repeat split; vm_refl. Qed.

(** ** C5: pages that share a route *)

Section Scan_order.
Context (S : site).

Lemma foldM_extends {A} (f : list frappe_dict -> A -> M (list frappe_dict)) :
  (forall pages x st out,
      fst (f pages x st) = Ok out -> exists found, out = pages ++ found) ->
  forall l pages st out,
    fst (foldM f pages l st) = Ok out -> exists found, out = pages ++ found.
Proof.
  intros Hf. induction l as [|x xs IH]; intros pages st out; simpl.
  - intros [= <-]. exists []. by rewrite app_nil_r.
  - unfold bind. destruct (f pages x st) as [[mid|e] st1] eqn:E; [|done].
    intros Hout. apply IH in Hout as [found2 ->].
    destruct (Hf pages x st mid) as [found1 ->]; [by rewrite E|].
    exists (found1 ++ found2). by rewrite app_assoc.
Qed.

Lemma scan_file_extends path basepath app app_path pages fname st out :
  fst (scan_file S path basepath app app_path pages fname st) = Ok out ->
  exists found, out = pages ++ found.
Proof.
  unfold scan_file. destruct (PyStr.rsplit1 _ fname) as [[page_name extn]|]; [|done].
  assert (fst (ret pages st) = Ok out -> exists found, out = pages ++ found) as Hret.
  { intros [= <-]. exists []. by rewrite app_nil_r. }
  destruct (_ && _); [exact Hret|].
  destruct (str_in extn _); [|exact Hret].
  unfold bind, lift. destruct (get_page_info S _ _ _ _ _) as [pi|e]; [|done].
  intros [= <-]. by exists [pi].
Qed.

(** The scan only appends: the pages found in a directory come after
    the pages found before it, file by file. *)
Lemma scan_dir_extends path app app_path pages entry st out :
  fst (scan_dir S path app app_path pages entry st) = Ok out ->
  exists found, out = pages ++ found.
Proof.
  destruct entry as [[basepath folders] files]. unfold scan_dir, bind.
  destruct (negb (str_in "__init__.py" files)); unfold modify, ret;
    apply foldM_extends; intros; by eapply scan_file_extends.
Qed.

End Scan_order.

(** C5 (counterexample).  The demo site has two pages with route [foo],
    found in this order: the one of app [frappe], then the one of app
    [erpnext].  Resolving [foo] returns the first, not the last. *)
Lemma C5_counterexample :
  fst (get_pages Demo.site empty_state) = Ok Demo.pages
  /\ first_page "foo" Demo.pages = Some Demo.foo_page
  /\ last_page "foo" Demo.pages = Some Demo.foo_later
  /\ attr "controller" Demo.foo_page = VStr "frappe.www.foo"
  /\ attr "controller" Demo.foo_later = VStr "erpnext.www.foo"
  /\ fst (get_page_context_from_template Demo.site "foo" empty_state)
     = Ok (Some Demo.foo_page)
  /\ fst (resolve_route Demo.site "foo" empty_state) = Ok (Some Demo.foo_page)
  /\ Demo.foo_page ≠ Demo.foo_later.
Proof.
  repeat split; try vm_refl.
  intros H. apply (f_equal (attr "controller")) in H. vm_compute in H. discriminate.
Qed.

(** ** Text *)

Lemma app_cons c (s t : string) : String c s +:+ t = String c (s +:+ t).
Proof. reflexivity. Qed.

Lemma app_nil_l (s : string) : EmptyString +:+ s = s.
Proof. reflexivity. Qed.

Lemma app_nil_r (s : string) : s +:+ EmptyString = s.
Proof. induction s as [|c s IH]; [done|]. by rewrite app_cons, IH. Qed.

Lemma app_assoc (a b c : string) : (a +:+ b) +:+ c = a +:+ (b +:+ c).
Proof. induction a as [|x a IH]; [done|]. by rewrite !app_cons, IH. Qed.

Lemma attr_insert_eq k v (d : frappe_dict) : attr k (<[k := v]> d) = v.
Proof. unfold attr. by rewrite lookup_insert_eq. Qed.

Lemma attr_insert_ne k k' v (d : frappe_dict) :
  k ≠ k' -> attr k (<[k' := v]> d) = attr k d.
Proof. intros H. unfold attr. by rewrite lookup_insert_ne. Qed.

(** ** C6 and the shell of a content-only page *)

(** On a content-only page [get_source] marks the page and returns the
    shell around the source, followed by one script block that carries
    the text left in [js]: the CSS file's text when that file exists,
    else the JS file's.  No style block is ever produced. *)
Lemma get_source_content_only (S : site) (page_info : frappe_dict)
    (basepath src : string) :
  let template := str_of (attr "template" page_info) in
  loader_get_source S template = Some src ->
  PyStr.endswith ".html" template || PyStr.endswith ".md" template = true ->
  PyStr.contains "</body>" (rendered S template src) = false ->
  PyStr.contains "{% block" (rendered S template src) = false ->
  get_source S page_info basepath
  = Ok (page_shell (rendered S template src)
          +:+ script_block (sibling_text S page_info basepath),
        <["only_content" := VBool true]> page_info).
Proof.
  intros template Hload Hext Hbody Hblock.
  unfold get_source. fold template. rewrite Hload.
  fold (rendered S template src). rewrite Hext, Hbody, Hblock. simpl negb.
  simpl andb. cbv iota. f_equal. f_equal.
  rewrite attr_insert_ne by done.
  unfold sibling_text, script_block, page_shell, extends_web.
  destruct (os_path_exists S (OsPath.join basepath (_ +:+ ".css")));
    [|destruct (os_path_exists S (OsPath.join basepath (_ +:+ ".js")))];
    repeat match goal with
           | |- context [String.eqb ?x EmptyString] =>
               destruct (String.eqb x EmptyString)
           end; simpl negb; cbv iota; rewrite ?app_nil_r, ?app_assoc; reflexivity.
Qed.

(** C6 (the code at the failing input).  The page [www/page.html] of the
    demo site is content-only and has both siblings, [page.js] holding
    [alert(1);] and [page.css] holding a CSS rule.  The source built for
    it carries the CSS rule inside a script block; it has no style block
    and the JS text is nowhere in it. *)
Theorem C6_css_text_in_script_block :
  os_path_exists Demo.site "/apps/frappe/www/page.js" = true
  /\ os_path_exists Demo.site "/apps/frappe/www/page.css" = true
  /\ read_file Demo.site "/apps/frappe/www/page.js" = "alert(1);"
  /\ read_file Demo.site "/apps/frappe/www/page.css" = "p { color: red }"
  /\ get_source Demo.site Demo.page_html "/apps/frappe/www"
     = Ok (Demo.page_source, <["only_content" := VBool true]> Demo.page_html)
  /\ Demo.page_source
     = page_shell "<p>Page</p>" +:+ nl +:+ "{% block script %}<script>"
         +:+ "p { color: red }" +:+ nl +:+ "</script>" +:+ nl +:+ "{% endblock %}"
  /\ PyStr.contains "{% block style %}" Demo.page_source = false
  /\ PyStr.contains "<style>" Demo.page_source = false
  /\ PyStr.contains "alert(1);" Demo.page_source = false.
Proof. repeat split; vm_refl. Qed.

(** ** C8: the generator route index *)

Section Index_facts.
Context (S : site).

(** The keys of a map filled by a loop of insertions are the keys it had
    and the keys the loop inserts. *)
Lemma fold_left_keys {A} (step : gmap value frappe_dict -> A -> gmap value frappe_dict)
    (P : A -> value -> Prop) :
  (forall m x k, is_Some (step m x !! k) <-> is_Some (m !! k) \/ P x k) ->
  forall l m k,
    is_Some (fold_left step l m !! k)
    <-> is_Some (m !! k) \/ exists x, In x l /\ P x k.
Proof.
  intros Hstep. induction l as [|x xs IH]; intros m k; simpl.
  - split; [auto|]. intros [H|(x & [] & _)]. exact H.
  - rewrite IH, Hstep. split.
    + intros [[H|H]|(y & Hy & HP)]; eauto 6.
    + intros [H|(y & [<-|Hy] & HP)]; eauto 6.
Qed.

Lemma insert_keys (m : gmap value frappe_dict) a v k :
  is_Some (<[a := v]> m !! k) <-> is_Some (m !! k) \/ a = k.
Proof.
  rewrite lookup_insert_is_Some. destruct (decide (a = k)); naive_solver.
Qed.

Lemma select_rows route table cond r :
  In r (Sql.select route table cond) ->
  exists row, In row table /\ Sql.holds row cond = true
              /\ attr "route" r = Sql.eval row route.
Proof.
  unfold Sql.select. rewrite in_map_iff. intros (row & <- & Hin).
  apply filter_In in Hin as [Hin Hholds]. exists row. repeat split; auto.
Qed.

Lemma rows_select route table cond row :
  In row table -> Sql.holds row cond = true ->
  exists r, In r (Sql.select route table cond)
            /\ attr "route" r = Sql.eval row route.
Proof.
  intros Hin Hholds. eexists. split.
  - unfold Sql.select. apply in_map_iff. exists row. split; [reflexivity|].
    apply filter_In. auto.
  - reflexivity.
Qed.

Lemma add_doctype_routes_keys m doctype k :
  is_Some (add_doctype_routes S m doctype !! k)
  <-> is_Some (m !! k)
      \/ exists row, In row (db_table S doctype)
                     /\ Sql.holds row (condition S doctype) = true
                     /\ Sql.eval row (route_column_name S doctype) = k.
Proof.
  unfold add_doctype_routes.
  rewrite (fold_left_keys _ (fun r k => attr "route" r = k))
    by (intros; apply insert_keys).
  split; (intros [H|H]; [by left|right]).
  - destruct H as (r & Hr & <-). apply select_rows in Hr as (row & ? & ? & ->).
    eauto.
  - destruct H as (row & Hin & Hholds & <-).
    destruct (rows_select (route_column_name S doctype) _ _ row Hin Hholds)
      as (r & ? & ?). eauto.
Qed.

Lemma add_app_routes_keys m app k :
  is_Some (add_app_routes S m app !! k)
  <-> is_Some (m !! k)
      \/ exists doctype row,
           In doctype (website_generators S app)
           /\ In row (db_table S doctype)
           /\ Sql.holds row (condition S doctype) = true
           /\ Sql.eval row (route_column_name S doctype) = k.
Proof.
  unfold add_app_routes.
  rewrite (fold_left_keys _
             (fun doctype k =>
                exists row, In row (db_table S doctype)
                            /\ Sql.holds row (condition S doctype) = true
                            /\ Sql.eval row (route_column_name S doctype) = k))
    by (intros; apply add_doctype_routes_keys).
  naive_solver.
Qed.

Lemma generator_index_keys k :
  is_Some (generator_index S !! k)
  <-> exists app doctype row,
        In app (installed_apps S)
        /\ In doctype (website_generators S app)
        /\ In row (db_table S doctype)
        /\ Sql.holds row (condition S doctype) = true
        /\ Sql.eval row (route_column_name S doctype) = k.
Proof.
  unfold generator_index.
  rewrite (fold_left_keys _
             (fun app k =>
                exists doctype row,
                  In doctype (website_generators S app)
                  /\ In row (db_table S doctype)
                  /\ Sql.holds row (condition S doctype) = true
                  /\ Sql.eval row (route_column_name S doctype) = k))
    by (intros; apply add_app_routes_keys).
  rewrite lookup_empty. split.
  - intros [[? [=]]|H]. naive_solver.
  - naive_solver.
Qed.

End Index_facts.

(** C8.  For a record type with a parent-route field the route of a row
    is [parent/page_name], and just [page_name] when the parent is empty
    or NULL; for a type without the field it is the [page_name] column.
    When the controller names a condition field, a row passes exactly
    when that column is 1, so a row holding 0 does not.  The keys of the
    index are exactly the routes of the rows that pass, over every record
    type of every installed app, and that index is what
    [get_page_context_from_doctypes] returns when none is cached. *)
Theorem C8_generator_route_index (S : site) :
  (forall doctype row page,
      attr "page_name" row = VStr page ->
      has_parent_website_route S doctype = true ->
      (forall parent,
          attr "parent_website_route" row = VStr parent -> parent ≠ EmptyString ->
          Sql.eval row (route_column_name S doctype) = VStr (parent +:+ "/" +:+ page))
      /\ (attr "parent_website_route" row = VStr EmptyString
          \/ attr "parent_website_route" row = VNone ->
          Sql.eval row (route_column_name S doctype) = VStr page))
  /\ (forall doctype row,
      has_parent_website_route S doctype = false ->
      Sql.eval row (route_column_name S doctype) = attr "page_name" row)
  /\ (forall doctype field row,
      condition_field S doctype = VStr field -> field ≠ EmptyString ->
      (Sql.holds row (condition S doctype) = true <-> attr field row = VInt 1)
      /\ (attr field row = VInt 0 -> Sql.holds row (condition S doctype) = false))
  /\ (forall doctype row,
      truthy (condition_field S doctype) = false ->
      Sql.holds row (condition S doctype) = true)
  /\ (forall key,
      is_Some (generator_index S !! key)
      <-> exists app doctype row,
            In app (installed_apps S)
            /\ In doctype (website_generators S app)
            /\ In row (db_table S doctype)
            /\ Sql.holds row (condition S doctype) = true
            /\ Sql.eval row (route_column_name S doctype) = key)
  /\ (forall st,
      cache_generator_routes st = None ->
      fst (get_page_context_from_doctypes S st) = Ok (generator_index S)).
Proof.
  split; [|split; [|split; [|split; [|split]]]].
  - intros doctype row page Hpage Hhas. unfold route_column_name. rewrite Hhas.
    split.
    + intros parent Hparent Hne. simpl. rewrite Hparent, Hpage. simpl.
      apply String.eqb_neq in Hne. by rewrite Hne.
    + intros [Hparent|Hparent]; simpl; by rewrite Hparent, Hpage.
  - intros doctype row Hhas. unfold route_column_name. by rewrite Hhas.
  - intros doctype field row Hfield Hne. unfold condition. rewrite Hfield. simpl.
    apply String.eqb_neq in Hne. rewrite Hne. simpl.
    split.
    + destruct (attr field row) as [| |n|]; simpl; try (split; discriminate).
      destruct (Z.eqb_spec n 1) as [->|Hn]; split; try done. congruence.
    + by intros ->.
  - intros doctype row Hfalsy. unfold condition. by rewrite Hfalsy.
  - apply generator_index_keys.
  - intros st Hnone. unfold get_page_context_from_doctypes, bind, gets.
    by rewrite Hnone.
Qed.

(** The rows of [Blog Post] on the demo site: the published row under
    parent [blog] is indexed as [blog/hello-world], the unpublished one
    is not indexed, and the row with an empty parent is indexed under its
    page name. *)
Lemma C8_witness :
  attr "doctype" <$> (generator_index Demo.site !! VStr "blog/hello-world")
  = Some (VStr "Blog Post")
  /\ generator_index Demo.site !! VStr "blog/draft" = None
  /\ is_Some (generator_index Demo.site !! VStr "solo")
  /\ Sql.eval (Demo.blog_post "hello-world" "blog" 1)
       (route_column_name Demo.site "Blog Post") = VStr "blog/hello-world"
  /\ Sql.holds (Demo.blog_post "draft" "blog" 0) (condition Demo.site "Blog Post")
     = false.
Proof.
  destruct (C8_generator_route_index Demo.site) as (Hroute & _ & Hcond & _ & Hkeys & _).
  split; [vm_refl|]. split; [vm_refl|]. split; [|split].
  - apply Hkeys. exists "frappe", "Blog Post", (Demo.blog_post "solo" EmptyString 1).
    repeat split; try vm_refl; simpl; auto.
  - assert (attr "page_name" (Demo.blog_post "hello-world" "blog" 1)
            = VStr "hello-world") as Hpage by vm_refl.
    assert (attr "parent_website_route" (Demo.blog_post "hello-world" "blog" 1)
            = VStr "blog") as Hparent by vm_refl.
    apply (proj1 (Hroute "Blog Post" _ "hello-world" Hpage eq_refl) "blog" Hparent).
    discriminate.
  - assert (attr "published" (Demo.blog_post "draft" "blog" 0) = VInt 0)
      as Hzero by vm_refl.
    apply (proj2 (Hcond "Blog Post" "published" (Demo.blog_post "draft" "blog" 0)
                    eq_refl ltac:(discriminate)) Hzero).
Defined.

(** ** C9: the route of an index file *)

Section Strip_facts.
Import PyStr.

Lemma startswith_refl s : startswith s s = true.
Proof. induction s as [|c s IH]; simpl; [done|]. by rewrite Ascii.eqb_refl. Qed.

Lemma endswith_contains suf s : endswith suf s = true -> contains suf s = true.
Proof.
  induction s as [|c s IH]; simpl.
  - rewrite orb_false_r. intros ->%String.eqb_eq. reflexivity.
  - intros [->%String.eqb_eq|H]%orb_true_iff.
    + change (contains (String c s) (String c s) = true).
      simpl. by rewrite Ascii.eqb_refl, startswith_refl.
    + rewrite (IH H). apply orb_true_r.
Qed.

Lemma startswith_contains p s : startswith p s = true -> contains p s = true.
Proof. intros H. destruct s; simpl in *; by rewrite H. Qed.

Lemma lstrip_keep c s :
  startswith (String c EmptyString) s = false -> lstrip_by (Ascii.eqb c) s = s.
Proof.
  destruct s as [|a s]; simpl; [done|]. rewrite andb_true_r. by intros ->.
Qed.

Lemma rstrip_keep c s :
  endswith (String c EmptyString) s = false -> rstrip_by (Ascii.eqb c) s = s.
Proof.
  induction s as [|a s IH]; simpl; [done|].
  intros [Ha Hs]%orb_false_iff. rewrite (IH Hs).
  destruct s as [|b s]; [|done].
  destruct (Ascii.eqb c a); [discriminate Ha | done].
Qed.

Lemma rstrip_drop_last drop s c :
  drop c = true -> rstrip_by drop (s +:+ String c EmptyString) = rstrip_by drop s.
Proof.
  intros Hc. induction s as [|a s IH].
  - simpl. by rewrite Hc.
  - rewrite app_cons. simpl. by rewrite IH.
Qed.

Lemma strip_keep c s :
  startswith (String c EmptyString) s = false ->
  endswith (String c EmptyString) s = false ->
  strip c s = s.
Proof.
  intros Hs He. unfold strip, strip_by. rewrite (lstrip_keep c s Hs).
  by apply rstrip_keep.
Qed.

Lemma startswith_app_nonempty p a b :
  a ≠ EmptyString -> String.length p = 1 ->
  startswith p (a +:+ b) = startswith p a.
Proof.
  intros Ha Hp. destruct p as [|x [|y p]]; try discriminate.
  destruct a as [|c a]; [done|]. reflexivity.
Qed.

Lemma endswith_app suf a b :
  b ≠ EmptyString -> String.length suf = 1 ->
  endswith suf (a +:+ b) = endswith suf b.
Proof.
  intros Hb Hsuf. destruct suf as [|x [|y suf]]; try discriminate.
  induction a as [|c a IH]; [done|].
  rewrite app_cons. simpl. rewrite IH.
  destruct (a +:+ b) as [|d r] eqn:E.
  - destruct a; [change (b = EmptyString) in E; congruence|].
    rewrite app_cons in E. discriminate.
  - simpl. by destruct (Ascii.eqb x c).
Qed.

Lemma component_relative s : component s -> relative s.
Proof.
  intros [Hne Hno]. split; [done|]. split.
  - destruct (startswith "/" s) eqn:E; [|done].
    apply startswith_contains in E. congruence.
  - destruct (endswith "/" s) eqn:E; [|done].
    apply endswith_contains in E. congruence.
Qed.

(** Joining a relative path and a component inserts one slash and gives
    a relative path. *)
Lemma join_relative a b :
  relative a -> component b ->
  OsPath.join a b = a +:+ "/" +:+ b /\ relative (a +:+ "/" +:+ b).
Proof.
  intros (Ha & Hs & He) Hb. destruct (component_relative b Hb) as (Hbne & Hbs & Hbe).
  split.
  - unfold OsPath.join. rewrite Hbs, He.
    apply String.eqb_neq in Ha. by rewrite Ha.
  - split; [by destruct a|]. split.
    + by rewrite startswith_app_nonempty.
    + rewrite endswith_app by (done || by destruct b).
      change ("/" +:+ b) with (String "/" EmptyString +:+ b).
      by rewrite endswith_app.
Qed.

Lemma fold_join_relative cs : forall c,
  relative c -> Forall component cs -> relative (fold_left OsPath.join cs c).
Proof.
  induction cs as [|b cs IH]; intros c Hc Hcs; simpl; [done|].
  inversion Hcs; subst.
  destruct (join_relative c b) as [-> Hrel]; auto.
Qed.

Lemma contains_char_cons a c s :
  contains (String a EmptyString) (String c s)
  = Ascii.eqb a c || contains (String a EmptyString) s.
Proof. simpl. by rewrite andb_true_r. Qed.

Lemma split_no_sep_of sep s :
  forall x, In x (split sep s) -> contains (String sep EmptyString) x = false.
Proof.
  induction s as [|c s IH]; simpl.
  - intros x [<-|[]]. reflexivity.
  - destruct (Ascii.eqb c sep) eqn:Hc.
    + intros x [<-|Hx]; [reflexivity | by apply IH].
    + destruct (split sep s) as [|x0 xs] eqn:E.
      * intros x [<-|[]]. rewrite contains_char_cons, Ascii.eqb_sym, Hc.
        reflexivity.
      * intros x [<-|Hx].
        -- rewrite contains_char_cons, Ascii.eqb_sym, Hc. apply IH. by left.
        -- apply IH. by right.
Qed.

Lemma split_no_sep s : forall x, In x (split "/" s) -> contains "/" x = false.
Proof. apply split_no_sep_of. Qed.

(** What [os.path.relpath] returns is a relative path. *)
Lemma relpath_relative cwd path start : relative (OsPath.relpath cwd path start).
Proof.
  unfold OsPath.relpath.
  set (start_list := filter _ (split "/" (OsPath.abspath cwd start))).
  set (path_list := filter _ (split "/" (OsPath.abspath cwd path))).
  set (i := length (OsPath.commonprefix start_list path_list)).
  assert (Forall component (repeat ".." (length start_list - i) ++ drop i path_list))
    as Hall.
  { apply Forall_app. split.
    - apply Forall_forall. intros x Hx%list_elem_of_In%repeat_spec. subst.
      by split.
    - apply Forall_forall. intros x Hx.
      apply (subseteq_drop i path_list) in Hx.
      apply list_elem_of_filter in Hx as [Hne Hx]. split.
      + unfold OsPath.nonempty in Hne. apply negb_true_iff in Hne.
        by apply String.eqb_neq.
      + apply split_no_sep with (s := OsPath.abspath cwd path).
        by apply list_elem_of_In. }
  destruct (repeat ".." _ ++ drop i path_list) as [|c cs].
  - by repeat split.
  - inversion Hall; subst. apply fold_join_relative; [|done].
    by apply component_relative.
Qed.

Lemma commonprefix_same l : OsPath.commonprefix l l = l.
Proof. induction l as [|x l IH]; simpl; [done|]. by rewrite String.eqb_refl, IH. Qed.

(** A path is [.] relative to itself. *)
Lemma relpath_same cwd path : OsPath.relpath cwd path path = ".".
Proof.
  unfold OsPath.relpath. rewrite commonprefix_same, Nat.sub_diag, drop_all.
  reflexivity.
Qed.

(** The route of an emptied base name in a directory whose relative path
    has no dot at either end is that relative path. *)
Lemma route_of_directory rel :
  relative rel ->
  startswith "." rel = false -> endswith "." rel = false ->
  strip "/" (strip "." (strip "/" (OsPath.join rel EmptyString))) = rel.
Proof.
  intros (Hne & Hs & He) Hds Hde.
  assert (OsPath.join rel EmptyString = rel +:+ "/") as ->.
  { unfold OsPath.join. simpl startswith. cbv iota. rewrite He.
    apply String.eqb_neq in Hne. by rewrite Hne. }
  assert (strip "/" (rel +:+ "/") = rel) as ->.
  { unfold strip, strip_by. rewrite lstrip_keep.
    - rewrite rstrip_drop_last by reflexivity. by apply rstrip_keep.
    - by rewrite startswith_app_nonempty. }
  rewrite (strip_keep "." rel Hds Hde). by apply strip_keep.
Qed.

End Strip_facts.

Section Page_info_facts.
Context (S : site).

Lemma get_source_attr page_info basepath html page_info' k :
  get_source S page_info basepath = Ok (html, page_info') ->
  k ≠ "only_content" -> attr k page_info' = attr k page_info.
Proof.
  unfold get_source. intros H Hk.
  destruct (loader_get_source S _) as [src|]; [|done].
  destruct (_ || _); [|by injection H as _ <-].
  destruct (_ && _); injection H as _ <-; [|done].
  by rewrite attr_insert_ne.
Qed.

Lemma load_properties_attr page_info page_info' k :
  load_properties page_info = Ok page_info' ->
  k ≠ "title" -> k ≠ "source" -> k ≠ "no_breadcrumbs" -> k ≠ "no_header" ->
  k ≠ "no_cache" ->
  attr k page_info' = attr k page_info.
Proof.
  unfold load_properties, rbind. intros H ? ? ? ? ?.
  destruct (if PyStr.contains "<!-- title:" _ then _ else _) as [title|e]; [|done].
  injection H as <-.
  repeat match goal with
         | |- context [if ?c then _ else _] => destruct c
         end;
    repeat rewrite attr_insert_ne by done; reflexivity.
Qed.

(** The route and name of the page [get_page_info] builds. *)
Lemma get_page_info_route path basepath app app_path fname page_name extn page_info :
  PyStr.rsplit1 "." fname = Some (page_name, extn) ->
  get_page_info S path basepath app app_path fname = Ok page_info ->
  attr "page_name" page_info
  = VStr (page_route S path basepath
            (page_basename path basepath fname page_name extn))
  /\ attr "name" page_info
     = VStr (page_route S path basepath
               (page_basename path basepath fname page_name extn)).
Proof.
  intros Hsplit Hinfo. unfold get_page_info in Hinfo. rewrite Hsplit in Hinfo.
  cbv zeta in Hinfo. unfold page_basename, page_route.
  set (b := if str_in extn ["html"; "md"] then page_name else fname) in *.
  repeat (rewrite attr_insert_eq in Hinfo
          || rewrite attr_insert_ne in Hinfo by discriminate).
  simpl str_of in Hinfo.
  destruct (String.eqb b "index" && negb (String.eqb basepath path));
    repeat (rewrite attr_insert_eq in Hinfo
            || rewrite attr_insert_ne in Hinfo by discriminate);
    simpl str_of in Hinfo;
    match type of Hinfo with
    | rbind (get_source S ?p basepath) _ = _ => set (pi0 := p) in *
    end;
    (destruct (get_source S pi0 basepath) as [[html pi1]|e] eqn:Hsrc;
       [|discriminate Hinfo]);
    simpl in Hinfo;
    (destruct (truthy (attr "only_content" (<["source" := VStr html]> pi1)));
     [destruct (load_properties (<["source" := VStr html]> pi1)) as [pi2|e] eqn:Hload;
      [|discriminate Hinfo]; simpl in Hinfo; injection Hinfo as <-;
      rewrite !(attr_insert_ne _ "controller") by discriminate;
      rewrite !(load_properties_attr _ _ _ Hload) by discriminate
     |simpl in Hinfo; injection Hinfo as <-;
      rewrite !(attr_insert_ne _ "controller") by discriminate]);
    rewrite !(attr_insert_ne _ "source") by discriminate;
    rewrite !(get_source_attr _ _ _ _ _ Hsrc) by discriminate;
    subst pi0;
    repeat (rewrite attr_insert_eq || rewrite attr_insert_ne by discriminate);
    done.
Qed.

End Page_info_facts.

(** C9 (counterexample).  On the demo site the file [index.md] lies in
    the directory [.well-known] below the scan root.  The directory's
    path relative to the root is [.well-known], but the route derived for
    the file is [well-known]: stripping dots also removes the one the
    directory name starts with. *)
Lemma C9_counterexample :
  get_page_info Demo.site "/apps/frappe/www" "/apps/frappe/www/.well-known"
    "frappe" "/apps/frappe" "index.md" = Ok Demo.well_known_index
  /\ relpath Demo.site "/apps/frappe/www/.well-known" "/apps/frappe/www"
     = ".well-known"
  /\ attr "page_name" Demo.well_known_index = VStr "well-known"
  /\ first_page "well-known" Demo.pages = Some Demo.well_known_index
  /\ first_page ".well-known" Demo.pages = None.
Proof. repeat split; vm_refl. Qed.

(** C9 (amended).  For a file [index.html] or [index.md] in a directory
    other than the scan root whose path relative to the root neither
    starts nor ends with a dot, the route is that relative path, the base
    name omitted; for such a file at the scan root the route is
    [index]. *)
Theorem C9_index_route (S : site) (path basepath app app_path fname : string)
    (page_info : frappe_dict) :
  fname = "index.html" \/ fname = "index.md" ->
  get_page_info S path basepath app app_path fname = Ok page_info ->
  (basepath ≠ path ->
   PyStr.startswith "." (relpath S basepath path) = false ->
   PyStr.endswith "." (relpath S basepath path) = false ->
   attr "page_name" page_info = VStr (relpath S basepath path))
  /\ (basepath = path -> attr "page_name" page_info = VStr "index").
Proof.
  intros Hname Hinfo.
  assert (exists extn, PyStr.rsplit1 "." fname = Some ("index", extn)
                       /\ str_in extn ["html"; "md"] = true) as (extn & Hsplit & Hext).
  { destruct Hname as [-> | ->]; eexists; split; reflexivity. }
  destruct (get_page_info_route S _ _ _ _ _ _ _ _ Hsplit Hinfo) as [-> _].
  unfold page_basename, page_route. rewrite Hext. split.
  - intros Hne Hs He. apply String.eqb_neq in Hne. rewrite Hne. simpl.
    f_equal. apply route_of_directory; auto. apply relpath_relative.
  - intros ->. rewrite !String.eqb_refl. simpl.
    unfold relpath. rewrite relpath_same. reflexivity.
Qed.

(** On the demo site [blog/index.html] gets the route [blog], and
    [index.html] at the scan root the route [index]. *)
Lemma C9_witness :
  relpath Demo.site "/apps/frappe/www/blog" "/apps/frappe/www" = "blog"
  /\ attr "page_name" Demo.blog_index = VStr "blog"
  /\ attr "page_name" Demo.root_index = VStr "index".
Proof.
  assert (get_page_info Demo.site "/apps/frappe/www" "/apps/frappe/www/blog"
            "frappe" "/apps/frappe" "index.html" = Ok Demo.blog_index)
    as Hblog by vm_refl.
  assert (get_page_info Demo.site "/apps/frappe/www" "/apps/frappe/www"
            "frappe" "/apps/frappe" "index.html" = Ok Demo.root_index)
    as Hroot by vm_refl.
  assert (relpath Demo.site "/apps/frappe/www/blog" "/apps/frappe/www" = "blog")
    as Hrel by vm_refl.
  split; [exact Hrel|]. split.
  - rewrite <- Hrel.
    apply (proj1 (C9_index_route Demo.site _ _ _ _ _ _ (or_introl eq_refl) Hblog));
      [discriminate | vm_refl | vm_refl].
  - exact (proj2 (C9_index_route Demo.site _ _ _ _ _ _ (or_introl eq_refl) Hroot)
             eq_refl).
Defined.

(** ** C7: content-only pages *)

Section Contains_facts.
Import PyStr.

Lemma startswith_cons a p c s :
  startswith (String a p) (String c s) = Ascii.eqb a c && startswith p s.
Proof. reflexivity. Qed.

Lemma contains_unfold p c s :
  contains p (String c s) = startswith p (String c s) || contains p s.
Proof. reflexivity. Qed.

Lemma startswith_spec p : forall s,
  startswith p s = true <-> exists v, s = p +:+ v.
Proof.
  induction p as [|a p IH]; intros s.
  - split; [by exists s | done].
  - destruct s as [|c s].
    + split; [done | by intros [v [=]]].
    + rewrite startswith_cons, andb_true_iff, IH. split.
      * intros [->%Ascii.eqb_eq [v ->]]. by exists v.
      * intros [v [= -> ->]]. split; [apply Ascii.eqb_refl | by exists v].
Qed.

(** [contains p s] holds exactly when [p] occurs in [s]. *)
Lemma contains_spec p s :
  contains p s = true <-> exists u v, s = u +:+ p +:+ v.
Proof.
  split.
  - induction s as [|c s IH].
    + simpl. rewrite orb_false_r. intros [v ->]%startswith_spec.
      by exists EmptyString, v.
    + rewrite contains_unfold. intros [[v ->]%startswith_spec|H]%orb_true_iff.
      * by exists EmptyString, v.
      * destruct (IH H) as (u & v & ->). by exists (String c u), v.
  - intros (u & v & ->). induction u as [|c u IH].
    + apply startswith_contains, startswith_spec. by exists v.
    + rewrite app_cons, contains_unfold, IH. apply orb_true_r.
Qed.

Lemma contains_app_l p a b : contains p a = true -> contains p (a +:+ b) = true.
Proof.
  intros (u & v & ->)%contains_spec. apply contains_spec.
  exists u, (v +:+ b). by rewrite !app_assoc.
Qed.

Lemma contains_app_r p a b : contains p b = true -> contains p (a +:+ b) = true.
Proof.
  intros (u & v & ->)%contains_spec. apply contains_spec.
  exists (a +:+ u), v. by rewrite !app_assoc.
Qed.

(** Occurrence is transitive. *)
Lemma contains_trans q p s :
  contains q p = true -> contains p s = true -> contains q s = true.
Proof.
  intros (u & v & ->)%contains_spec (u' & v' & ->)%contains_spec.
  apply contains_spec. exists (u' +:+ u), (v +:+ v'). by rewrite !app_assoc.
Qed.

Lemma not_contains_sub q p s :
  contains q p = true -> contains q s = false -> contains p s = false.
Proof.
  intros Hq Hs. destruct (contains p s) eqn:E; [|done].
  by rewrite (contains_trans q p s Hq E) in Hs.
Qed.

Lemma contains_empty_pattern p : p ≠ EmptyString -> contains p EmptyString = false.
Proof. by destruct p. Qed.

(** A pattern cannot start before a character it does not hold and end
    after it. *)
Lemma startswith_app_sep c p : forall a b,
  contains (String c EmptyString) p = false ->
  startswith p (a +:+ String c b) = startswith p a.
Proof.
  induction p as [|x p IH]; intros a b Hc; [done|].
  rewrite contains_char_cons in Hc. apply orb_false_iff in Hc as [Hx Hp].
  destruct a as [|y a].
  - change (startswith (String x p) (String c b) = false).
    by rewrite startswith_cons, Ascii.eqb_sym, Hx.
  - rewrite app_cons, !startswith_cons. by rewrite IH.
Qed.

(** Where the character after [a] occurs nowhere in the pattern past its
    first character, an occurrence lies in [a] or starts at or after
    that character. *)
Lemma contains_app_at x p c a b :
  contains (String c EmptyString) p = false ->
  contains (String x p) (a +:+ String c b)
  = contains (String x p) a || contains (String x p) (String c b).
Proof.
  intros Hc. induction a as [|y a IH]; [done|].
  rewrite app_cons, !contains_unfold, IH, orb_assoc. f_equal. f_equal.
  rewrite !startswith_cons. by rewrite startswith_app_sep.
Qed.

(** Where the character occurs nowhere in the pattern, an occurrence
    lies on one side of it. *)
Lemma contains_app_sep p c a b :
  p ≠ EmptyString -> contains (String c EmptyString) p = false ->
  contains p (a +:+ String c b) = contains p a || contains p b.
Proof.
  intros Hne Hc. destruct p as [|x p]; [done|].
  pose proof Hc as Hc'. rewrite contains_char_cons in Hc'.
  apply orb_false_iff in Hc' as [Hx Hp].
  rewrite contains_app_at by done. f_equal.
  by rewrite contains_unfold, startswith_cons, Ascii.eqb_sym, Hx.
Qed.

Lemma lstrip_suffix drop s : exists u, s = u +:+ lstrip_by drop s.
Proof.
  induction s as [|c s [u IH]]; simpl; [by exists EmptyString|].
  destruct (drop c); [|by exists EmptyString].
  exists (String c u). by rewrite app_cons, <- IH.
Qed.

Lemma rstrip_prefix drop s : exists v, s = rstrip_by drop s +:+ v.
Proof.
  induction s as [|c s [v IH]]; simpl; [by exists EmptyString|].
  destruct (rstrip_by drop s) as [|d r].
  - destruct (drop c); [by exists (String c s) | by exists s].
  - exists v. by rewrite app_cons, <- IH.
Qed.

(** What is in a stripped text is in the text. *)
Lemma contains_strip p drop s :
  contains p (strip_by drop s) = true -> contains p s = true.
Proof.
  unfold strip_by. intros H.
  destruct (lstrip_suffix drop s) as [u Hu].
  destruct (rstrip_prefix drop (lstrip_by drop s)) as [v Hv].
  rewrite Hu. apply contains_app_r. rewrite Hv. by apply contains_app_l.
Qed.

End Contains_facts.

(** ** What a scan returns, creates and raises *)

Section Scan_contents.
Context (S : site) (path app app_path : string).

Lemma scan_file_state basepath pages fname st :
  snd (scan_file S path basepath app app_path pages fname st) = st.
Proof.
  unfold scan_file. destruct (PyStr.rsplit1 _ fname) as [[page_name extn]|]; [|done].
  destruct (_ && _); [done|]. destruct (str_in extn _); [|done].
  unfold bind, lift. by destruct (get_page_info S _ _ _ _ _).
Qed.

(** One step of the loop over the files of a directory. *)
Lemma scan_file_step basepath pages fname st :
  fst (scan_file S path basepath app app_path pages fname st) =
  match PyStr.rsplit1 "." fname with
  | None => Raise ValueError
  | Some _ =>
      if is_page_file S basepath fname then
        match get_page_info S path basepath app app_path fname with
        | Ok page_info => Ok (pages ++ [page_info])
        | Raise e => Raise e
        end
      else Ok pages
  end.
Proof.
  unfold scan_file, is_page_file.
  destruct (PyStr.rsplit1 _ fname) as [[page_name extn]|]; [|done].
  destruct (_ && _); [done|]. simpl negb. rewrite andb_true_l.
  destruct (str_in extn _); [|done].
  unfold bind, lift. by destruct (get_page_info S _ _ _ _ _).
Qed.

Lemma scan_files_cons basepath pages fname files st :
  foldM (scan_file S path basepath app app_path) pages (fname :: files) st =
  match fst (scan_file S path basepath app app_path pages fname st) with
  | Ok mid => foldM (scan_file S path basepath app app_path) mid files st
  | Raise e => (Raise e, st)
  end.
Proof.
  simpl. unfold bind.
  pose proof (scan_file_state basepath pages fname st) as Hst.
  destruct (scan_file S path basepath app app_path pages fname st) as [[mid|e] st1];
    simpl in *; by subst.
Qed.

Lemma scan_files_state basepath files : forall pages st,
  snd (foldM (scan_file S path basepath app app_path) pages files st) = st.
Proof.
  induction files as [|f files IH]; intros pages st; [done|].
  rewrite scan_files_cons. destruct (fst _); [apply IH | done].
Qed.

(** When the loop over the files of a directory succeeds, every file
    name has a dot and the pages added are those of the page files, one
    each, in order. *)
Lemma scan_files_ok basepath files : forall pages st out,
  fst (foldM (scan_file S path basepath app app_path) pages files st) = Ok out ->
  Forall (fun f => ~ dotless f) files
  /\ exists found,
       out = pages ++ found
       /\ Forall2 (fun f p => get_page_info S path basepath app app_path f = Ok p)
            (List.filter (is_page_file S basepath) files) found.
Proof.
  induction files as [|f files IH]; intros pages st out.
  - intros [= <-]. split; [constructor|]. exists []. by rewrite List.app_nil_r.
  - rewrite scan_files_cons, scan_file_step. unfold dotless. simpl List.filter.
    destruct (PyStr.rsplit1 "." f) as [r|] eqn:Hf; [|done].
    destruct (is_page_file S basepath f).
    + destruct (get_page_info S path basepath app app_path f) as [p|e] eqn:Hp; [|done].
      intros H. apply IH in H as (Hdots & found & -> & Hall).
      split; [constructor; [congruence | done]|].
      exists (p :: found). split; [by rewrite <- List.app_assoc|]. by constructor.
    + intros H. apply IH in H as (Hdots & found & -> & Hall).
      split; [constructor; [congruence | done]|]. by exists found.
Qed.

(** When every page file of a directory loads, the loop over its files
    fails exactly when a file name has no dot, and then with
    [ValueError]. *)
Lemma scan_files_dotless basepath files : forall pages st,
  Forall (fun f => is_page_file S basepath f = true ->
                   exists p, get_page_info S path basepath app app_path f = Ok p) files ->
  Exists dotless files ->
  fst (foldM (scan_file S path basepath app app_path) pages files st) = Raise ValueError.
Proof.
  induction files as [|f files IH]; intros pages st Hload Hex; [by inversion Hex|].
  inversion Hload as [|? ? Hf Hrest]; subst.
  rewrite scan_files_cons, scan_file_step.
  destruct (PyStr.rsplit1 "." f) as [r|] eqn:Hr; [|done].
  inversion Hex as [? ? Hd|? ? Hd]; subst; [unfold dotless in Hd; congruence|].
  destruct (is_page_file S basepath f).
  - destruct (Hf eq_refl) as [p ->]. by apply IH.
  - by apply IH.
Qed.

Lemma scan_files_loaded basepath files : forall pages st,
  Forall (fun f => is_page_file S basepath f = true ->
                   exists p, get_page_info S path basepath app app_path f = Ok p) files ->
  Forall (fun f => ~ dotless f) files ->
  exists out, fst (foldM (scan_file S path basepath app app_path) pages files st) = Ok out.
Proof.
  induction files as [|f files IH]; intros pages st Hload Hdots; [by eexists|].
  inversion Hload as [|? ? Hf Hrest]; subst. inversion Hdots as [|? ? Hd Hds]; subst.
  rewrite scan_files_cons, scan_file_step. unfold dotless in Hd.
  destruct (PyStr.rsplit1 "." f) as [r|]; [|done].
  destruct (is_page_file S basepath f).
  - destruct (Hf eq_refl) as [p ->]. by apply IH.
  - by apply IH.
Qed.

(** One step of the loop over the directories: the marker is created
    before the files are looked at, whatever they then raise. *)
Lemma scan_dir_step pages basepath folders files st :
  scan_dir S path app app_path pages (basepath, folders, files) st =
  (fst (foldM (scan_file S path basepath app app_path) pages files st),
   add_touched (missing_markers [(basepath, folders, files)]) st).
Proof.
  unfold scan_dir, bind, missing_markers. simpl List.filter.
  destruct (negb (str_in "__init__.py" files)); unfold modify, ret; simpl map.
  - pose proof (scan_files_state basepath files pages
                  (touch (OsPath.join basepath "__init__.py") st)) as Hst.
    destruct (oblivious_foldM (scan_file S path basepath app app_path) files
                (fun acc x => scan_file_oblivious S path basepath app app_path acc x)
                pages) as (r & l & Hobl).
    rewrite Hobl in Hst |- *. rewrite Hobl. simpl in *. by rewrite Hst.
  - pose proof (scan_files_state basepath files pages st) as Hst.
    rewrite add_touched_nil.
    by destruct (foldM _ pages files st) as [r st1]; simpl in *; subst.
Qed.

Lemma missing_markers_cons e entries :
  missing_markers (e :: entries) = missing_markers [e] ++ missing_markers entries.
Proof.
  unfold missing_markers. simpl. by destruct (negb (str_in "__init__.py" (snd e))).
Qed.

Lemma scan_files_indep basepath files pages st st' :
  fst (foldM (scan_file S path basepath app app_path) pages files st)
  = fst (foldM (scan_file S path basepath app app_path) pages files st').
Proof.
  destruct (oblivious_foldM (scan_file S path basepath app app_path) files
              (fun acc x => scan_file_oblivious S path basepath app app_path acc x)
              pages) as (r & l & Hobl).
  by rewrite !Hobl.
Qed.

Lemma scan_dirs_cons pages e entries st :
  foldM (scan_dir S path app app_path) pages (e :: entries) st =
  match scan_dir S path app app_path pages e st with
  | (Ok mid, st1) => foldM (scan_dir S path app app_path) mid entries st1
  | (Raise err, st1) => (Raise err, st1)
  end.
Proof. reflexivity. Qed.

(** When the loop over the directories succeeds, no file name in them is
    without a dot, the pages added are those of the page files, and the
    markers created are those of the directories that had none. *)
Lemma scan_dirs_ok entries : forall pages st out st',
  foldM (scan_dir S path app app_path) pages entries st = (Ok out, st') ->
  Forall (fun e => Forall (fun f => ~ dotless f) (snd e)) entries
  /\ st' = add_touched (missing_markers entries) st
  /\ exists found,
       out = pages ++ found
       /\ Forall2 (fun bf p =>
                     get_page_info S path (fst bf) app app_path (snd bf) = Ok p)
            (page_files S entries) found.
Proof.
  induction entries as [|[[basepath folders] files] entries IH];
    intros pages st out st'.
  - intros [= <- <-]. split; [constructor|]. split; [by rewrite add_touched_nil|].
    exists []. by rewrite List.app_nil_r.
  - rewrite scan_dirs_cons, scan_dir_step.
    destruct (fst (foldM (scan_file S path basepath app app_path) pages files st))
      as [mid|e] eqn:Hfiles; [|done].
    intros H. apply IH in H as (Hdots & -> & found & -> & Hall).
    apply scan_files_ok in Hfiles as (Hd & found0 & -> & Hall0).
    split; [by constructor|]. split.
    + by rewrite add_touched_app, <- missing_markers_cons.
    + exists (found0 ++ found). split; [by rewrite <- List.app_assoc|].
      unfold page_files. simpl flat_map. apply Forall2_app; [|exact Hall].
      clear -Hall0. induction Hall0; simpl; by constructor.
Qed.

(** When every page file loads, a file name without a dot anywhere in
    the walk makes the loop over the directories raise [ValueError]. *)
Lemma scan_dirs_dotless entries : forall pages st,
  Forall (fun e => Forall (fun f => is_page_file S (fst (fst e)) f = true ->
                      exists p, get_page_info S path (fst (fst e)) app app_path f = Ok p)
                     (snd e)) entries ->
  Exists (fun e => Exists dotless (snd e)) entries ->
  fst (foldM (scan_dir S path app app_path) pages entries st) = Raise ValueError.
Proof.
  induction entries as [|[[basepath folders] files] entries IH];
    intros pages st Hload Hex; [by inversion Hex|].
  inversion Hload as [|? ? Hf Hrest]; subst. simpl in Hf.
  rewrite scan_dirs_cons, scan_dir_step.
  assert (forall f, {dotless f} + {~ dotless f}) as Hdec.
  { intros f. unfold dotless. destruct (PyStr.rsplit1 "." f); [right|left]; done. }
  destruct (List.Exists_dec dotless files Hdec) as [Hd|Hd].
  - by rewrite (scan_files_dotless basepath files pages st Hf Hd).
  - destruct (scan_files_loaded basepath files pages st Hf) as [mid Hmid].
    { apply Forall_forall. intros f Hin Hdot. apply Hd. apply Exists_exists. eauto. }
    rewrite Hmid. apply IH; [done|].
    inversion Hex; subst; [contradiction | done].
Qed.

End Scan_contents.

(** X1.  When the scan of an existing root succeeds, the pages it
    returns are exactly the pages [get_page_info] builds for the page
    files of the walk, one for each, in the order of the walk; a file
    with another extension, and a [.js] or [.css] file skipped by the
    sidecar test, contributes nothing.  A root that does not exist gives
    no page and changes nothing. *)
Theorem X1_scan_returns_the_page_files (S : site) (path app app_path : string)
    (st st' : state) (pages : list frappe_dict) :
  get_pages_from_path S path app app_path st = (Ok pages, st') ->
  (os_path_exists S path = true ->
   Forall2 (fun bf p => get_page_info S path (fst bf) app app_path (snd bf) = Ok p)
     (page_files S (os_walk S path)) pages)
  /\ (os_path_exists S path = false -> pages = [] /\ st' = st).
Proof.
  unfold get_pages_from_path. intros H. split; intros Hex; rewrite Hex in H.
  - apply scan_dirs_ok in H as (_ & _ & found & -> & Hall). exact Hall.
  - by injection H as <- <-.
Qed.

(** The scan of [/apps/frappe/www] on the demo site. *)
Lemma X1_witness :
  page_files Demo.site (os_walk Demo.site "/apps/frappe/www")
  = [ ("/apps/frappe/www", "index.html"); ("/apps/frappe/www", "about.html");
      ("/apps/frappe/www", "page.html"); ("/apps/frappe/www", "page.js");
      ("/apps/frappe/www", "page.css"); ("/apps/frappe/www", "foo.html");
      ("/apps/frappe/www/blog", "index.html");
      ("/apps/frappe/www/.well-known", "index.md") ]
  /\ Forall2 (fun bf p => get_page_info Demo.site "/apps/frappe/www" (fst bf)
                            "frappe" "/apps/frappe" (snd bf) = Ok p)
       (page_files Demo.site (os_walk Demo.site "/apps/frappe/www")) Demo.www_pages.
Proof.
  split; [vm_refl|].
  assert (get_pages_from_path Demo.site "/apps/frappe/www" "frappe" "/apps/frappe"
            empty_state = (Ok Demo.www_pages, Demo.www_state)) as H by vm_refl.
  exact (proj1 (X1_scan_returns_the_page_files Demo.site _ _ _ _ _ _ H) eq_refl).
Defined.

(** X2.  A scan that succeeds creates a package marker [__init__.py] in
    every directory of the walk that lists none, in the order of the
    walk, and touches nothing else of the state: the caches and the
    markers created before are as they were. *)
Theorem X2_scan_creates_missing_markers (S : site) (path app app_path : string)
    (st st' : state) (pages : list frappe_dict) :
  os_path_exists S path = true ->
  get_pages_from_path S path app app_path st = (Ok pages, st') ->
  touched st' = touched st ++ missing_markers (os_walk S path)
  /\ cache_website_pages st' = cache_website_pages st
  /\ cache_generator_routes st' = cache_generator_routes st
  /\ cache_page_context st' = cache_page_context st
  /\ calls st' = calls st.
Proof.
  unfold get_pages_from_path. intros -> H.
  apply scan_dirs_ok in H as (_ & -> & _). done.
Qed.

(** On the demo site the root and [.well-known] get a marker; [blog]
    has one already. *)
Lemma X2_witness :
  touched Demo.www_state
  = ["/apps/frappe/www/__init__.py"; "/apps/frappe/www/.well-known/__init__.py"]
  /\ touched Demo.www_state
     = touched empty_state ++ missing_markers (os_walk Demo.site "/apps/frappe/www").
Proof.
  split; [vm_refl|].
  assert (get_pages_from_path Demo.site "/apps/frappe/www" "frappe" "/apps/frappe"
            empty_state = (Ok Demo.www_pages, Demo.www_state)) as H by vm_refl.
  apply (X2_scan_creates_missing_markers Demo.site "/apps/frappe/www" "frappe"
           "/apps/frappe" empty_state Demo.www_state Demo.www_pages);
    [reflexivity | exact H].
Defined.

(** X3.  A file whose name has no dot, anywhere in the walk of an
    existing root, makes the scan fail: when the page files found before
    it load, [get_pages_from_path] raises [ValueError] (the two-name
    unpacking of [rsplit]) and returns no page. *)
Theorem X3_file_name_without_dot_raises (S : site) (path app app_path : string)
    (st : state) (basepath fname : string) (folders files : list string) :
  os_path_exists S path = true ->
  In (basepath, folders, files) (os_walk S path) ->
  In fname files ->
  PyStr.rsplit1 "." fname = None ->
  Forall (fun e =>
            Forall (fun f => is_page_file S (fst (fst e)) f = true ->
                      exists p, get_page_info S path (fst (fst e)) app app_path f = Ok p)
                   (snd e)) (os_walk S path) ->
  fst (get_pages_from_path S path app app_path st) = Raise ValueError.
Proof.
  intros Hex Hentry Hfile Hdot Hload. unfold get_pages_from_path. rewrite Hex.
  apply scan_dirs_dotless; [exact Hload|].
  apply List.Exists_exists. exists (basepath, folders, files). split; [done|].
  apply List.Exists_exists. by exists fname.
Qed.

(** The second demo site: [README] beside [index.html]. *)
Lemma X3_witness :
  fst (get_pages_from_path Demo.readme_site "/apps/docs/www" "docs" "/apps/docs"
         empty_state) = Raise ValueError.
Proof.
  apply (X3_file_name_without_dot_raises Demo.readme_site _ _ _ _
           "/apps/docs/www" "README" [] ["index.html"; "README"]).
  - reflexivity.
  - by left.
  - right. by left.
  - reflexivity.
  - repeat constructor.
    + intros _. exists Demo.readme_index. vm_refl.
    + intros H. exfalso. revert H. vm_compute. discriminate.
Defined.

(** ** The two caches behind the lookups *)

Lemma pair_with_snd {A B} (p : A * B) (a : A) : fst p = a -> p = (a, snd p).
Proof. intros <-. by destruct p. Qed.

Section Page_cache_facts.
Context (S : site).

Lemma can_cache_false : can_cache S (VBool false) = caching_enabled S.
Proof. unfold can_cache. simpl. apply andb_true_r. Qed.

(** On a miss the page cache is not what [get_pages] answers from. *)
Lemma page_cache_miss_unusable st :
  page_cache_miss S st ->
  match (if can_cache S (VBool false) then cache_website_pages st else Some []) with
  | Some (_ :: _) => False
  | _ => True
  end.
Proof.
  rewrite can_cache_false. intros [-> | [-> | ->]]; [done| |];
    by destruct (caching_enabled S).
Qed.

End Page_cache_facts.

(** X4.  Whenever [get_pages] returns a list, that list is what the key
    [_website_pages] holds afterwards, also when caching is disabled.
    With caching enabled, a second call right after one that returned at
    least one page returns the same list and changes nothing: no scan, no
    package marker. *)
Theorem X4_get_pages_stores_what_it_returns (S : site) (st st' : state)
    (pages : list frappe_dict) :
  get_pages S st = (Ok pages, st') ->
  cache_website_pages st' = Some pages
  /\ (caching_enabled S = true -> pages <> [] ->
      get_pages S st' = (Ok pages, st')).
Proof.
  destruct (get_pages_unfold S) as (r & l & H). intros Hget.
  pose proof (can_cache_false S) as Hcan.
  assert (cache_website_pages st' = Some pages) as Hstored.
  { rewrite H, Hcan in Hget.
    destruct (caching_enabled S);
      [destruct (cache_website_pages st) as [[|p ps]|] eqn:E|];
      try (destruct r; by simplify_eq/=). }
  split; [exact Hstored|]. intros Hen Hne.
  rewrite H, Hcan, Hen, Hstored. by destruct pages.
Qed.

(** The demo site: the first call scans, the second is served. *)
Lemma X4_witness :
  cache_website_pages (snd (get_pages Demo.site empty_state)) = Some Demo.pages
  /\ get_pages Demo.site (snd (get_pages Demo.site empty_state))
     = (Ok Demo.pages, snd (get_pages Demo.site empty_state)).
Proof.
  assert (get_pages Demo.site empty_state
          = (Ok Demo.pages, snd (get_pages Demo.site empty_state))) as H.
  { apply pair_with_snd. vm_refl. }
  destruct (X4_get_pages_stores_what_it_returns Demo.site empty_state
              (snd (get_pages Demo.site empty_state)) Demo.pages H) as [H1 H2].
  split; [exact H1|]. apply H2; [reflexivity|]. unfold Demo.pages. discriminate.
Defined.

(** X5.  On a miss of the page cache (caching disabled, nothing cached,
    or an empty list cached) [get_pages] scans, and neither the outcome
    of the scan nor the package markers it creates depend on the store:
    two stores that both miss get the same answer and the same markers.
    In particular an empty page list is never served from the cache. *)
Theorem X5_page_cache_miss_scans_again (S : site) (st1 st2 : state) :
  page_cache_miss S st1 -> page_cache_miss S st2 ->
  fst (get_pages S st1) = fst (get_pages S st2)
  /\ exists l,
       touched (snd (get_pages S st1)) = touched st1 ++ l
       /\ touched (snd (get_pages S st2)) = touched st2 ++ l.
Proof.
  intros H1%page_cache_miss_unusable H2%page_cache_miss_unusable.
  destruct (get_pages_unfold S) as (r & l & H). rewrite !H.
  destruct (if can_cache S (VBool false) then cache_website_pages st1 else _)
    as [[|p1 ps1]|]; try done;
    destruct (if can_cache S (VBool false) then cache_website_pages st2 else _)
      as [[|p2 ps2]|]; try done;
    (split; [by destruct r | exists l; by destruct r]).
Qed.

(** Two stores of the demo site with no page list cached. *)
Lemma X5_witness :
  fst (get_pages Demo.site empty_state) = fst (get_pages Demo.site Demo.other_language)
  /\ exists l,
       touched (snd (get_pages Demo.site empty_state)) = touched empty_state ++ l
       /\ touched (snd (get_pages Demo.site Demo.other_language))
          = touched Demo.other_language ++ l.
Proof.
  apply (X5_page_cache_miss_scans_again Demo.site empty_state Demo.other_language);
    right; left; reflexivity.
Defined.

(** X6.  The cache of the generator index.  When
    [get_page_context_from_doctypes] returns an index: a non-empty index
    held by the key [website_generator_routes] is returned as it is, with
    the store unchanged and no query sent, whether or not caching is
    enabled (the switch is not consulted); with no index or an empty one
    under the key, the index returned is the one built from the tables;
    the index returned is what the key holds afterwards; and a non-empty
    one is returned again by a second call, which changes nothing. *)
Theorem X6_generator_index_cache (S : site) (st st' : state)
    (routes : gmap value frappe_dict) :
  get_page_context_from_doctypes S st = (Ok routes, st') ->
  (forall cached,
      cache_generator_routes st = Some cached -> cached <> ∅ ->
      routes = cached /\ st' = st)
  /\ (cache_generator_routes st = None \/ cache_generator_routes st = Some ∅ ->
      routes = generator_index S)
  /\ cache_generator_routes st' = Some routes
  /\ (routes <> ∅ -> get_page_context_from_doctypes S st' = (Ok routes, st')).
Proof.
  unfold get_page_context_from_doctypes, generator_index, bind, gets, modify, ret.
  simpl.
  destruct (cache_generator_routes st) as [r|] eqn:E; simpl.
  - destruct (bool_decide_reflect (r = ∅)) as [Hr|Hr]; simpl; intros [= <- <-].
    + split; [intros cached [= <-] Hne; by subst|]. split; [done|].
      split; [done|]. intros Hne. simpl. by rewrite bool_decide_eq_false_2.
    + split; [by intros cached [= <-] _|]. split; [intros [|[= ->]]; done|].
      split; [done|]. intros _. rewrite E. simpl. by rewrite bool_decide_eq_false_2.
  - intros [= <- <-]. split; [done|]. split; [done|]. split; [done|].
    intros Hne. simpl. by rewrite bool_decide_eq_false_2.
Qed.

(** The demo site, from the empty store: the index is built and stored,
    and the second call is served from the key. *)
Lemma X6_witness :
  cache_generator_routes (set_generator_routes Demo.routes empty_state)
  = Some Demo.routes
  /\ get_page_context_from_doctypes Demo.site
       (set_generator_routes Demo.routes empty_state)
     = (Ok Demo.routes, set_generator_routes Demo.routes empty_state).
Proof.
  assert (get_page_context_from_doctypes Demo.site empty_state
          = (Ok Demo.routes, set_generator_routes Demo.routes empty_state))
    as H by vm_refl.
  assert (bool_decide (Demo.routes = ∅) = false) as Hne by vm_refl.
  apply bool_decide_eq_false in Hne.
  destruct (X6_generator_index_cache Demo.site empty_state
              (set_generator_routes Demo.routes empty_state) Demo.routes H)
    as (_ & _ & H3 & H4).
  split; [exact H3 | exact (H4 Hne)].
Defined.

(** ** Rows that share a route *)

Section Index_order.
Context (S : site).

Lemma fold_left_flat_map {A B C} (f : C -> B -> C) (g : A -> list B) l : forall c,
  fold_left f (flat_map g l) c = fold_left (fun c x => fold_left f (g x) c) l c.
Proof.
  induction l as [|x xs IH]; intros c; simpl; [done|].
  by rewrite fold_left_app, IH.
Qed.

Lemma add_doctype_routes_rows doctype rows : forall routes,
  fold_left
    (fun routes r =>
       <[attr "route" r := {[ "doctype" := VStr doctype;
                              "name" := attr "name" r;
                              "modified" := attr "modified" r ]}]> routes)
    rows routes
  = fold_left add_route_row (map (pair doctype) rows) routes.
Proof. induction rows as [|r rows IH]; intros routes; simpl; [done|]. by rewrite IH. Qed.

Lemma generator_index_rows :
  generator_index S = fold_left add_route_row (route_rows S) ∅.
Proof.
  unfold generator_index, route_rows. rewrite fold_left_flat_map.
  generalize (∅ : gmap value frappe_dict).
  induction (installed_apps S) as [|app apps IH]; intros routes; simpl; [done|].
  rewrite <- IH. f_equal. unfold add_app_routes. rewrite fold_left_flat_map.
  generalize routes. clear.
  induction (website_generators S app) as [|d ds IH]; intros routes; simpl; [done|].
  rewrite <- IH. f_equal. apply add_doctype_routes_rows.
Qed.

Lemma add_route_rows_other key rows : forall routes,
  Forall (fun x => attr "route" (snd x) <> key) rows ->
  fold_left add_route_row rows routes !! key = routes !! key.
Proof.
  induction rows as [|x rows IH]; intros routes Hall; simpl; [done|].
  inversion Hall; subst. rewrite IH by done.
  unfold add_route_row. by rewrite lookup_insert_ne.
Qed.

End Index_order.

(** X7.  When several rows, of one record type or of several, have the
    same route, the index keeps the entry of the one the loops visit
    last: a row no later row shares its route with is the one its route
    leads to. *)
Theorem X7_later_row_replaces_earlier (S : site)
    (before after : list (string * frappe_dict)) (dr : string * frappe_dict) :
  route_rows S = before ++ dr :: after ->
  Forall (fun x => attr "route" (snd x) <> attr "route" (snd dr)) after ->
  generator_index S !! attr "route" (snd dr) = Some (route_entry dr).
Proof.
  intros Hrows Hafter. rewrite generator_index_rows, Hrows, fold_left_app. simpl.
  rewrite add_route_rows_other by exact Hafter.
  unfold add_route_row. apply lookup_insert_eq.
Qed.

(** The third demo site: the [Web Page] and the [Blog Post] both have
    the route [news]; the index answers with the [Blog Post]. *)
Lemma X7_witness :
  attr "route" (snd Demo.news_page) = VStr "news"
  /\ attr "route" (snd Demo.news_post) = VStr "news"
  /\ fst Demo.news_page = "Web Page"
  /\ generator_index Demo.twice_site !! VStr "news"
     = Some {[ "doctype" := VStr "Blog Post"; "name" := VStr "news";
               "modified" := VStr "2015-03-01" ]}.
Proof.
  assert (attr "route" (snd Demo.news_post) = VStr "news") as E by vm_refl.
  split; [vm_refl|]. split; [exact E|]. split; [reflexivity|].
  assert (route_rows Demo.twice_site = [Demo.news_page] ++ Demo.news_post :: [])
    as Hrows by vm_refl.
  pose proof (X7_later_row_replaces_earlier Demo.twice_site [Demo.news_page] []
                Demo.news_post Hrows (List.Forall_nil _)) as H.
  rewrite E in H. rewrite H. vm_refl.
Defined.

(** ** Pages on their way to a context *)

Section Page_facts.
Context (S : site).

(** [get_page_info] around its two callees. *)
Lemma get_page_info_unfold path basepath app app_path fname page_name extn :
  PyStr.rsplit1 "." fname = Some (page_name, extn) ->
  get_page_info S path basepath app app_path fname =
  rbind (get_source S (page_stub S path basepath app_path fname page_name extn) basepath)
    (fun sp =>
       rbind (if truthy (attr "only_content" (<["source" := VStr (fst sp)]> (snd sp)))
              then load_properties (<["source" := VStr (fst sp)]> (snd sp))
              else Ok (<["source" := VStr (fst sp)]> (snd sp)))
         (fun page_info =>
            Ok (<["controller" :=
                    VStr (app +:+ "."
                            +:+ PyStr.drop_last 3
                                  (PyStr.replace "/" "."
                                     (relpath S (str_of (attr "controller_path" page_info))
                                        app_path)))]> page_info))).
Proof. intros H. unfold get_page_info. rewrite H. reflexivity. Qed.

Lemma attr_empty k : attr k (∅ : frappe_dict) = VNone.
Proof. unfold attr. by rewrite lookup_empty. Qed.

Lemma page_stub_absent path basepath app_path fname page_name extn k :
  ~ In k page_keys ->
  attr k (page_stub S path basepath app_path fname page_name extn) = VNone.
Proof.
  intros Hk. unfold page_stub. cbv zeta.
  destruct (_ && _);
    repeat (rewrite attr_insert_ne
              by (intros ->; apply Hk; unfold page_keys; simpl; tauto));
    apply attr_empty.
Qed.

(** A page built by [get_page_info] has no attribute beyond the thirteen
    of [page_keys]. *)
Lemma get_page_info_absent path basepath app app_path fname p k :
  get_page_info S path basepath app app_path fname = Ok p ->
  ~ In k page_keys -> attr k p = VNone.
Proof.
  intros Hinfo Hk.
  assert (forall k', In k' page_keys -> k <> k') as Hne by (intros k' ? ->; done).
  destruct (PyStr.rsplit1 "." fname) as [[page_name extn]|] eqn:Hsplit;
    [|unfold get_page_info in Hinfo; by rewrite Hsplit in Hinfo].
  rewrite (get_page_info_unfold _ _ _ _ _ _ _ Hsplit) in Hinfo.
  destruct (get_source S _ basepath) as [[html pi1]|e] eqn:Hsrc; [|done].
  simpl in Hinfo.
  assert (attr k (<["source" := VStr html]> pi1) = VNone) as Hsource.
  { rewrite attr_insert_ne by (apply Hne; unfold page_keys; simpl; tauto).
    rewrite (get_source_attr S _ _ _ _ _ Hsrc)
      by (apply Hne; unfold page_keys; simpl; tauto).
    by apply page_stub_absent. }
  destruct (truthy (attr "only_content" _)).
  - destruct (load_properties _) as [pi2|e] eqn:Hload; [|done].
    simpl in Hinfo. injection Hinfo as <-.
    rewrite attr_insert_ne by (apply Hne; unfold page_keys; simpl; tauto).
    rewrite (load_properties_attr _ _ _ Hload);
      try (apply Hne; unfold page_keys; simpl; tauto).
    exact Hsource.
  - simpl in Hinfo. injection Hinfo as <-.
    rewrite attr_insert_ne by (apply Hne; unfold page_keys; simpl; tauto).
    exact Hsource.
Qed.

Lemma foldM_Forall {A} (P : frappe_dict -> Prop)
    (f : list frappe_dict -> A -> M (list frappe_dict)) :
  (forall acc x st out st',
      Forall P acc -> f acc x st = (Ok out, st') -> Forall P out) ->
  forall l acc st out st',
    Forall P acc -> foldM f acc l st = (Ok out, st') -> Forall P out.
Proof.
  intros Hf. induction l as [|x xs IH]; intros acc st out st' Hacc; simpl.
  - by intros [= <- <-].
  - unfold bind. destruct (f acc x st) as [[mid|e] st1] eqn:Hx; [|done].
    apply IH. by eapply Hf.
Qed.

Lemma get_pages_from_path_scanned path app app_path st pages st' :
  get_pages_from_path S path app app_path st = (Ok pages, st') ->
  Forall (scanned S) pages.
Proof.
  unfold get_pages_from_path. destruct (os_path_exists S path).
  - intros (_ & _ & found & -> & Hall)%scan_dirs_ok. simpl.
    induction Hall as [|bf p bfs ps Hp _ IH]; constructor; [|exact IH].
    by exists path, (fst bf), app, app_path, (snd bf).
  - by intros [= <- <-].
Qed.

Lemma scan_app_scanned acc app st out st' :
  Forall (scanned S) acc -> scan_app S acc app st = (Ok out, st') ->
  Forall (scanned S) out.
Proof.
  intros Hacc. unfold scan_app, bind, ret.
  destruct (get_pages_from_path S _ app _ st) as [[found1|e] st1] eqn:H1; [|done].
  destruct (get_pages_from_path S _ app _ st1) as [[found2|e] st2] eqn:H2; [|done].
  intros [= <- <-].
  apply get_pages_from_path_scanned in H1, H2.
  by repeat apply Forall_app_2.
Qed.

(** On a miss of the page cache [get_pages] is the scan of the installed
    apps, followed by the store of its result. *)
Lemma get_pages_miss st :
  page_cache_miss S st ->
  get_pages S st =
  match foldM (scan_app S) [] (installed_apps S) st with
  | (Ok pages, st1) => (Ok pages, set_website_pages pages st1)
  | (Raise e, st1) => (Raise e, st1)
  end.
Proof.
  intros Hmiss. unfold get_pages, bind, gets, modify, ret.
  rewrite can_cache_false.
  destruct Hmiss as [-> | [Hc | Hc]]; [|destruct (caching_enabled S); rewrite ?Hc..];
    by destruct (foldM _ _ _ st) as [[pages|e] st1].
Qed.

Lemma get_pages_scanned st pages :
  page_cache_miss S st -> fst (get_pages S st) = Ok pages ->
  Forall (scanned S) pages.
Proof.
  intros Hmiss. rewrite (get_pages_miss st Hmiss).
  destruct (foldM _ _ _ st) as [[out|e] st1] eqn:Hscan; [|done].
  intros [= <-]. eapply foldM_Forall; [|constructor|exact Hscan].
  intros. by eapply scan_app_scanned.
Qed.

(** The context [make_page_context] builds from a file page. *)
Lemma make_page_context_file path st p :
  str_in path ["about"; "contact"] = false ->
  file_answer S st path = Ok (Some p) ->
  fst (make_page_context S path st)
  = Ok (<["pathname" := VStr (local_path S)]>
          (<["title" := attr "page_title" p]>
             (<["doctype" := attr "ref_doctype" p]> p))).
Proof.
  intros Hspecial Hfile. unfold make_page_context, bind, modify.
  set (st0 := probe (MakePageContext path) st).
  pose proof (resolve_route_eq S path st0) as Hr.
  rewrite <- (file_answer_frame S st st0 path) in Hr by reflexivity.
  rewrite Hspecial, Hfile in Hr. simpl negb in Hr. cbv iota in Hr.
  assert (dict_truthy p = true) as Hp.
  { unfold file_answer in Hfile. destruct (fst (get_pages S st)); [|done].
    injection Hfile as Hfile. by apply first_page_truthy in Hfile as (_ & _ & ?). }
  simpl context_truthy in Hr. rewrite Hp in Hr.
  destruct (resolve_route S path st0) as [[c|e] st1]; simpl in Hr; [|done].
  injection Hr as ->. cbv beta iota. rewrite Hp. unfold ret. simpl fst.
  by rewrite attr_insert_ne.
Qed.

(** An error of the scan reaches the caller of [make_page_context]
    whenever the file-page lookup is consulted. *)
Lemma make_page_context_scan_error path st e :
  fst (get_pages S st) = Raise e ->
  str_in path ["about"; "contact"] = false
  \/ (exists c, generator_answer S st path = Ok c /\ context_truthy c = false) ->
  fst (make_page_context S path st) = Raise e.
Proof.
  intros Hscan Hcase. unfold make_page_context, bind, modify.
  set (st0 := probe (MakePageContext path) st).
  pose proof (resolve_route_eq S path st0) as Hr.
  rewrite <- (file_answer_frame S st st0 path) in Hr by reflexivity.
  rewrite <- (generator_answer_frame S st st0 path) in Hr by reflexivity.
  assert (file_answer S st path = Raise e) as Hfile
    by (unfold file_answer; by rewrite Hscan).
  rewrite Hfile in Hr.
  assert (fst (resolve_route S path st0) = Raise e) as Hres.
  { rewrite Hr. destruct Hcase as [-> | (c & -> & ->)]; [done|].
    by destruct (negb _). }
  by destruct (resolve_route S path st0) as [[c|e'] st1]; simpl in Hres; simplify_eq.
Qed.

End Page_facts.

(** X8.  A context made from a file page has no title and no record
    type: for a path other than [about] and [contact] that a scanned
    page answers, [make_page_context] returns that page with [title] and
    [doctype] set to [None] and [pathname] set to the request path, every
    other attribute as the scan left it.  The title [load_properties]
    had computed for the page is overwritten, because a scanned page has
    no [page_title]. *)
Theorem X8_file_page_context_has_no_title (S : site) (path : string) (st : state)
    (pages : list frappe_dict) (p : frappe_dict) :
  page_cache_miss S st ->
  str_in path ["about"; "contact"] = false ->
  fst (get_pages S st) = Ok pages ->
  first_page path pages = Some p ->
  exists ctx,
    fst (make_page_context S path st) = Ok ctx
    /\ attr "title" ctx = VNone
    /\ attr "doctype" ctx = VNone
    /\ attr "pathname" ctx = VStr (local_path S)
    /\ forall k, k <> "title" -> k <> "doctype" -> k <> "pathname" ->
                 attr k ctx = attr k p.
Proof.
  intros Hmiss Hspecial Hpages Hfirst.
  assert (file_answer S st path = Ok (Some p)) as Hfile
    by (unfold file_answer; by rewrite Hpages, Hfirst).
  assert (scanned S p) as (path0 & basepath & app & app_path & fname & Hinfo).
  { apply first_page_truthy in Hfirst as (_ & Hin & _).
    pose proof (get_pages_scanned S st pages Hmiss Hpages) as Hall.
    rewrite List.Forall_forall in Hall. by apply Hall. }
  eexists. split; [by apply make_page_context_file|].
  rewrite (get_page_info_absent S _ _ _ _ _ p "page_title" Hinfo)
    by (unfold page_keys; simpl; intuition discriminate).
  rewrite (get_page_info_absent S _ _ _ _ _ p "ref_doctype" Hinfo)
    by (unfold page_keys; simpl; intuition discriminate).
  split; [by rewrite attr_insert_ne, attr_insert_eq by discriminate|].
  split; [by rewrite !attr_insert_ne, attr_insert_eq by discriminate|].
  split; [by rewrite attr_insert_eq|].
  intros k ? ? ?. by rewrite !attr_insert_ne by done.
Qed.

(** The demo site: the page of [blog/index.html] has the title of its
    comment; the context made for [blog] has none. *)
Lemma X8_witness :
  attr "title" Demo.blog_index = VStr "My Blog"
  /\ exists ctx,
       fst (make_page_context Demo.site "blog" empty_state) = Ok ctx
       /\ attr "title" ctx = VNone
       /\ attr "doctype" ctx = VNone
       /\ attr "pathname" ctx = VStr (local_path Demo.site)
       /\ forall k, k <> "title" -> k <> "doctype" -> k <> "pathname" ->
                    attr k ctx = attr k Demo.blog_index.
Proof.
  split; [vm_refl|].
  apply (X8_file_page_context_has_no_title Demo.site "blog" empty_state Demo.pages).
  - right. left. reflexivity.
  - reflexivity.
  - vm_refl.
  - vm_refl.
Defined.

(** X10.  An error of the scan reaches the caller: when [get_pages]
    raises and the cache holds no context for the path, [get_page_context]
    raises the same error and stores nothing, for every path other than
    [about] and [contact], and for these two as well unless a record
    answers them. *)
Theorem X10_scan_error_reaches_the_caller (S : site) (path : string) (st : state)
    (e : exn) :
  fst (get_pages S st) = Raise e ->
  context_truthy (cached_context S st path) = false ->
  str_in path ["about"; "contact"] = false
  \/ (exists c, generator_answer S st path = Ok c /\ context_truthy c = false) ->
  fst (get_page_context S path st) = Raise e
  /\ cache_page_context (snd (get_page_context S path st)) = cache_page_context st.
Proof.
  intros Hscan Hmiss Hcase.
  pose proof (make_page_context_scan_error S path st e Hscan Hcase) as Hmake.
  pose proof (make_page_context_keeps_cache S path st) as Hkeep.
  rewrite get_page_context_eq, Hmiss.
  destruct (make_page_context S path st) as [[ctx|e'] st1]; simpl in *; [done|].
  by simplify_eq.
Qed.

(** The second demo site, where [README] makes the scan fail: no page
    can be served. *)
Lemma X10_witness :
  fst (get_page_context Demo.readme_site "index" empty_state) = Raise ValueError
  /\ cache_page_context (snd (get_page_context Demo.readme_site "index" empty_state))
     = cache_page_context empty_state.
Proof.
  apply (X10_scan_error_reaches_the_caller Demo.readme_site "index" empty_state
           ValueError).
  - vm_refl.
  - vm_refl.
  - left. reflexivity.
Defined.

(** ** The route of a scanned file *)

Section Route_facts.
Import PyStr.

Lemma lstrip_head drop s c r : lstrip_by drop s = String c r -> drop c = false.
Proof.
  induction s as [|a s IH]; simpl; [done|].
  destruct (drop a) eqn:E; [exact IH|]. by intros [= <- <-].
Qed.

Lemma rstrip_head drop c r :
  drop c = false -> exists r', rstrip_by drop (String c r) = String c r'.
Proof. intros H. simpl. destruct (rstrip_by drop r); [rewrite H|]; eauto. Qed.

Lemma startswith_char c d s :
  startswith (String c EmptyString) (String d s) = Ascii.eqb c d.
Proof. simpl. apply andb_true_r. Qed.

(** What [strip] returns does not start with the stripped character. *)
Lemma strip_no_start c s : startswith (String c EmptyString) (strip c s) = false.
Proof.
  unfold strip, strip_by.
  destruct (lstrip_by (Ascii.eqb c) s) as [|d r] eqn:E; [done|].
  apply lstrip_head in E. destruct (rstrip_head _ d r E) as [r' ->].
  by rewrite startswith_char.
Qed.

Lemma rstrip_no_end drop s c :
  drop c = true -> endswith (String c EmptyString) (rstrip_by drop s) = false.
Proof.
  intros Hc. induction s as [|d s IH]; simpl; [done|].
  destruct (rstrip_by drop s) as [|e r] eqn:E.
  - destruct (drop d) eqn:Hd; [done|]. simpl.
    destruct (Ascii.eqb_spec c d) as [->|]; [congruence | done].
  - change (endswith (String c EmptyString) (String d (String e r)))
      with (String.eqb (String c EmptyString) (String d (String e r))
            || endswith (String c EmptyString) (String e r)).
    rewrite IH, orb_false_r. simpl. by destruct (Ascii.eqb c d).
Qed.

(** Nor does it end with it. *)
Lemma strip_no_end c s : endswith (String c EmptyString) (strip c s) = false.
Proof. apply rstrip_no_end, Ascii.eqb_refl. Qed.

Lemma component_no_end b : component b -> endswith "/" b = false.
Proof. intros Hb. by destruct (component_relative b Hb) as (_ & _ & ?). Qed.

(** The three strips leave a relative path alone that has no dot at
    either end. *)
Lemma strips_keep s :
  relative s -> startswith "." s = false -> endswith "." s = false ->
  strip "/" (strip "." (strip "/" s)) = s.
Proof.
  intros (_ & Hs & He) Hds Hde.
  rewrite (strip_keep "/" s Hs He), (strip_keep "." s Hds Hde).
  by apply strip_keep.
Qed.

(** The route of a base name in a directory below the scan root. *)
Lemma route_below rel b :
  relative rel -> startswith "." rel = false ->
  component b -> endswith "." b = false ->
  strip "/" (strip "." (strip "/" (OsPath.join rel b))) = rel +:+ "/" +:+ b.
Proof.
  intros Hrel Hds Hb Hde. destruct (join_relative rel b Hrel Hb) as [-> Hjoin].
  destruct Hrel as (Hne & _ & _). destruct Hb as (Hbne & _).
  apply strips_keep; [done| |].
  - by rewrite startswith_app_nonempty.
  - rewrite endswith_app by (done || by destruct b).
    change ("/" +:+ b) with (String "/" EmptyString +:+ b).
    by rewrite endswith_app.
Qed.

(** The route of a base name in the scan root itself. *)
Lemma route_at_root b :
  component b -> endswith "." b = false ->
  strip "/" (strip "." (strip "/" (OsPath.join "." b))) = b.
Proof.
  intros Hb Hde. pose proof (component_relative b Hb) as (Hbne & Hbs & Hbe).
  assert (relative ".") as Hdot by (by repeat split).
  destruct (join_relative "." b Hdot Hb) as [-> (_ & Hs & He)].
  rewrite (strip_keep "/" _ Hs He).
  assert (strip "." ("." +:+ "/" +:+ b) = "/" +:+ b) as ->.
  { unfold strip, strip_by.
    change (lstrip_by (Ascii.eqb ".") ("." +:+ "/" +:+ b)) with ("/" +:+ b).
    apply rstrip_keep.
    change ("/" +:+ b) with (String "/" EmptyString +:+ b).
    by rewrite endswith_app. }
  unfold strip, strip_by.
  change (lstrip_by (Ascii.eqb "/") ("/" +:+ b))
    with (lstrip_by (Ascii.eqb "/") b).
  rewrite (lstrip_keep "/" b Hbs). by apply rstrip_keep.
Qed.

End Route_facts.

(** X9.  The route of a scanned page never starts and never ends with a
    slash, and [name] and [page_name] both hold it: neither [get_source]
    nor [load_properties] touches them. *)
Theorem X9_route_has_no_slash_at_its_ends (S : site)
    (path basepath app app_path fname : string) (p : frappe_dict) :
  get_page_info S path basepath app app_path fname = Ok p ->
  exists route,
    attr "page_name" p = VStr route /\ attr "name" p = VStr route
    /\ PyStr.startswith "/" route = false /\ PyStr.endswith "/" route = false.
Proof.
  intros Hinfo.
  destruct (PyStr.rsplit1 "." fname) as [[page_name extn]|] eqn:Hsplit;
    [|unfold get_page_info in Hinfo; by rewrite Hsplit in Hinfo].
  destruct (get_page_info_route S _ _ _ _ _ _ _ _ Hsplit Hinfo) as [-> ->].
  eexists. split; [reflexivity|]. split; [reflexivity|]. unfold page_route.
  split; [apply strip_no_start | apply strip_no_end].
Qed.

(** The page of [.well-known/index.md] on the demo site. *)
Lemma X9_witness :
  exists route,
    attr "page_name" Demo.well_known_index = VStr route
    /\ attr "name" Demo.well_known_index = VStr route
    /\ PyStr.startswith "/" route = false /\ PyStr.endswith "/" route = false.
Proof.
  apply (X9_route_has_no_slash_at_its_ends Demo.site "/apps/frappe/www"
           "/apps/frappe/www/.well-known" "frappe" "/apps/frappe" "index.md").
  vm_refl.
Defined.

(** X11.  The route of a file is made of its directory and its base
    name, the base name being the file name without its extension for
    [.html] and [.md] and the whole file name otherwise.  When the base
    name is a path component that does not end with a dot: a file in the
    scan root has its base name as route, also when that starts with a
    dot; a file in a directory below, other than an index, has the
    directory's path relative to the root, a slash and the base name,
    provided the relative path does not start with a dot. *)
Theorem X11_route_of_a_file (S : site)
    (path basepath app app_path fname page_name extn : string) (p : frappe_dict) :
  PyStr.rsplit1 "." fname = Some (page_name, extn) ->
  get_page_info S path basepath app app_path fname = Ok p ->
  let basename := if str_in extn ["html"; "md"] then page_name else fname in
  component basename -> PyStr.endswith "." basename = false ->
  (basepath = path -> attr "page_name" p = VStr basename)
  /\ (basepath <> path -> basename <> "index" ->
      PyStr.startswith "." (relpath S basepath path) = false ->
      attr "page_name" p = VStr (relpath S basepath path +:+ "/" +:+ basename)).
Proof.
  intros Hsplit Hinfo basename Hb Hde.
  destruct (get_page_info_route S _ _ _ _ _ _ _ _ Hsplit Hinfo) as [-> _].
  unfold page_route, page_basename. fold basename. split.
  - intros ->. rewrite String.eqb_refl, andb_false_r.
    unfold relpath. rewrite relpath_same. f_equal. by apply route_at_root.
  - intros _ Hindex Hds. apply String.eqb_neq in Hindex. rewrite Hindex.
    simpl andb. cbv iota. f_equal. apply route_below; try done.
    apply relpath_relative.
Qed.

(** [about.html] in the scan root of the demo site, and
    [guide/intro.html] on the second site. *)
Lemma X11_witness :
  attr "page_name" Demo.about_page = VStr "about"
  /\ attr "page_name" Demo.guide_intro = VStr "guide/intro".
Proof.
  split.
  - pose proof (X11_route_of_a_file Demo.site "/apps/frappe/www" "/apps/frappe/www"
                  "frappe" "/apps/frappe" "about.html" "about" "html" Demo.about_page)
      as H.
    apply H; [reflexivity | vm_refl | by split | reflexivity | reflexivity].
  - pose proof (X11_route_of_a_file Demo.readme_site "/apps/docs/www"
                  "/apps/docs/www/guide" "docs" "/apps/docs" "intro.html" "intro"
                  "html" Demo.guide_intro) as H.
    cbv zeta in H.
    assert (attr "page_name" Demo.guide_intro
            = VStr (relpath Demo.readme_site "/apps/docs/www/guide" "/apps/docs/www"
                      +:+ "/" +:+ "intro")) as ->.
    { apply H; [reflexivity | vm_refl | by split | reflexivity | discriminate
               | discriminate | reflexivity]. }
    vm_refl.
Defined.

(** ** [process_generators]: the first true value *)

Section Generator_facts.
Context (S : site).
Context (controller_attr : string -> string -> option value).
Context (func : string -> value -> value -> M value).

Lemma process_doctypes_app l1 l2 otherwise :
  process_doctypes controller_attr func (l1 ++ l2) otherwise
  = process_doctypes controller_attr func l1
      (process_doctypes controller_attr func l2 otherwise).
Proof. induction l1 as [|d l1 IH]; simpl; [done|]. by rewrite IH. Qed.

(** The two nested loops are one loop over all record types. *)
Lemma process_generators_flat :
  process_generators S controller_attr func
  = process_doctypes controller_attr func (all_generators S) (ret VNone).
Proof.
  unfold process_generators, all_generators.
  induction (installed_apps S) as [|app apps IH]; simpl; [done|].
  by rewrite process_doctypes_app, IH.
Qed.

Lemma process_doctypes_skipped l otherwise : forall st st1,
  skipped controller_attr func l st = Some st1 ->
  process_doctypes controller_attr func l otherwise st = otherwise st1.
Proof.
  induction l as [|d l IH]; intros st st1; simpl.
  - by intros [= <-].
  - unfold bind.
    destruct (generator_call controller_attr func d st) as [[v|e] st'];
      [|done].
    destruct (truthy v); [done|]. apply IH.
Qed.

End Generator_facts.

(** X12.  [process_generators] calls [func] for the record types of the
    installed apps in hook order, app after app, and stops at the first
    call that returns a true value or raises: it returns that value (or
    raises that error) with the store as that call left it, so [func] is
    not called for any later record type.  When every call returns a
    false value the result is [None].  [func] gets the record type, the
    controller's [condition_field] or [None], and the controller's
    [order_by] or [name asc]. *)
Theorem X12_process_generators_first_true_value (S : site)
    (controller_attr : string -> string -> option value)
    (func : string -> value -> value -> M value) (st : state) :
  (forall before doctype after st1 r st2,
      all_generators S = before ++ doctype :: after ->
      skipped controller_attr func before st = Some st1 ->
      func doctype
        (default VNone (controller_attr doctype "condition_field"))
        (default (VStr "name asc") (controller_attr doctype "order_by")) st1
      = (r, st2) ->
      match r with Ok val => truthy val = true | Raise _ => True end ->
      process_generators S controller_attr func st = (r, st2))
  /\ (forall st1,
      skipped controller_attr func (all_generators S) st = Some st1 ->
      process_generators S controller_attr func st = (Ok VNone, st1)).
Proof.
  rewrite process_generators_flat. split.
  - intros before doctype after st1 r st2 -> Hskip Hcall Hr.
    rewrite process_doctypes_app.
    rewrite (process_doctypes_skipped _ _ _ _ _ _ Hskip). simpl. unfold bind.
    assert (generator_call controller_attr func doctype st1 = (r, st2)) as ->.
    { unfold generator_call. rewrite <- Hcall.
      by destruct (controller_attr doctype "condition_field"),
                  (controller_attr doctype "order_by"). }
    destruct r as [val|e]; [|done]. by rewrite Hr.
  - intros st1 Hskip.
    by rewrite (process_doctypes_skipped _ _ _ _ _ _ Hskip).
Qed.

(** The third demo site lists [Web Page] for the first app and
    [Blog Post] for the second.  A callback that wants [Web Page] is
    called once; one that wants [Blog Post] is called twice, the second
    time with the controller's ordering; one that wants neither is
    called twice and gives [None]. *)
Lemma X12_witness :
  (fst (process_generators Demo.twice_site Demo.controller_attr
          (Demo.find_generator "Web Page") empty_state) = Ok (VStr "Web Page")
   /\ touched (snd (process_generators Demo.twice_site Demo.controller_attr
                      (Demo.find_generator "Web Page") empty_state))
      = ["Web Page by name asc"])
  /\ (fst (process_generators Demo.twice_site Demo.controller_attr
             (Demo.find_generator "Blog Post") empty_state) = Ok (VStr "Blog Post")
      /\ touched (snd (process_generators Demo.twice_site Demo.controller_attr
                         (Demo.find_generator "Blog Post") empty_state))
         = ["Web Page by name asc"; "Blog Post by published_on desc"])
  /\ fst (process_generators Demo.twice_site Demo.controller_attr
            (Demo.find_generator "Event") empty_state) = Ok VNone.
Proof.
  split; [|split].
  - rewrite (proj1 (X12_process_generators_first_true_value Demo.twice_site
                      Demo.controller_attr (Demo.find_generator "Web Page")
                      empty_state)
               [] "Web Page" ["Blog Post"] empty_state (Ok (VStr "Web Page"))
               (touch "Web Page by name asc" empty_state));
      by repeat split.
  - rewrite (proj1 (X12_process_generators_first_true_value Demo.twice_site
                      Demo.controller_attr (Demo.find_generator "Blog Post")
                      empty_state)
               ["Web Page"] "Blog Post" [] (touch "Web Page by name asc" empty_state)
               (Ok (VStr "Blog Post"))
               (touch "Blog Post by published_on desc"
                  (touch "Web Page by name asc" empty_state)));
      by repeat split.
  - rewrite (proj2 (X12_process_generators_first_true_value Demo.twice_site
                      Demo.controller_attr (Demo.find_generator "Event")
                      empty_state)
               (touch "Blog Post by published_on desc"
                  (touch "Web Page by name asc" empty_state)));
      by repeat split.
Defined.

(** ** What [load_properties] leaves in a page *)

Lemma attr_if k (c : bool) (a b : frappe_dict) :
  attr k (if c then a else b) = if c then attr k a else attr k b.
Proof. by destruct c. Qed.

Lemma str_of_if (c : bool) (a b : value) :
  str_of (if c then a else b) = if c then str_of a else str_of b.
Proof. by destruct c. Qed.

(** Attribute reads pushed through conditional updates. *)
Ltac push_attr :=
  repeat first
    [ rewrite attr_if
    | rewrite attr_insert_eq
    | rewrite attr_insert_ne by discriminate
    | rewrite str_of_if
    | progress cbn [str_of] ].

(** Case analysis on a condition that has no condition inside. *)
Ltac first_test c :=
  lazymatch c with
  | negb ?x => first_test x
  | andb ?x _ => first_test x
  | _ => constr:(c)
  end.

Ltac split_if :=
  match goal with
  | |- context [if ?c then _ else _] =>
      lazymatch c with
      | context [if _ then _ else _] => fail
      | _ => let a := first_test c in destruct a eqn:?; cbn [negb andb]
      end
  end.

Section Properties_facts.

(** The page after [load_properties], attribute by attribute. *)
Lemma load_properties_spec (page_info page_info' : frappe_dict) :
  load_properties page_info = Ok page_info' ->
  let source := str_of (attr "source" page_info) in
  exists title,
    found_title source (str_of (attr "name" page_info)) = Ok title
    /\ attr "title" page_info' = VStr title
    /\ str_of (attr "source" page_info')
       = with_header (with_title source title) title
    /\ attr "no_breadcrumbs" page_info'
       = (if PyStr.contains "<!-- no-breadcrumbs -->" (with_title source title)
          then VInt 1 else attr "no_breadcrumbs" page_info)
    /\ attr "no_header" page_info'
       = (if PyStr.contains "<!-- no-header -->" (with_title source title)
          then VInt 1 else attr "no_header" page_info)
    /\ attr "no_cache" page_info'
       = (if PyStr.contains "<!-- no-cache -->"
               (with_header (with_title source title) title)
          then VInt 1 else attr "no_cache" page_info).
Proof.
  intros H source. unfold load_properties, rbind in H.
  destruct (if PyStr.contains "<!-- title:" _ then _ else _) as [title|e] eqn:Ht;
    [|done].
  change (found_title source (str_of (attr "name" page_info)) = Ok title) in Ht.
  injection H as <-. exists title. split; [exact Ht|].
  unfold with_header, with_title, title_block, header_block. fold source.
  repeat split; push_attr; fold source; repeat split_if; reflexivity.
Qed.

(** [load_properties] fails only where the title does. *)
Lemma load_properties_ok (page_info : frappe_dict) title :
  found_title (str_of (attr "source" page_info)) (str_of (attr "name" page_info))
  = Ok title ->
  exists page_info', load_properties page_info = Ok page_info'.
Proof.
  intros Ht. unfold load_properties, rbind.
  change (if PyStr.contains "<!-- title:" (str_of (attr "source" page_info))
          then _ else _)
    with (found_title (str_of (attr "source" page_info))
            (str_of (attr "name" page_info))).
  rewrite Ht. eauto.
Qed.

Lemma load_properties_raises (page_info : frappe_dict) e :
  found_title (str_of (attr "source" page_info)) (str_of (attr "name" page_info))
  = Raise e ->
  load_properties page_info = Raise e.
Proof.
  intros Ht. unfold load_properties, rbind.
  change (if PyStr.contains "<!-- title:" (str_of (attr "source" page_info))
          then _ else _)
    with (found_title (str_of (attr "source" page_info))
            (str_of (attr "name" page_info))).
  by rewrite Ht.
Qed.

End Properties_facts.
(** ** The title comment *)

Section Title_facts.
Import PyStr Re.

Lemma strip_prefix_app p r : strip_prefix p (p +:+ r) = Some r.
Proof.
  induction p as [|a p IH]; [done|].
  rewrite app_cons. simpl. by rewrite Ascii.eqb_refl.
Qed.

Lemma strip_prefix_spec p : forall s r, strip_prefix p s = Some r -> s = p +:+ r.
Proof.
  induction p as [|a p IH]; intros s r; simpl.
  - by intros [= ->].
  - destruct s as [|c s]; [done|].
    destruct (Ascii.eqb_spec a c) as [->|]; [|done].
    intros ->%IH. by rewrite app_cons.
Qed.

Lemma title_group_unfold s :
  title_group s =
  if startswith " -->" s then Some EmptyString
  else match s with
       | EmptyString => None
       | String c s' =>
           if Ascii.eqb c ">" then None else String c <$> title_group s'
       end.
Proof. by destruct s. Qed.

Lemma startswith_app p r : startswith p (p +:+ r) = true.
Proof. apply startswith_spec. by exists r. Qed.

(** A group matched at the start of a text is followed there by the
    tail of the comment. *)
Lemma title_group_spec s : forall g,
  title_group s = Some g -> exists r, s = g +:+ " -->" +:+ r.
Proof.
  induction s as [|c s IH]; intros g; rewrite title_group_unfold.
  - done.
  - destruct (startswith " -->" (String c s)) eqn:E.
    + intros [= <-]. apply startswith_spec in E as [v ->]. by exists v.
    + destruct (Ascii.eqb c ">"); [done|].
      destruct (title_group s) as [g'|] eqn:Hg; [|done].
      intros [= <-]. destruct (IH g' eq_refl) as [r ->].
      exists r. by rewrite app_cons.
Qed.

(** The tail of the comment cannot start inside a text without [>]. *)
Lemma tail_not_inside c t rest :
  contains ">" (String c t) = false ->
  startswith " -->" (String c t +:+ " -->" +:+ rest) = false.
Proof.
  intros H.
  assert (forall x y, Ascii.eqb x y = false -> forall b, Ascii.eqb x y && b = false)
    as Hfalse by (by intros x y ->).
  assert (forall b, b && false = false) as Hr by apply andb_false_r.
  destruct t as [|d [|e [|f r]]];
    rewrite ?app_cons, ?app_nil_l, ?startswith_cons.
  - rewrite (Hfalse "-"%char " "%char) by reflexivity. apply Hr.
  - rewrite (Hfalse "-"%char " "%char) by reflexivity. by rewrite !Hr.
  - rewrite (Hfalse ">"%char " "%char) by reflexivity. by rewrite !Hr.
  - rewrite !contains_char_cons in H.
    apply orb_false_iff in H as [_ H]. apply orb_false_iff in H as [_ H].
    apply orb_false_iff in H as [_ H]. apply orb_false_iff in H as [H _].
    rewrite H. by rewrite !Hr.
Qed.

(** The group matched before the tail of the comment is the whole text
    between, when that has no [>]. *)
Lemma title_group_app t : forall rest,
  contains ">" t = false -> title_group (t +:+ " -->" +:+ rest) = Some t.
Proof.
  induction t as [|c t IH]; intros rest H; rewrite title_group_unfold.
  - by rewrite app_nil_l, startswith_app.
  - rewrite tail_not_inside by done. rewrite app_cons.
    rewrite contains_char_cons, orb_false_iff in H. destruct H as [Hc Ht].
    rewrite Ascii.eqb_sym, Hc. by rewrite IH.
Qed.

Lemma title_match_none s :
  startswith "<!-- title:" s = false -> title_match s = None.
Proof.
  intros H. unfold title_match.
  destruct (strip_prefix "<!-- title:" s) as [r|] eqn:E; [|done].
  apply strip_prefix_spec in E as ->. by rewrite startswith_app in H.
Qed.

(** Before the first opening of a title comment nothing matches. *)
Lemma findall_skips before : forall rest,
  contains "<!-- title:" before = false ->
  findall_from 0 (before +:+ "<!-- title:" +:+ rest)
  = findall_from 0 ("<!-- title:" +:+ rest).
Proof.
  induction before as [|c before IH]; intros rest H; [by rewrite app_nil_l|].
  rewrite contains_unfold, orb_false_iff in H. destruct H as [Hs Hc].
  rewrite app_cons.
  change (findall_from 0 (String c (before +:+ "<!-- title:" +:+ rest)))
    with (match title_match (String c (before +:+ "<!-- title:" +:+ rest)) with
          | Some g => g :: findall_from (14 + String.length g)
                             (before +:+ "<!-- title:" +:+ rest)
          | None => findall_from 0 (before +:+ "<!-- title:" +:+ rest)
          end).
  rewrite title_match_none; [by apply IH|].
  assert (startswith "<!-- title:" (String c (before +:+ "<!-- title:" +:+ rest))
          = startswith "<!-- title:" (String c before)) as ->; [|exact Hs].
  rewrite !startswith_cons. f_equal.
  change ("<!-- title:" +:+ rest) with (String "<" ("!-- title:" +:+ rest)).
  by apply startswith_app_sep.
Qed.

(** The first match is at the first opening, when the text up to the
    tail has no [>]. *)
Lemma findall_first before t rest :
  contains "<!-- title:" before = false -> contains ">" t = false ->
  exists more,
    findall_title (before +:+ "<!-- title:" +:+ t +:+ " -->" +:+ rest) = t :: more.
Proof.
  intros Hb Ht. unfold findall_title. rewrite findall_skips by done.
  change ("<!-- title:" +:+ t +:+ " -->" +:+ rest)
    with (String "<" ("!-- title:" +:+ t +:+ " -->" +:+ rest)).
  cbn [findall_from].
  change (String "<" ("!-- title:" +:+ t +:+ " -->" +:+ rest))
    with ("<!-- title:" +:+ t +:+ " -->" +:+ rest).
  unfold title_match. rewrite strip_prefix_app. cbn [mbind option_bind].
  rewrite title_group_app by done. eauto.
Qed.

(** A match needs the tail of the comment somewhere in the text. *)
Lemma findall_needs_tail s : forall skip g more,
  findall_from skip s = g :: more -> contains " -->" s = true.
Proof.
  induction s as [|c s IH]; intros skip g more; [done|].
  rewrite contains_unfold. destruct skip as [|k]; cbn [findall_from].
  - destruct (title_match (String c s)) as [g'|] eqn:E.
    + intros _. unfold title_match in E.
      destruct (strip_prefix "<!-- title:" (String c s)) as [r|] eqn:Hp; [|done].
      cbn [mbind option_bind] in E.
      apply strip_prefix_spec in Hp. apply title_group_spec in E as [r' ->].
      rewrite <- contains_unfold, Hp. apply contains_spec.
      exists ("<!-- title:" +:+ g'), r'. by rewrite !app_assoc.
    + intros H%IH. rewrite H. apply orb_true_r.
  - intros H%IH. rewrite H. apply orb_true_r.
Qed.

End Title_facts.

(** X13.  The title of a page, for ASCII text.  Where the source of a
    page has a title comment (the opening, a text without [>], a space
    and the closing) and no opening before it, [load_properties]
    succeeds and the title is the text of that comment with the white
    space around it removed.  Where the source has no opening of a title
    comment at all, the title is derived from the last component of the
    route: underscores and hyphens become spaces and each word is
    capitalised.  The text of the comment, or the last component of the
    route, is taken to be ASCII: beyond ASCII [unicode.strip()] and
    [unicode.title()] know more white space and more letters than
    [PyStr.strip_ws] and [PyStr.title]. *)
Theorem X13_title_of_a_page (page_info : frappe_dict) :
  (forall before text after,
      str_of (attr "source" page_info)
      = before +:+ "<!-- title:" +:+ text +:+ " -->" +:+ after ->
      PyStr.contains "<!-- title:" before = false ->
      PyStr.contains ">" text = false ->
      PyStr.is_ascii text = true ->
      exists page_info',
        load_properties page_info = Ok page_info'
        /\ attr "title" page_info' = VStr (PyStr.strip_ws text))
  /\ (PyStr.contains "<!-- title:" (str_of (attr "source" page_info)) = false ->
      PyStr.is_ascii (OsPath.basename (str_of (attr "name" page_info))) = true ->
      exists page_info',
        load_properties page_info = Ok page_info'
        /\ attr "title" page_info'
           = VStr (PyStr.title
                     (PyStr.replace "-" " "
                        (PyStr.replace "_" " "
                           (OsPath.basename (str_of (attr "name" page_info))))))).
Proof.
  assert (forall title,
             found_title (str_of (attr "source" page_info))
               (str_of (attr "name" page_info)) = Ok title ->
             exists page_info',
               load_properties page_info = Ok page_info'
               /\ attr "title" page_info' = VStr title) as Hsuff.
  { intros title Ht. destruct (load_properties_ok page_info title Ht) as [pi' Hload].
    exists pi'. split; [exact Hload|].
    destruct (load_properties_spec _ _ Hload) as (title' & Ht' & -> & _).
    congruence. }
  split.
  - intros before text after Hsrc Hb Ht _. apply Hsuff. unfold found_title.
    rewrite Hsrc.
    assert (PyStr.contains "<!-- title:"
              (before +:+ "<!-- title:" +:+ text +:+ " -->" +:+ after) = true) as ->.
    { apply contains_spec. by exists before, (text +:+ " -->" +:+ after). }
    destruct (findall_first before text after Hb Ht) as [more ->]. reflexivity.
  - intros Hno _. apply Hsuff. unfold found_title. by rewrite Hno.
Qed.

(** X14.  A title comment that is opened but never closed by a space
    and [-->] makes [load_properties] raise [IndexError]: the list of
    matches it takes the first element of is empty. *)
Theorem X14_unclosed_title_comment_raises (page_info : frappe_dict) :
  PyStr.contains "<!-- title:" (str_of (attr "source" page_info)) = true ->
  PyStr.contains " -->" (str_of (attr "source" page_info)) = false ->
  load_properties page_info = Raise IndexError.
Proof.
  intros Hopen Htail. apply load_properties_raises. unfold found_title.
  rewrite Hopen.
  destruct (Re.findall_title (str_of (attr "source" page_info))) as [|g more] eqn:E;
    [done|].
  apply findall_needs_tail in E. congruence.
Qed.
(** A page with the comment [<!-- title: My Blog -->] in its content,
    and a page named [getting-started_now] without one. *)
Lemma X13_witness :
  (exists page_info',
      load_properties Demo.titled = Ok page_info'
      /\ attr "title" page_info' = VStr "My Blog")
  /\ (exists page_info',
         load_properties Demo.untitled = Ok page_info'
         /\ attr "title" page_info' = VStr "Getting Started Now").
Proof.
  split.
  - destruct (proj1 (X13_title_of_a_page Demo.titled)
                (extends_web +:+ nl +:+ "{% block page_content %}" +:+ nl)
                " My Blog" ("Posts" +:+ nl +:+ "{% endblock %}"))
      as (page_info' & H1 & H2); [vm_refl | vm_refl | vm_refl | vm_refl |].
    exists page_info'. split; [exact H1|]. rewrite H2. vm_refl.
  - destruct (proj2 (X13_title_of_a_page Demo.untitled))
      as (page_info' & H1 & H2); [vm_refl | vm_refl |].
    exists page_info'. split; [exact H1|]. rewrite H2. vm_refl.
Defined.

(** A page whose title comment lacks the closing. *)
Lemma X14_witness : load_properties Demo.unclosed = Raise IndexError.
Proof. apply X14_unclosed_title_comment_raises; vm_refl. Defined.

(** ** The blocks and flags [load_properties] adds *)

Section Block_facts.
Import PyStr.

Lemma with_title_grows source title :
  exists added, with_title source title = source +:+ added.
Proof.
  unfold with_title. destruct (contains _ source); [|eauto].
  exists EmptyString. by rewrite app_nil_r.
Qed.

Lemma with_header_grows source title :
  exists added, with_header source title = source +:+ added.
Proof.
  unfold with_header. destruct (contains _ source);
    [exists EmptyString; by rewrite app_nil_r|].
  destruct (_ && _); [eauto|]. exists EmptyString. by rewrite app_nil_r.
Qed.

(** What a source holds it still holds after the two appends. *)
Lemma with_title_keeps p source title :
  contains p source = true -> contains p (with_title source title) = true.
Proof.
  intros H. destruct (with_title_grows source title) as [added ->].
  by apply contains_app_l.
Qed.

Lemma with_header_keeps p source title :
  contains p source = true -> contains p (with_header source title) = true.
Proof.
  intros H. destruct (with_header_grows source title) as [added ->].
  by apply contains_app_l.
Qed.

Lemma with_title_has_block source title :
  contains "{% block title %}" (with_title source title) = true.
Proof.
  unfold with_title. destruct (contains _ source) eqn:E; [exact E|].
  apply contains_app_r, contains_spec.
  by exists nl, (title +:+ "{% endblock %}").
Qed.

Lemma with_header_has_header source title :
  contains "<!-- no-header -->" (with_header source title) = true
  \/ contains "{% block header %}" (with_header source title) = true
  \/ contains "<h1" (with_header source title) = true.
Proof.
  unfold with_header. destruct (contains "<!-- no-header -->" source) eqn:E1;
    [by left|].
  destruct (contains "{% block header %}" source) eqn:E2; [right; by left|].
  destruct (contains "<h1" source) eqn:E3; [right; by right|].
  cbn [negb andb]. right. left. apply contains_app_r, contains_spec.
  by exists nl, ("<h1>" +:+ title +:+ "</h1>{% endblock %}").
Qed.

End Block_facts.

(** X15.  [load_properties] only appends to the source, and what it
    leaves always has a title block and a header: the source afterwards
    is the source before followed by some text, it holds
    [{% block title %}], and it holds the no-header directive, a header
    block or a first-level heading. *)
Theorem X15_title_block_and_header_present (page_info page_info' : frappe_dict) :
  load_properties page_info = Ok page_info' ->
  let source' := str_of (attr "source" page_info') in
  (exists added, source' = str_of (attr "source" page_info) +:+ added)
  /\ PyStr.contains "{% block title %}" source' = true
  /\ (PyStr.contains "<!-- no-header -->" source' = true
      \/ PyStr.contains "{% block header %}" source' = true
      \/ PyStr.contains "<h1" source' = true).
Proof.
  intros (title & _ & _ & Hsrc & _)%load_properties_spec source'.
  subst source'. rewrite Hsrc. split; [|split].
  - destruct (with_title_grows (str_of (attr "source" page_info)) title) as [a ->].
    destruct (with_header_grows (str_of (attr "source" page_info) +:+ a) title)
      as [b ->].
    exists (a +:+ b). by rewrite app_assoc.
  - apply with_header_keeps, with_title_has_block.
  - apply with_header_has_header.
Qed.

(** The page with the title comment: it gets both blocks. *)
Lemma X15_witness :
  (exists added,
      str_of (attr "source" Demo.titled_loaded)
      = str_of (attr "source" Demo.titled) +:+ added)
  /\ PyStr.contains "{% block title %}My Blog{% endblock %}"
       (str_of (attr "source" Demo.titled_loaded)) = true
  /\ PyStr.contains "{% block header %}<h1>My Blog</h1>{% endblock %}"
       (str_of (attr "source" Demo.titled_loaded)) = true.
Proof.
  assert (load_properties Demo.titled = Ok Demo.titled_loaded) as H by vm_refl.
  destruct (X15_title_block_and_header_present Demo.titled Demo.titled_loaded H)
    as (Hgrows & _ & _).
  split; [exact Hgrows|]. split; vm_refl.
Defined.

(** X16.  A directive in the source of a page sets its flag: the
    no-cache comment sets [no_cache] to 1, the no-breadcrumbs comment
    [no_breadcrumbs], the no-header comment [no_header]; the text that
    [load_properties] appends before it looks for them does not hide
    them. *)
Theorem X16_directives_set_flags (page_info page_info' : frappe_dict) :
  load_properties page_info = Ok page_info' ->
  let source := str_of (attr "source" page_info) in
  (PyStr.contains "<!-- no-cache -->" source = true ->
   attr "no_cache" page_info' = VInt 1)
  /\ (PyStr.contains "<!-- no-breadcrumbs -->" source = true ->
      attr "no_breadcrumbs" page_info' = VInt 1)
  /\ (PyStr.contains "<!-- no-header -->" source = true ->
      attr "no_header" page_info' = VInt 1).
Proof.
  intros (title & _ & _ & Hsrc & Hbc & Hnh & Hnc)%load_properties_spec source.
  fold source in Hsrc, Hbc, Hnh, Hnc. split; [|split].
  - intros H. rewrite Hnc.
    by rewrite (with_header_keeps _ _ title (with_title_keeps _ _ title H)).
  - intros H. rewrite Hbc. by rewrite (with_title_keeps _ _ title H).
  - intros H. rewrite Hnh. by rewrite (with_title_keeps _ _ title H).
Qed.

(** The page with the three directives in its content. *)
Lemma X16_witness :
  attr "no_cache" Demo.directed_loaded = VInt 1
  /\ attr "no_breadcrumbs" Demo.directed_loaded = VInt 1
  /\ attr "no_header" Demo.directed_loaded = VInt 1.
Proof.
  assert (load_properties Demo.directed = Ok Demo.directed_loaded) as H by vm_refl.
  destruct (X16_directives_set_flags Demo.directed Demo.directed_loaded H)
    as (H1 & H2 & H3).
  split; [apply H1; vm_refl|]. split; [apply H2; vm_refl | apply H3; vm_refl].
Defined.

(** ** Full templates and content-only pages *)

Section Source_facts.
Context (S : site).

Lemma page_stub_template path basepath app_path fname page_name extn :
  attr "template" (page_stub S path basepath app_path fname page_name extn)
  = VStr (relpath S (OsPath.join basepath fname) app_path).
Proof.
  unfold page_stub. cbv zeta.
  destruct (_ && _);
    repeat (rewrite attr_insert_ne by discriminate); apply attr_insert_eq.
Qed.

Lemma page_stub_unset path basepath app_path fname page_name extn k :
  k <> "basename" -> k <> "page_or_generator" -> k <> "template" ->
  k <> "page_name" -> k <> "name" -> k <> "controller_path" ->
  attr k (page_stub S path basepath app_path fname page_name extn) = VNone.
Proof.
  intros. unfold page_stub. cbv zeta.
  destruct (_ && _); repeat (rewrite attr_insert_ne by done); apply attr_empty.
Qed.

(** [get_source] for a template that is not a content-only page: the
    text as loaded and rendered for [.html] and [.md], no text
    otherwise, and the page as it was. *)
Lemma get_source_as_is (page_info : frappe_dict) (basepath src : string) :
  let template := str_of (attr "template" page_info) in
  loader_get_source S template = Some src ->
  PyStr.endswith ".html" template || PyStr.endswith ".md" template = false
  \/ PyStr.contains "</body>" (rendered S template src)
     || PyStr.contains "{% block" (rendered S template src) = true ->
  get_source S page_info basepath
  = Ok (if PyStr.endswith ".html" template || PyStr.endswith ".md" template
        then rendered S template src else EmptyString, page_info).
Proof.
  intros template Hload Hcase. unfold get_source. fold template.
  rewrite Hload. unfold rendered in *.
  destruct (PyStr.endswith ".html" template || PyStr.endswith ".md" template);
    [|done].
  destruct Hcase as [|Hfull]; [done|].
  apply orb_true_iff in Hfull as [-> | ->]; [done|].
  by rewrite andb_false_r.
Qed.

End Source_facts.

(** X17.  A page whose template is not [.html] or [.md], or holds
    [</body>] or the opening of a block, is not a content-only page: its
    source is the template text as rendered (no text at all for the
    other extensions), and [load_properties] is not run, so the page has
    no title and no flag, whatever comments its text holds. *)
Theorem X17_full_template_gets_no_properties (S : site)
    (path basepath app app_path fname src : string) (p : frappe_dict) :
  let template := relpath S (OsPath.join basepath fname) app_path in
  get_page_info S path basepath app app_path fname = Ok p ->
  loader_get_source S template = Some src ->
  PyStr.endswith ".html" template || PyStr.endswith ".md" template = false
  \/ PyStr.contains "</body>" (rendered S template src)
     || PyStr.contains "{% block" (rendered S template src) = true ->
  attr "source" p
  = VStr (if PyStr.endswith ".html" template || PyStr.endswith ".md" template
          then rendered S template src else EmptyString)
  /\ attr "only_content" p = VNone
  /\ attr "title" p = VNone
  /\ attr "no_cache" p = VNone
  /\ attr "no_header" p = VNone
  /\ attr "no_breadcrumbs" p = VNone.
Proof.
  intros template Hinfo Hload Hcase.
  destruct (PyStr.rsplit1 "." fname) as [[page_name extn]|] eqn:Hsplit;
    [|unfold get_page_info in Hinfo; by rewrite Hsplit in Hinfo].
  rewrite (get_page_info_unfold S _ _ _ _ _ _ _ Hsplit) in Hinfo.
  pose proof (get_source_as_is S
                (page_stub S path basepath app_path fname page_name extn)
                basepath src) as Hsrc.
  cbv zeta in Hsrc. rewrite page_stub_template in Hsrc. cbn [str_of] in Hsrc.
  fold template in Hsrc. rewrite (Hsrc Hload Hcase) in Hinfo. clear Hsrc.
  cbn [rbind fst snd] in Hinfo.
  rewrite attr_insert_ne, page_stub_unset in Hinfo by discriminate.
  cbn [truthy rbind] in Hinfo. injection Hinfo as <-.
  repeat split;
    repeat first [ rewrite attr_insert_eq | rewrite attr_insert_ne by discriminate ];
    try reflexivity; by apply page_stub_unset.
Qed.

(** [full.html] on the second demo site holds the no-cache comment and
    a block: the page is not flagged. *)
Lemma X17_witness :
  PyStr.contains "<!-- no-cache -->" (str_of (attr "source" Demo.full_page)) = true
  /\ attr "source" Demo.full_page
     = VStr "<!-- no-cache -->{% block content %}Full{% endblock %}"
  /\ attr "only_content" Demo.full_page = VNone
  /\ attr "title" Demo.full_page = VNone
  /\ attr "no_cache" Demo.full_page = VNone
  /\ attr "no_header" Demo.full_page = VNone
  /\ attr "no_breadcrumbs" Demo.full_page = VNone.
Proof.
  split; [vm_refl|].
  pose proof (X17_full_template_gets_no_properties Demo.docs_site "/apps/docs/www"
                "/apps/docs/www" "docs" "/apps/docs" "full.html"
                "<!-- no-cache -->{% block content %}Full{% endblock %}"
                Demo.full_page) as H.
  cbv zeta in H.
  destruct H as (H1 & H2); [vm_refl | vm_refl | right; vm_refl |].
  split; [|exact H2]. rewrite H1. vm_refl.
Defined.

(** X18.  A file page flagged [no_cache] is made anew on every request:
    for a path other than [about] and [contact] that such a page
    answers, [get_page_context] returns the context with the flag and
    leaves the context cache as it was, so the next request misses
    again. *)
Theorem X18_no_cache_page_is_never_stored (S : site) (path : string) (st : state)
    (pages : list frappe_dict) (p : frappe_dict) :
  str_in path ["about"; "contact"] = false ->
  fst (get_pages S st) = Ok pages ->
  first_page path pages = Some p ->
  truthy (attr "no_cache" p) = true ->
  context_truthy (cached_context S st path) = false ->
  let st' := snd (get_page_context S path st) in
  (exists ctx,
      fst (get_page_context S path st) = Ok ctx
      /\ attr "no_cache" ctx = attr "no_cache" p)
  /\ cache_page_context st' = cache_page_context st
  /\ context_truthy (cached_context S st' path) = false.
Proof.
  intros Hspecial Hpages Hfirst Hflag Hmiss st'.
  assert (file_answer S st path = Ok (Some p)) as Hfile
    by (unfold file_answer; by rewrite Hpages, Hfirst).
  pose proof (make_page_context_file S path st p Hspecial Hfile) as Hmake.
  pose proof (make_page_context_keeps_cache S path st) as Hkeep.
  subst st'. rewrite get_page_context_eq, Hmiss.
  destruct (make_page_context S path st) as [[ctx|e] st1]; simpl in Hmake, Hkeep;
    [|done].
  injection Hmake as ->.
  assert (forall d : value,
             attr "no_cache"
               (<["pathname" := VStr (local_path S)]>
                  (<["title" := attr "page_title" p]> (<["doctype" := d]> p)))
             = attr "no_cache" p) as Hnc
    by (intros d; by rewrite !attr_insert_ne by discriminate).
  unfold can_cache. rewrite !Hnc, Hflag, andb_false_r. cbn [fst snd].
  split; [eexists; split; [reflexivity | apply Hnc]|]. split; [exact Hkeep|].
  unfold cached_context, language_map in *. by rewrite Hkeep.
Qed.

(** The flagged page [guide/intro] of the second demo site. *)
Lemma X18_witness :
  (exists ctx,
      fst (get_page_context Demo.docs_site "guide/intro" empty_state) = Ok ctx
      /\ attr "no_cache" ctx = attr "no_cache" Demo.guide_intro)
  /\ cache_page_context
       (snd (get_page_context Demo.docs_site "guide/intro" empty_state))
     = cache_page_context empty_state
  /\ context_truthy
       (cached_context Demo.docs_site
          (snd (get_page_context Demo.docs_site "guide/intro" empty_state))
          "guide/intro") = false.
Proof.
  apply (X18_no_cache_page_is_never_stored Demo.docs_site "guide/intro" empty_state
           Demo.docs_pages Demo.guide_intro); vm_refl.
Defined.

(** X19.  A page whose template is [.html] or [.md] and holds neither
    [</body>] nor the opening of a block is a content-only page: it is
    marked [only_content], its source starts with the page shell around
    the rendered text, it has a title and a title block, and a no-cache
    comment in the template text sets [no_cache] to 1. *)
Theorem X19_content_only_page (S : site)
    (path basepath app app_path fname src : string) (p : frappe_dict) :
  let template := relpath S (OsPath.join basepath fname) app_path in
  get_page_info S path basepath app app_path fname = Ok p ->
  loader_get_source S template = Some src ->
  PyStr.endswith ".html" template || PyStr.endswith ".md" template = true ->
  PyStr.contains "</body>" (rendered S template src) = false ->
  PyStr.contains "{% block" (rendered S template src) = false ->
  attr "only_content" p = VBool true
  /\ (exists title, attr "title" p = VStr title)
  /\ PyStr.startswith (page_shell (rendered S template src))
       (str_of (attr "source" p)) = true
  /\ PyStr.contains "{% block title %}" (str_of (attr "source" p)) = true
  /\ (PyStr.contains "<!-- no-cache -->" (rendered S template src) = true ->
      attr "no_cache" p = VInt 1).
Proof.
  intros template Hinfo Hload Hext Hbody Hblock.
  destruct (PyStr.rsplit1 "." fname) as [[page_name extn]|] eqn:Hsplit;
    [|unfold get_page_info in Hinfo; by rewrite Hsplit in Hinfo].
  rewrite (get_page_info_unfold S _ _ _ _ _ _ _ Hsplit) in Hinfo.
  set (stub := page_stub S path basepath app_path fname page_name extn) in *.
  assert (str_of (attr "template" stub) = template) as Htpl
    by (unfold stub; by rewrite page_stub_template).
  pose proof (get_source_content_only S stub basepath src) as Hsrc.
  cbv zeta in Hsrc. rewrite Htpl in Hsrc.
  rewrite (Hsrc Hload Hext Hbody Hblock) in Hinfo. clear Hsrc.
  cbn [rbind fst snd] in Hinfo.
  set (r := rendered S template src) in *.
  set (shell := page_shell r +:+ script_block (sibling_text S stub basepath)) in *.
  rewrite attr_insert_ne, attr_insert_eq in Hinfo by discriminate.
  cbn [truthy] in Hinfo.
  destruct (load_properties _) as [pi2|e] eqn:Hprops; [|done].
  cbn [rbind] in Hinfo. injection Hinfo as <-.
  rewrite !(attr_insert_ne _ "controller") by discriminate.
  pose proof (load_properties_attr _ _ "only_content" Hprops) as Honly.
  destruct (load_properties_spec _ _ Hprops) as (title & _ & Ht & Hs & _ & _ & Hnc).
  cbv zeta in Hs, Hnc. rewrite attr_insert_eq in Hs, Hnc. cbn [str_of] in Hs, Hnc.
  split; [|split; [|split; [|split]]].
  - rewrite Honly by discriminate. by rewrite attr_insert_ne, attr_insert_eq.
  - by exists title.
  - rewrite Hs. destruct (with_title_grows shell title) as [a ->].
    destruct (with_header_grows (shell +:+ a) title) as [b ->].
    apply startswith_spec. exists (script_block (sibling_text S stub basepath) +:+ a +:+ b).
    unfold shell. by rewrite !app_assoc.
  - rewrite Hs. apply with_header_keeps, with_title_has_block.
  - intros Hdir. rewrite Hnc.
    assert (PyStr.contains "<!-- no-cache -->" shell = true) as Hshell.
    { unfold shell. apply contains_app_l. unfold page_shell. apply contains_spec.
      apply contains_spec in Hdir as (u & v & ->).
      exists (extends_web +:+ nl +:+ "{% block page_content %}" +:+ nl +:+ u),
             (v +:+ nl +:+ "{% endblock %}").
      by rewrite !app_assoc. }
    by rewrite (with_header_keeps _ _ title (with_title_keeps _ _ title Hshell)).
Qed.

(** [guide/intro.html] on the second demo site. *)
Lemma X19_witness :
  attr "only_content" Demo.guide_intro = VBool true
  /\ attr "title" Demo.guide_intro = VStr "Getting Started"
  /\ attr "no_cache" Demo.guide_intro = VInt 1.
Proof.
  pose proof (X19_content_only_page Demo.docs_site "/apps/docs/www"
                "/apps/docs/www/guide" "docs" "/apps/docs" "intro.html"
                "<!-- title: Getting Started --><!-- no-cache --><p>Intro</p>"
                Demo.guide_intro) as H.
  cbv zeta in H.
  destruct H as (H1 & _ & _ & _ & H5); [vm_refl..|].
  split; [exact H1|]. split; [vm_refl|]. apply H5. vm_refl.
Defined.

(** ** How building a page and a context can fail *)

(** The page shell holds no closing of a comment of its own. *)
Lemma page_shell_tail source :
  PyStr.contains " -->" source = false ->
  PyStr.contains " -->" (page_shell source) = false.
Proof.
  intros H. unfold page_shell, nl.
  change (extends_web +:+ String (ascii_of_nat 10) EmptyString
            +:+ "{% block page_content %}" +:+ String (ascii_of_nat 10) EmptyString
            +:+ source +:+ String (ascii_of_nat 10) EmptyString +:+ "{% endblock %}")
    with (extends_web +:+ String (ascii_of_nat 10)
            ("{% block page_content %}" +:+ String (ascii_of_nat 10)
               (source +:+ String (ascii_of_nat 10) "{% endblock %}"))).
  rewrite !contains_app_sep by done. by rewrite H.
Qed.

(** X20.  Three ways building a page fails.  A file name without a dot
    makes [get_page_info] raise [ValueError].  In a directory with a
    name, a file name with a dot whose template the loader does not find
    makes it raise [TemplateNotFound], whatever the extension, also for
    a file whose text would not be used.  And a content-only page with no [.js] or
    [.css] file beside it whose text opens a title comment and nowhere
    holds a space followed by the closing makes it raise
    [IndexError]. *)
Theorem X20_get_page_info_errors (S : site)
    (path basepath app app_path fname : string) :
  let template := relpath S (OsPath.join basepath fname) app_path in
  (PyStr.rsplit1 "." fname = None ->
   get_page_info S path basepath app app_path fname = Raise ValueError)
  /\ (PyStr.rsplit1 "." fname <> None -> basepath <> EmptyString ->
      loader_get_source S template = None ->
      get_page_info S path basepath app app_path fname = Raise TemplateNotFound)
  /\ (forall page_name extn src,
        PyStr.rsplit1 "." fname = Some (page_name, extn) ->
        basepath <> EmptyString ->
        loader_get_source S template = Some src ->
        PyStr.endswith ".html" template || PyStr.endswith ".md" template = true ->
        PyStr.contains "</body>" (rendered S template src) = false ->
        PyStr.contains "{% block" (rendered S template src) = false ->
        os_path_exists S
          (OsPath.join basepath
             (page_basename path basepath fname page_name extn +:+ ".js")) = false ->
        os_path_exists S
          (OsPath.join basepath
             (page_basename path basepath fname page_name extn +:+ ".css")) = false ->
        PyStr.contains "<!-- title:" (rendered S template src) = true ->
        PyStr.contains " -->" (rendered S template src) = false ->
        get_page_info S path basepath app app_path fname = Raise IndexError).
Proof.
  intros template. split; [|split].
  - intros Hsplit. unfold get_page_info. by rewrite Hsplit.
  - intros Hsplit _ Hload.
    destruct (PyStr.rsplit1 "." fname) as [[page_name extn]|] eqn:E; [|done].
    rewrite (get_page_info_unfold S _ _ _ _ _ _ _ E).
    unfold get_source. rewrite page_stub_template. cbn [str_of].
    fold template. by rewrite Hload.
  - intros page_name extn src Hsplit _ Hload Hext Hbody Hblock Hjs Hcss Hopen Htail.
    rewrite (get_page_info_unfold S _ _ _ _ _ _ _ Hsplit).
    set (stub := page_stub S path basepath app_path fname page_name extn).
    assert (str_of (attr "template" stub) = template) as Htpl
      by (unfold stub; by rewrite page_stub_template).
    assert (str_of (attr "basename" stub)
            = page_basename path basepath fname page_name extn) as Hbase.
    { unfold stub, page_stub, page_basename. cbv zeta.
      repeat first [ rewrite attr_insert_eq
                   | rewrite attr_insert_ne by discriminate
                   | rewrite attr_if ].
      cbn [str_of]. by destruct (_ && _). }
    pose proof (get_source_content_only S stub basepath src) as Hsrc.
    cbv zeta in Hsrc. rewrite Htpl in Hsrc.
    rewrite (Hsrc Hload Hext Hbody Hblock). clear Hsrc. cbn [rbind fst snd].
    assert (sibling_text S stub basepath = EmptyString) as ->
      by (unfold sibling_text; by rewrite Hbase, Hjs, Hcss).
    unfold script_block. rewrite String.eqb_refl. cbn [negb]. rewrite app_nil_r.
    rewrite attr_insert_ne, attr_insert_eq by discriminate. cbn [truthy].
    set (r := rendered S template src) in *.
    assert (load_properties
              (<["source" := VStr (page_shell r)]>
                 (<["only_content" := VBool true]> stub)) = Raise IndexError) as ->;
      [|done].
    apply load_properties_raises. rewrite attr_insert_eq. cbn [str_of].
    unfold found_title.
    assert (PyStr.contains "<!-- title:" (page_shell r) = true) as ->.
    { unfold page_shell. apply contains_spec.
      apply contains_spec in Hopen as (u & v & ->).
      exists (extends_web +:+ nl +:+ "{% block page_content %}" +:+ nl +:+ u),
             (v +:+ nl +:+ "{% endblock %}").
      by rewrite !app_assoc. }
    destruct (Re.findall_title (page_shell r)) as [|g more] eqn:E; [done|].
    apply findall_needs_tail in E. by rewrite page_shell_tail in E.
Qed.

(** [README] on the second demo site; a file [news.css] whose template
    the loader of the demo site does not know; and [guide/broken.html]
    on the second site, whose title comment is never closed. *)
Lemma X20_witness :
  get_page_info Demo.readme_site "/apps/docs/www" "/apps/docs/www" "docs"
    "/apps/docs" "README" = Raise ValueError
  /\ get_page_info Demo.site "/apps/frappe/www" "/apps/frappe/www" "frappe"
       "/apps/frappe" "news.css" = Raise TemplateNotFound
  /\ get_page_info Demo.docs_site "/apps/docs/www" "/apps/docs/www/guide" "docs"
       "/apps/docs" "broken.html" = Raise IndexError.
Proof.
  split; [|split].
  - apply (proj1 (X20_get_page_info_errors Demo.readme_site "/apps/docs/www"
                    "/apps/docs/www" "docs" "/apps/docs" "README")).
    reflexivity.
  - apply (proj1 (proj2 (X20_get_page_info_errors Demo.site "/apps/frappe/www"
                           "/apps/frappe/www" "frappe" "/apps/frappe" "news.css")));
      [discriminate | discriminate | vm_refl].
  - apply (proj2 (proj2 (X20_get_page_info_errors Demo.docs_site "/apps/docs/www"
                           "/apps/docs/www/guide" "docs" "/apps/docs" "broken.html"))
             "broken" "html" "<!-- title: Oops<p>Broken</p>");
      first [discriminate | vm_refl].
Defined.

(** X21.  [get_page_context] raises only what [make_page_context]
    raises from the same store, and raises nothing when the cache
    answers: the local that is bound only when the cache may be read is
    never read unbound. *)
Theorem X21_get_page_context_errors (S : site) (path : string) (st : state)
    (e : exn) :
  fst (get_page_context S path st) = Raise e ->
  context_truthy (cached_context S st path) = false
  /\ make_page_context S path st = get_page_context S path st.
Proof.
  rewrite get_page_context_eq.
  destruct (context_truthy (cached_context S st path)); [done|].
  by destruct (make_page_context S path st) as [[ctx|e'] st1].
Qed.

(** The second demo site: the scan fails, so do both. *)
Lemma X21_witness :
  context_truthy (cached_context Demo.readme_site empty_state "index") = false
  /\ make_page_context Demo.readme_site "index" empty_state
     = get_page_context Demo.readme_site "index" empty_state.
Proof.
  apply (X21_get_page_context_errors Demo.readme_site "index" empty_state ValueError).
  vm_refl.
Defined.

(** ** C5: the list of pages follows the discovery order *)

Section Discovery_facts.
Context (S : site).

Lemma get_pages_from_path_discovered path app app_path st pages st' :
  get_pages_from_path S path app app_path st = (Ok pages, st') ->
  Forall2 (fun f p => page_of S f = Ok p) (discovered_in S app app_path path) pages.
Proof.
  unfold get_pages_from_path, discovered_in. destruct (os_path_exists S path).
  - intros (_ & _ & found & -> & Hall)%scan_dirs_ok. simpl.
    induction Hall as [|bf p bfs ps Hp _ IH]; simpl; by constructor.
  - intros [= <- <-]. constructor.
Qed.

Lemma scan_app_discovered acc app st out st' :
  scan_app S acc app st = (Ok out, st') ->
  exists found,
    out = acc ++ found
    /\ Forall2 (fun f p => page_of S f = Ok p)
         (discovered_in S app (get_app_path S app)
            (OsPath.join (OsPath.join (get_app_path S app) "templates") "pages")
          ++ discovered_in S app (get_app_path S app)
               (OsPath.join (get_app_path S app) "www"))
         found.
Proof.
  unfold scan_app, bind, ret.
  destruct (get_pages_from_path S _ app _ st) as [[found1|e] st1] eqn:H1; [|done].
  destruct (get_pages_from_path S _ app _ st1) as [[found2|e] st2] eqn:H2; [|done].
  intros [= <- <-]. exists (found1 ++ found2). split; [by rewrite List.app_assoc|].
  apply Forall2_app; by eapply get_pages_from_path_discovered.
Qed.

Lemma scan_apps_discovered apps : forall acc st out st',
  foldM (scan_app S) acc apps st = (Ok out, st') ->
  exists found,
    out = acc ++ found
    /\ Forall2 (fun f p => page_of S f = Ok p)
         (flat_map
            (fun app =>
               let app_path := get_app_path S app in
               discovered_in S app app_path
                 (OsPath.join (OsPath.join app_path "templates") "pages")
               ++ discovered_in S app app_path (OsPath.join app_path "www"))
            apps)
         found.
Proof.
  induction apps as [|app apps IH]; intros acc st out st'; simpl.
  - intros [= <- <-]. exists []. split; [by rewrite List.app_nil_r | constructor].
  - unfold bind. destruct (scan_app S acc app st) as [[mid|e] st1] eqn:Happ; [|done].
    intros (found2 & -> & H2)%IH.
    apply scan_app_discovered in Happ as (found1 & -> & H1).
    exists (found1 ++ found2). split; [by rewrite List.app_assoc|].
    by apply Forall2_app.
Qed.

(** On a miss of the page cache the list [get_pages] returns holds the
    pages of the discovered files, one for each, in discovery order. *)
Lemma get_pages_discovered st pages :
  page_cache_miss S st -> fst (get_pages S st) = Ok pages ->
  Forall2 (fun f p => page_of S f = Ok p) (discovered S) pages.
Proof.
  intros Hmiss. rewrite (get_pages_miss S st Hmiss).
  destruct (foldM _ _ _ st) as [[out|e] st1] eqn:Hscan; [|done].
  intros [= <-]. by apply scan_apps_discovered in Hscan as (found & -> & Hall).
Qed.

(** A call right after a call that returned a list returns it again. *)
Lemma get_pages_again st pages :
  fst (get_pages S st) = Ok pages ->
  fst (get_pages S (snd (get_pages S st))) = Ok pages.
Proof.
  destruct (get_pages_unfold S) as (r & l & H). rewrite !H.
  destruct (if can_cache S (VBool false) then cache_website_pages st else _)
    as [[|p ps]|] eqn:E; simpl.
  2:{ intros [= <-]. simpl. by rewrite E. }
  all: destruct r as [pages'|e]; [|done]; intros [= ->]; simpl;
    destruct (can_cache S (VBool false)); by destruct pages.
Qed.

(** The first discovered file with a route gives the first page of the
    list with that route. *)
Lemma first_discovered_first_page path before f after p pages :
  Forall2 (fun f p => page_of S f = Ok p) (before ++ f :: after) pages ->
  page_of S f = Ok p -> attr "page_name" p = VStr path ->
  Forall (fun g => forall q, page_of S g = Ok q -> attr "page_name" q <> VStr path)
         before ->
  first_page path pages = Some p.
Proof.
  intros Hall Hf Hp Hbefore.
  apply Forall2_app_inv_l in Hall as (pb & rest & Hb & Hrest & ->).
  inversion Hrest as [|? p' ? pa Hf' _]; subst.
  assert (p' = p) as -> by congruence.
  unfold first_page. clear Hrest Hf'.
  induction Hb as [|g q gs qs Hq _ IH]; simpl.
  - by rewrite bool_decide_eq_true_2.
  - inversion Hbefore as [|? ? Hg Hgs]; subst.
    rewrite bool_decide_eq_false_2 by (by apply Hg). by apply IH.
Qed.

(** Files whose pages have other routes. *)
Lemma other_routes_before path files pages :
  Forall2 (fun f p => page_of S f = Ok p) files pages ->
  Forall (fun q => attr "page_name" q <> VStr path) pages ->
  Forall (fun g => forall q, page_of S g = Ok q -> attr "page_name" q <> VStr path)
         files.
Proof.
  induction 1 as [|g q gs qs Hq _ IH]; intros Hother; [constructor|].
  inversion Hother; subst. constructor; [|by apply IH].
  intros q' Hq'. congruence.
Qed.

End Discovery_facts.

(** C5 (amended).  When several file pages share a route, resolving it
    returns the one discovered first.  The discovery order is that of
    the scan: the installed apps in their order, for each app
    [templates/pages] before [www], each in walk order.  When the page
    cache does not answer and the scan succeeds, the list [get_pages]
    returns holds the pages of the discovered files in that order; a
    file with the route that no earlier discovered file shares is the
    one the file-page lookup and [resolve_route] return, whatever files
    with that route are discovered after it, and also on the next
    request, which the cache may answer. *)
Theorem C5_first_discovered_wins (S : site) (path : string) (st : state)
    (pages : list frappe_dict) (before after : list found_file) (f : found_file)
    (p : frappe_dict) :
  page_cache_miss S st ->
  fst (get_pages S st) = Ok pages ->
  discovered S = before ++ f :: after ->
  page_of S f = Ok p ->
  attr "page_name" p = VStr path ->
  Forall (fun g => forall q, page_of S g = Ok q -> attr "page_name" q <> VStr path)
         before ->
  Forall2 (fun g q => page_of S g = Ok q) (discovered S) pages
  /\ fst (get_page_context_from_template S path st) = Ok (Some p)
  /\ (str_in path ["about"; "contact"] = false ->
      fst (resolve_route S path st) = Ok (Some p))
  /\ fst (get_page_context_from_template S path (snd (get_pages S st)))
     = Ok (Some p).
Proof.
  intros Hmiss Hpages Hfound Hf Hp Hbefore.
  pose proof (get_pages_discovered S st pages Hmiss Hpages) as Hall.
  split; [exact Hall|]. rewrite Hfound in Hall.
  pose proof (first_discovered_first_page S path before f after p pages
                Hall Hf Hp Hbefore) as Hfirst.
  assert (file_answer S st path = Ok (Some p)) as Hfile
    by (unfold file_answer; by rewrite Hpages, Hfirst).
  split; [by rewrite from_template_eq|]. split.
  - intros Hspecial. rewrite resolve_route_eq, Hspecial, Hfile. simpl.
    by apply first_page_truthy in Hfirst as (_ & _ & ->).
  - rewrite from_template_eq. simpl. unfold file_answer.
    by rewrite (get_pages_again S st pages Hpages), Hfirst.
Qed.

(** On the demo site [foo.html] is found in app [frappe] and again in
    app [erpnext], which is installed after it; five files are found
    before the first.  Resolving [foo] gives the page of app
    [frappe]. *)
Lemma C5_witness :
  map (fun f => (found_app f, found_basepath f, found_fname f)) (discovered Demo.site)
  = [ ("frappe", "/apps/frappe/www", "index.html");
      ("frappe", "/apps/frappe/www", "about.html");
      ("frappe", "/apps/frappe/www", "page.html");
      ("frappe", "/apps/frappe/www", "page.js");
      ("frappe", "/apps/frappe/www", "page.css");
      ("frappe", "/apps/frappe/www", "foo.html");
      ("frappe", "/apps/frappe/www/blog", "index.html");
      ("frappe", "/apps/frappe/www/.well-known", "index.md");
      ("erpnext", "/apps/erpnext/www", "foo.html") ]
  /\ attr "controller" Demo.foo_page = VStr "frappe.www.foo"
  /\ fst (get_page_context_from_template Demo.site "foo" empty_state)
     = Ok (Some Demo.foo_page)
  /\ fst (resolve_route Demo.site "foo" empty_state) = Ok (Some Demo.foo_page)
  /\ fst (get_page_context_from_template Demo.site "foo"
            (snd (get_pages Demo.site empty_state)))
     = Ok (Some Demo.foo_page).
Proof.
  split; [vm_refl|]. split; [vm_refl|].
  assert (page_cache_miss Demo.site empty_state) as Hmiss by (right; by left).
  assert (fst (get_pages Demo.site empty_state) = Ok Demo.pages) as Hpages by vm_refl.
  assert (discovered Demo.site
          = take 5 (discovered Demo.site) ++ Demo.foo_file
              :: drop 6 (discovered Demo.site)) as Hfound by vm_refl.
  assert (page_of Demo.site Demo.foo_file = Ok Demo.foo_page) as Hf by vm_refl.
  assert (attr "page_name" Demo.foo_page = VStr "foo") as Hp by vm_refl.
  assert (Forall (fun g => forall q, page_of Demo.site g = Ok q ->
                                     attr "page_name" q <> VStr "foo")
                 (take 5 (discovered Demo.site))) as Hbefore.
  { apply (other_routes_before Demo.site "foo" _ (take 5 Demo.pages)).
    - apply Forall2_take.
      exact (get_pages_discovered Demo.site empty_state Demo.pages Hmiss Hpages).
    - apply first_page_none. vm_refl. }
  destruct (C5_first_discovered_wins Demo.site "foo" empty_state Demo.pages
              (take 5 (discovered Demo.site)) (drop 6 (discovered Demo.site))
              Demo.foo_file Demo.foo_page Hmiss Hpages Hfound Hf Hp Hbefore)
    as (_ & H1 & H2 & H3).
  split; [exact H1|]. split; [exact (H2 eq_refl) | exact H3].
Defined.
